(** * The Finnhub -> n8n bridge of [server.js], as a state machine

    The bridge is a single-threaded Node.js program: module-level variables
    ([SYMBOLS], [ws], [reconnectAttempts], [stats]) mutated by callbacks that
    the event loop runs one at a time.  The embedding keeps that shape:

    - the module-level variables and the runtime objects they point to
      (WebSocket objects, pending timers, suspended [sendToN8n] calls) form
      a record [World];
    - every callback of the source is a computation in a small state and
      exception monad [M] over [World], written in the order of the source;
    - what the program does to the outside (frames written to a socket,
      HTTP posts, sockets opened or terminated) is appended to the [out]
      trace of the world;
    - the event loop is the function [step], one [event] at a time.

    The second program of the file, the earlier Newsfilter bridge, has its
    own module [Newsfilter].

    What is not modelled: console output, the shutdown handlers, the text
    of a frame before [JSON.parse] (an inbound frame is given by the result
    of parsing it), JSON numbers that are not integers, and characters
    outside ASCII in [toUpperCase] and [trim]. Counters are unbounded
    integers. The [ws] and [axios] packages are modelled by what the source
    relies on: a constructor that throws on a URL it cannot parse,
    [readyState] (set before the event that reports the change is emitted),
    [send], [terminate], and a promise that is rejected for a status
    outside 2xx or for no response. An exception that no handler catches
    ends the process: it is the last effect of a run, and the events listed
    after it in a trace are not events of the program. *)

From Stdlib Require Import ZArith String Ascii List Bool Lia DecimalString.
From stdpp Require Import base option list gmap strings.

Open Scope string_scope.
Open Scope Z_scope.

(** ** JavaScript values, as [JSON.parse] and object literals build them *)

#[warnings="-register-all"]
Inductive value :=
| VUndefined
| VNull
| VBool (b : bool)
| VNum (z : Z)
| VStr (s : string)
| VArr (items : list value)
| VObj (fields : list (string * value)).

Definition string_of_Z (z : Z) : string := NilZero.string_of_int (Z.to_int z).

(** [ToBoolean]: what [if (v)], [!v], [v && _] and [v || _] look at. *)
Definition truthy (v : value) : bool :=
  match v with
  | VUndefined | VNull => false
  | VBool b => b
  | VNum z => negb (z =? 0)
  | VStr s => negb (String.eqb s "")
  | VArr _ | VObj _ => true
  end.

(** [a || b] *)
Definition js_or (a b : value) : value := if truthy a then a else b.

(** [v === 'lit'] for a string literal. *)
Definition is_str (v : value) (lit : string) : bool :=
  match v with VStr s => String.eqb s lit | _ => false end.

(** Own-property lookup in an object literal. *)
Fixpoint field (k : string) (fs : list (string * value)) : value :=
  match fs with
  | [] => VUndefined
  | (k', v) :: r => if String.eqb k k' then v else field k r
  end.

(** [Object.hasOwn(obj, k)] *)
Fixpoint has_key (k : string) (fs : list (string * value)) : bool :=
  match fs with
  | [] => false
  | (k', _) :: r => String.eqb k k' || has_key k r
  end.

(** ** Exceptions *)

Inductive exn :=
| SyntaxError       (* JSON.parse, new WebSocket on a URL it cannot parse *)
| TypeError         (* property of null, call of a non-function, ToPrimitive *)
| WsNotOpen         (* ws.send while CONNECTING *)
| AxiosError.       (* rejected axios.post *)

Inductive result (A : Type) :=
| Ok (a : A)
| Throw (e : exn).
Arguments Ok {A} a.
Arguments Throw {A} e.

(** ** [Number::toString] on integers

    [VNum z] stands for the JSON number with the integer value [z];
    [JSON.parse] keeps the nearest double, and the text of a double is the
    shortest decimal that reads back as it, printed in full up to 21 digits
    and with an exponent beyond. *)

(** The double nearest to a non-negative integer, ties to the even
    mantissa. *)
Definition round_to_double (a : Z) : Z :=
  if a <? 2 ^ 53 then a
  else
    let sh := Z.log2 a - 52 in
    let q := Z.shiftr a sh in
    let r := a - Z.shiftl q sh in
    let half := 2 ^ (sh - 1) in
    let q' := if (half <? r) || ((r =? half) && Z.odd q) then q + 1 else q in
    Z.shiftl q' sh.

(** Whether the decimal [d] reads back as the double [m], for [m >= 2^53]:
    it lies within half a gap of [m], the gap below a power of two being
    half the gap above it, and the ends count when the mantissa is even. *)
Definition reads_back (m d : Z) : bool :=
  let sh := Z.log2 m - 52 in
  let q := Z.shiftr m sh in
  let above := 2 ^ (sh + 1) in
  let below := if q =? 2 ^ 52 then 2 ^ sh else 2 ^ (sh + 1) in
  let x := 4 * (d - m) in
  if Z.even q then (- below <=? x) && (x <=? above)
  else (- below <? x) && (x <? above).

Definition digits (m : Z) : Z := Z.of_nat (String.length (string_of_Z m)).

(** The decimal with the fewest significant digits that reads back as [m],
    the nearest to [m] among those, the even one on a tie. *)
Fixpoint shortest (fuel : nat) (k : Z) (m : Z) : Z :=
  match fuel with
  | O => m
  | S fuel' =>
      let n := digits m in
      if n <=? k then m
      else
        let scale := 10 ^ (n - k) in
        let a := (m / scale) * scale in
        let b := a + scale in
        match reads_back m a, reads_back m b with
        | true, true =>
            if m - a <? b - m then a
            else if b - m <? m - a then b
            else if Z.even (m / scale) then a else b
        | true, false => a
        | false, true => b
        | false, false => shortest fuel' (k + 1) m
        end
  end.

Fixpoint strip_zeros (s : string) : string :=
  match s with
  | EmptyString => EmptyString
  | String c r =>
      match strip_zeros r with
      | EmptyString => if Ascii.eqb c "0" then EmptyString else String c EmptyString
      | r' => String c r'
      end
  end.

Definition number_text (a : Z) : string :=
  let m := round_to_double a in
  if 2 ^ 1024 <=? m then "Infinity"
  else
    let d := if m <? 2 ^ 53 then m else shortest 17 1 m in
    let text := string_of_Z d in
    let n := digits d in
    if n <=? 21 then text
    else
      match strip_zeros text with
      | EmptyString => text
      | String c EmptyString => String c EmptyString +:+ "e+" +:+ string_of_Z (n - 1)
      | String c rest => String c ("." +:+ rest) +:+ "e+" +:+ string_of_Z (n - 1)
      end.

Definition Number_toString (z : Z) : string :=
  if z <? 0 then "-" +:+ number_text (- z) else number_text z.

(** [ToString], as a template literal applies it. An object that has an own
    property [toString] (never callable in a parsed frame) cannot be
    converted: [ToPrimitive] throws a [TypeError]. An array joins the texts
    of its elements, empty for [null] and [undefined]. *)
Fixpoint to_string (v : value) : result string :=
  match v with
  | VUndefined => Ok "undefined"
  | VNull => Ok "null"
  | VBool true => Ok "true"
  | VBool false => Ok "false"
  | VNum z => Ok (Number_toString z)
  | VStr s => Ok s
  | VArr items =>
      (fix join (l : list value) : result string :=
         let elem x := match x with
                       | VUndefined | VNull => Ok ""
                       | _ => to_string x
                       end in
         match l with
         | [] => Ok ""
         | [x] => elem x
         | x :: r =>
             match elem x with
             | Ok t => match join r with
                       | Ok rest => Ok (t +:+ "," +:+ rest)
                       | Throw e => Throw e
                       end
             | Throw e => Throw e
             end
         end) items
  | VObj fs => if has_key "toString" fs then Throw TypeError else Ok "[object Object]"
  end.

(** Writing a property: an existing key keeps its place, a new key goes last
    (the order [{...a, ...b}] and [JSON.stringify] follow). *)
Fixpoint set_field (k : string) (v : value) (fs : list (string * value))
  : list (string * value) :=
  match fs with
  | [] => [(k, v)]
  | (k', v') :: r =>
      if String.eqb k k' then (k, v) :: r else (k', v') :: set_field k v r
  end.

(** [{...base, ...extra}] *)
Definition spread (base extra : list (string * value)) : list (string * value) :=
  fold_left (fun acc kv => set_field (fst kv) (snd kv) acc) extra base.

(** ** Strings: [toUpperCase], [trim], [split(',')] on ASCII *)

Definition upper_ascii (c : ascii) : ascii :=
  let n := N_of_ascii c in
  if ((97 <=? n) && (n <=? 122))%N then ascii_of_N (n - 32) else c.

Fixpoint toUpperCase (s : string) : string :=
  match s with
  | EmptyString => EmptyString
  | String c r => String (upper_ascii c) (toUpperCase r)
  end.

Definition is_space (c : ascii) : bool :=
  let n := N_of_ascii c in
  ((n =? 32) || ((9 <=? n) && (n <=? 13)))%N.

Fixpoint trim_start (s : string) : string :=
  match s with
  | EmptyString => EmptyString
  | String c r => if is_space c then trim_start r else s
  end.

Fixpoint trim_end (s : string) : string :=
  match s with
  | EmptyString => EmptyString
  | String c r =>
      match trim_end r with
      | EmptyString => if is_space c then EmptyString else String c EmptyString
      | r' => String c r'
      end
  end.

Definition trim (s : string) : string := trim_end (trim_start s).

(** [s.split(',')]: the pieces between commas, at least one piece. *)
Fixpoint split_comma (s : string) : list string :=
  match s with
  | EmptyString => [EmptyString]
  | String c r =>
      if Ascii.eqb c "," then EmptyString :: split_comma r
      else match split_comma r with
           | [] => [String c EmptyString]
           | p :: ps => String c p :: ps
           end
  end.

(** ** Configuration (lines 15-18), read once from the environment *)

Record Config := {
  FINNHUB_API_KEY : option string;
  FINNHUB_WS_URL_env : option string;
  N8N_WEBHOOK_URL : option string;
  SYMBOLS_env : option string
}.

(** An environment variable is a string or absent; both the absent one and
    the empty one are falsy. *)
Definition env_set (o : option string) : bool :=
  match o with
  | Some s => negb (String.eqb s "")
  | None => false
  end.

Definition env_or (o : option string) (dflt : string) : string :=
  match o with
  | Some s => if String.eqb s "" then dflt else s
  | None => dflt
  end.

Definition FINNHUB_WS_URL (cfg : Config) : string :=
  env_or (FINNHUB_WS_URL_env cfg) "wss://ws.finnhub.io".

(** Line 18. *)
Definition SYMBOLS_init (cfg : Config) : list string :=
  if env_set (SYMBOLS_env cfg)
  then map (fun s => toUpperCase (trim s)) (split_comma (env_or (SYMBOLS_env cfg) ""))
  else ["AAPL"].

Definition MAX_RECONNECT_ATTEMPTS : Z := 10.
Definition BASE_RECONNECT_DELAY : Z := 2000.

(** ** The world: module variables and the runtime objects behind them *)

Record Stats := {
  connected : bool;
  lastMessage : option Z;
  messagesReceived : Z;
  messagesSent : Z;
  connectionTime : option Z;
  errors : Z
}.

(** [readyState] of a WebSocket object of the [ws] package. *)
Inductive ReadyState := CONNECTING | OPEN | CLOSING | CLOSED.

Global Instance ReadyState_eq_dec : EqDecision ReadyState.
Proof. solve_decision. Defined.

(** The callbacks the source hands to [setTimeout]. *)
Inductive callback :=
| CbSubscribeAll        (* line 207: subscribeToAllSymbols *)
| CbReconnect.          (* line 269: () => connectToFinnhub() *)

(** What the program does to the outside, in the order it does it. A socket
    is named by the number of the [new WebSocket] call that made it. *)
Inductive effect :=
| WsNew (s : nat) (url : string)
| WsSend (s : nat) (frame : value)
| WsPing (s : nat)
| WsTerminate (s : nat)
| HttpPost (url : string) (payload : value)   (* the object handed to axios.post *)
| ProcessExit (e : exn).                      (* an exception nothing catches *)

Record World := {
  SYMBOLS : list string;
  ws : option nat;
  reconnectAttempts : Z;
  stats : Stats;
  heap : gmap nat ReadyState;       (* every WebSocket object made so far *)
  next_sock : nat;
  timers : list (Z * callback);     (* pending setTimeout calls: delay, callback *)
  inflight : list value;            (* sendToN8n calls suspended at [await] *)
  out : list effect
}.

Definition set_SYMBOLS (x : list string) (w : World) : World :=
  {| SYMBOLS := x; ws := ws w; reconnectAttempts := reconnectAttempts w;
     stats := stats w; heap := heap w; next_sock := next_sock w;
     timers := timers w; inflight := inflight w; out := out w |}.
Definition set_ws (x : option nat) (w : World) : World :=
  {| SYMBOLS := SYMBOLS w; ws := x; reconnectAttempts := reconnectAttempts w;
     stats := stats w; heap := heap w; next_sock := next_sock w;
     timers := timers w; inflight := inflight w; out := out w |}.
Definition set_reconnectAttempts (x : Z) (w : World) : World :=
  {| SYMBOLS := SYMBOLS w; ws := ws w; reconnectAttempts := x;
     stats := stats w; heap := heap w; next_sock := next_sock w;
     timers := timers w; inflight := inflight w; out := out w |}.
Definition set_stats (x : Stats) (w : World) : World :=
  {| SYMBOLS := SYMBOLS w; ws := ws w; reconnectAttempts := reconnectAttempts w;
     stats := x; heap := heap w; next_sock := next_sock w;
     timers := timers w; inflight := inflight w; out := out w |}.
Definition set_heap (x : gmap nat ReadyState) (w : World) : World :=
  {| SYMBOLS := SYMBOLS w; ws := ws w; reconnectAttempts := reconnectAttempts w;
     stats := stats w; heap := x; next_sock := next_sock w;
     timers := timers w; inflight := inflight w; out := out w |}.
Definition set_next_sock (x : nat) (w : World) : World :=
  {| SYMBOLS := SYMBOLS w; ws := ws w; reconnectAttempts := reconnectAttempts w;
     stats := stats w; heap := heap w; next_sock := x;
     timers := timers w; inflight := inflight w; out := out w |}.
Definition set_timers (x : list (Z * callback)) (w : World) : World :=
  {| SYMBOLS := SYMBOLS w; ws := ws w; reconnectAttempts := reconnectAttempts w;
     stats := stats w; heap := heap w; next_sock := next_sock w;
     timers := x; inflight := inflight w; out := out w |}.
Definition set_inflight (x : list value) (w : World) : World :=
  {| SYMBOLS := SYMBOLS w; ws := ws w; reconnectAttempts := reconnectAttempts w;
     stats := stats w; heap := heap w; next_sock := next_sock w;
     timers := timers w; inflight := x; out := out w |}.
Definition set_out (x : list effect) (w : World) : World :=
  {| SYMBOLS := SYMBOLS w; ws := ws w; reconnectAttempts := reconnectAttempts w;
     stats := stats w; heap := heap w; next_sock := next_sock w;
     timers := timers w; inflight := inflight w; out := x |}.

Definition set_connected (b : bool) (s : Stats) : Stats :=
  {| connected := b; lastMessage := lastMessage s;
     messagesReceived := messagesReceived s; messagesSent := messagesSent s;
     connectionTime := connectionTime s; errors := errors s |}.
Definition set_lastMessage (t : Z) (s : Stats) : Stats :=
  {| connected := connected s; lastMessage := Some t;
     messagesReceived := messagesReceived s; messagesSent := messagesSent s;
     connectionTime := connectionTime s; errors := errors s |}.
Definition incr_messagesReceived (s : Stats) : Stats :=
  {| connected := connected s; lastMessage := lastMessage s;
     messagesReceived := messagesReceived s + 1; messagesSent := messagesSent s;
     connectionTime := connectionTime s; errors := errors s |}.
Definition incr_messagesSent (s : Stats) : Stats :=
  {| connected := connected s; lastMessage := lastMessage s;
     messagesReceived := messagesReceived s; messagesSent := messagesSent s + 1;
     connectionTime := connectionTime s; errors := errors s |}.
Definition set_connectionTime (t : Z) (s : Stats) : Stats :=
  {| connected := connected s; lastMessage := lastMessage s;
     messagesReceived := messagesReceived s; messagesSent := messagesSent s;
     connectionTime := Some t; errors := errors s |}.
Definition incr_errors (s : Stats) : Stats :=
  {| connected := connected s; lastMessage := lastMessage s;
     messagesReceived := messagesReceived s; messagesSent := messagesSent s;
     connectionTime := connectionTime s; errors := errors s + 1 |}.

(** Lines 32-39 and 26-27, with the registry the configuration gives. *)
Definition stats0 : Stats :=
  {| connected := false; lastMessage := None; messagesReceived := 0;
     messagesSent := 0; connectionTime := None; errors := 0 |}.

Definition world0 (cfg : Config) : World :=
  {| SYMBOLS := SYMBOLS_init cfg; ws := None; reconnectAttempts := 0;
     stats := stats0; heap := ∅; next_sock := 0%nat;
     timers := []; inflight := []; out := [] |}.

(** ** Callbacks as computations: state plus exceptions *)

Definition M (A : Type) : Type := World -> result A * World.

Definition ret {A} (a : A) : M A := fun w => (Ok a, w).
Definition throw {A} (e : exn) : M A := fun w => (Throw e, w).
Definition bind {A B} (m : M A) (k : A -> M B) : M B :=
  fun w => match m w with
           | (Ok a, w') => k a w'
           | (Throw e, w') => (Throw e, w')
           end.
(** [try { body } catch (error) { handler }] *)
Definition try_catch {A} (body : M A) (handler : exn -> M A) : M A :=
  fun w => match body w with
           | (Ok a, w') => (Ok a, w')
           | (Throw e, w') => handler e w'
           end.
Definition modify (f : World -> World) : M unit := fun w => (Ok tt, f w).
Definition gets {A} (f : World -> A) : M A := fun w => (Ok (f w), w).
Definition when (b : bool) (m : M unit) : M unit := if b then m else ret tt.

Declare Scope js_scope.
Delimit Scope js_scope with js.
Notation "'let*' x ':=' m 'in' k" := (bind m (fun x => k))
  (at level 10, x name, m at level 100, k at level 200) : js_scope.
Notation "m ;; k" := (bind m (fun _ => k))
  (at level 100, k at level 200, right associativity) : js_scope.
Open Scope js_scope.

(** The world a callback leaves behind, whether it returned or threw. *)
Definition exec {A} (m : M A) (w : World) : World := snd (m w).

Definition emit (e : effect) : M unit :=
  modify (fun w => set_out (out w ++ [e]) w).
Definition update_stats (f : Stats -> Stats) : M unit :=
  modify (fun w => set_stats (f (stats w)) w).
Definition setTimeout (cb : callback) (delay : Z) : M unit :=
  modify (fun w => set_timers (timers w ++ [(delay, cb)]) w).

(** [l.forEach(f)] *)
Fixpoint forEach {A} (l : list A) (f : A -> M unit) : M unit :=
  match l with
  | [] => ret tt
  | x :: r => f x ;; forEach r f
  end.

(** ** Property access and method calls that can throw *)

(** [v.k]: a [TypeError] on [null] and [undefined]; none of the keys the
    source reads is a built-in property of a string, number or array. *)
Definition prop (v : value) (k : string) : M value :=
  match v with
  | VUndefined | VNull => throw TypeError
  | VObj fs => ret (field k fs)
  | _ => ret VUndefined
  end.

(** The same access where the receiver is known to be an object. *)
Definition get (v : value) (k : string) : value :=
  match v with
  | VObj fs => field k fs
  | _ => VUndefined
  end.

(** [v?.substring(0, 80)]: skipped on [null] and [undefined], fine on a
    string, and a call of [undefined] on anything else. *)
Definition optional_substring (v : value) : M unit :=
  match v with
  | VUndefined | VNull | VStr _ => ret tt
  | _ => throw TypeError
  end.

(** [v.toUpperCase()] *)
Definition method_toUpperCase (v : value) : M string :=
  match v with
  | VStr s => ret (toUpperCase s)
  | VUndefined | VNull | VBool _ | VNum _ | VArr _ | VObj _ => throw TypeError
  end.

(** A value inside a template literal. *)
Definition template (v : value) : M string :=
  match to_string v with
  | Ok text => ret text
  | Throw e => throw e
  end.

(** The outcome of a computation that does not touch the world. *)
Definition lift {A} (r : result A) : M A :=
  match r with
  | Ok a => ret a
  | Throw e => throw e
  end.

(** [JSON.parse(data)]: the frame is given by what parsing it yields. *)
Definition JSON_parse (data : option value) : M value :=
  match data with
  | Some v => ret v
  | None => throw SyntaxError
  end.

(** ** The [ws] package, as far as the source uses it *)

(** [readyState] of socket [s]; every socket the program holds is in the
    heap, a name that is not reads as [CLOSED]. *)
Definition readyState (w : World) (s : nat) : ReadyState :=
  default CLOSED (heap w !! s).

(** [ws && ws.readyState === WebSocket.OPEN] *)
Definition ws_is_open (w : World) : bool :=
  match ws w with
  | Some s => bool_decide (readyState w s = OPEN)
  | None => false
  end.

(** [new WebSocket(url)]; the constructor throws a [SyntaxError] on a URL it
    cannot parse, which [url_ok] decides. *)
Definition new_WebSocket (url_ok : string -> bool) (url : string) : M nat :=
  if url_ok url then
    let* s := gets next_sock in
    modify (fun w => set_next_sock (S s) (set_heap (<[s := CONNECTING]> (heap w)) w)) ;;
    emit (WsNew s url) ;;
    ret s
  else throw SyntaxError.

(** [ws.send(frame)] on the module variable [ws]: written to the wire when
    the socket is open, an exception while it is connecting, dropped once it
    is closing or closed (no callback is passed). *)
Definition ws_send (frame : value) : M unit :=
  let* cur := gets ws in
  match cur with
  | None => throw TypeError
  | Some s =>
      let* st := gets (fun w => readyState w s) in
      match st with
      | CONNECTING => throw WsNotOpen
      | OPEN => emit (WsSend s frame)
      | CLOSING | CLOSED => ret tt
      end
  end.

(** [s.terminate()] on a socket that is not closed. *)
Definition ws_terminate (s : nat) : M unit :=
  modify (fun w => set_heap (<[s := CLOSING]> (heap w)) w) ;;
  emit (WsTerminate s).

(** ** Lines 147-180: subscriptions *)

Definition subscribe_frame (symbol : string) : value :=
  VObj [("type", VStr "subscribe"); ("symbol", VStr symbol)].
Definition unsubscribe_frame (symbol : string) : value :=
  VObj [("type", VStr "unsubscribe"); ("symbol", VStr symbol)].
Definition pong_frame : value := VObj [("type", VStr "pong")].

Definition subscribeToSymbol (symbol : string) : M unit :=
  let* is_open := gets ws_is_open in
  when is_open (ws_send (subscribe_frame symbol)).

Definition unsubscribeFromSymbol (symbol : string) : M unit :=
  let* is_open := gets ws_is_open in
  when is_open (ws_send (unsubscribe_frame symbol)).

Definition subscribeToAllSymbols : M unit :=
  let* is_open := gets ws_is_open in
  if negb is_open then ret tt
  else
    let* symbols := gets SYMBOLS in
    forEach symbols subscribeToSymbol.

(** ** Lines 217-233: the transformer *)

(** The object literal; only the template of the default id can throw, and
    it is evaluated only when the frame has no truthy id. [now] is the
    reading of [Date.now()], a number like any other in a template. *)
Definition transform (message : value) (now : Z) : result (list (string * value)) :=
  match
    (if truthy (get message "id") then Ok (get message "id")
     else match to_string (get message "symbol") with
          | Ok text => Ok (VStr (text +:+ "-" +:+ Number_toString now))
          | Throw e => Throw e
          end)
  with
  | Ok id =>
      Ok [ ("type", VStr "news");
           ("symbol", get message "symbol");
           ("headline", get message "headline");
           ("summary", js_or (get message "summary") (VStr ""));
           ("source", js_or (get message "source") (VStr "FinHub"));
           ("url", get message "url");
           ("image", get message "image");
           ("datetime", get message "datetime");
           ("category", js_or (get message "category") (VStr "general"));
           ("id", id);
           ("related", js_or (get message "related") (get message "symbol")) ]
  | Throw e => Throw e
  end.

(** ** Lines 110-145: delivery to the sink *)

(** What becomes of one [axios.post]: a response with a status code, or no
    response at all (refused connection, time-out after 15 s). *)
Inductive http_result :=
| HttpStatus (code : Z)
| NoResponse.

(** axios resolves the promise for a 2xx status and rejects it otherwise. *)
Definition axios_resolves (r : http_result) : bool :=
  match r with
  | HttpStatus code => (200 <=? code) && (code <? 300)
  | NoResponse => false
  end.

(** Line 194. *)
Definition connect_url (cfg : Config) : string :=
  FINNHUB_WS_URL cfg +:+ "?token=" +:+ env_or (FINNHUB_API_KEY cfg) "".

Section Bridge.

(** Whether the [ws] package accepts a URL. *)
Variable url_ok : string -> bool.
Variable cfg : Config.

(** [sendToN8n] up to its [await]: the guard, the payload, the request. The
    call then stays suspended in [inflight] until the sink answers. *)
Definition sendToN8n (newsData : list (string * value)) (iso_now : string) : M unit :=
  if negb (env_set (N8N_WEBHOOK_URL cfg)) then ret tt
  else
    let payload :=
      VObj (spread [ ("source", VStr "finnhub");
                     ("bridge", VStr "finnhub-n8n-bridge");
                     ("timestamp", VStr iso_now) ] newsData) in
    emit (HttpPost (env_or (N8N_WEBHOOK_URL cfg) "") payload) ;;
    modify (fun w => set_inflight (inflight w ++ [VObj newsData]) w).

(** [sendToN8n] from the [await] on: the rest of the [try] block, and the
    [catch] block for a rejected request. *)
Definition sendToN8n_resume (newsData : value) (r : http_result) : M unit :=
  try_catch
    ((if axios_resolves r then ret tt else throw AxiosError) ;;
     optional_substring (get newsData "headline") ;;
     update_stats incr_messagesSent)
    (fun _ => update_stats incr_errors).

(** ** Lines 183-276: the connection and its handlers *)

Definition connectToFinnhub : M unit :=
  let* cur := gets ws in
  match cur with
  | Some s =>
      let* st := gets (fun w => readyState w s) in
      when (negb (bool_decide (st = CLOSED)))
           (ws_terminate s ;; modify (set_ws None))
  | None => ret tt
  end ;;
  if negb (env_set (FINNHUB_API_KEY cfg)) then ret tt
  else
    let wsUrl := connect_url cfg in
    let* s := new_WebSocket url_ok wsUrl in
    modify (set_ws (Some s)) ;;
    update_stats (set_connected false).

(** [ws.on('open', ...)] *)
Definition on_open (now : Z) : M unit :=
  update_stats (set_connected true) ;;
  update_stats (set_connectionTime now) ;;
  modify (set_reconnectAttempts 0) ;;
  setTimeout CbSubscribeAll 1000.

(** [ws.on('message', ...)]. [t_recv] and [t_id] are the two readings of
    [Date.now()], [iso_now] the one of [new Date().toISOString()]. The
    handler names the module variable [ws], not the socket it is bound to. *)
Definition on_message (data : option value) (t_recv t_id : Z) (iso_now : string) : M unit :=
  try_catch
    (let* message := JSON_parse data in
     update_stats incr_messagesReceived ;;
     update_stats (set_lastMessage t_recv) ;;
     let* type := prop message "type" in
     if is_str type "news" then
       (* line 218: the headline cut to 80 characters, the symbol as text *)
       optional_substring (get message "headline") ;;
       template (get message "symbol") ;;
       let* transformedNews := lift (transform message t_id) in
       sendToN8n transformedNews iso_now
     else if is_str type "ping" then
       ws_send pong_frame
     else ret tt)
    (fun _ => update_stats incr_errors).

(** [ws.on('error', ...)] *)
Definition on_error : M unit :=
  update_stats incr_errors ;;
  update_stats (set_connected false).

(** [ws.on('close', ...)] *)
Definition on_close : M unit :=
  update_stats (set_connected false) ;;
  let* attempts := gets reconnectAttempts in
  if attempts <? MAX_RECONNECT_ATTEMPTS then
    let delay := Z.min (BASE_RECONNECT_DELAY * 2 ^ attempts) 30000 in
    modify (set_reconnectAttempts (attempts + 1)) ;;
    setTimeout CbReconnect delay
  else ret tt.

(** Lines 300-304: the keep-alive interval. *)
Definition keep_alive : M unit :=
  let* cur := gets ws in
  match cur with
  | Some s =>
      let* st := gets (fun w => readyState w s) in
      when (bool_decide (st = OPEN)) (emit (WsPing s))
  | None => ret tt
  end.

Definition run_callback (cb : callback) : M unit :=
  match cb with
  | CbSubscribeAll => subscribeToAllSymbols
  | CbReconnect => connectToFinnhub
  end.

(** ** Lines 62-108: the management endpoints *)

(** [res.json(body)] with its status, or the page Express answers with when
    the handler throws. *)
Inductive response :=
| Json (status : Z) (body : value)
| Uncaught (e : exn).

Definition symbols_json (w : World) : value := VArr (map VStr (SYMBOLS w)).

(** [app.post('/symbols/add', ...)]; [symbol] is [req.body.symbol]. *)
Definition symbols_add (symbol : value) : M response :=
  let* accept :=
    if truthy symbol then
      let* upper := method_toUpperCase symbol in
      let* symbols := gets SYMBOLS in
      if negb (bool_decide (upper ∈ symbols))
      then ret (Z.of_nat (length symbols) <? 50)
      else ret false
    else ret false in
  if (accept : bool) then
    let* upperSymbol := method_toUpperCase symbol in
    modify (fun w => set_SYMBOLS (SYMBOLS w ++ [upperSymbol]) w) ;;
    (let* is_open := gets ws_is_open in
     when is_open (subscribeToSymbol upperSymbol)) ;;
    let* symbols := gets symbols_json in
    ret (Json 200 (VObj [ ("message", VStr ("Added " +:+ upperSymbol));
                          ("symbols", symbols) ]))
  else
    ret (Json 400 (VObj [ ("error", VStr "Invalid symbol or limit reached (50 max)") ])).

(** [SYMBOLS.indexOf(symbol)], [None] for -1. *)
Fixpoint indexOf (symbol : string) (l : list string) : option nat :=
  match l with
  | [] => None
  | x :: r => if String.eqb x symbol then Some 0%nat else S <$> indexOf symbol r
  end.

(** [app.delete('/symbols/:symbol', ...)]; [param] is [req.params.symbol]. *)
Definition symbols_delete (param : string) : M response :=
  let symbol := toUpperCase param in
  let* symbols := gets SYMBOLS in
  match indexOf symbol symbols with
  | Some index =>
      modify (set_SYMBOLS (delete index symbols)) ;;
      (let* is_open := gets ws_is_open in
       when is_open (unsubscribeFromSymbol symbol)) ;;
      let* symbols := gets symbols_json in
      ret (Json 200 (VObj [ ("message", VStr ("Removed " +:+ symbol));
                            ("symbols", symbols) ]))
  | None =>
      ret (Json 404 (VObj [ ("error", VStr "Symbol not found") ]))
  end.

(** [app.post('/restart', ...)] *)
Definition restart : M response :=
  modify (set_reconnectAttempts 0) ;;
  connectToFinnhub ;;
  ret (Json 200 (VObj [ ("message", VStr "Reconnection initiated") ])).

(** ** The event loop *)

Inductive event :=
| Listening                                   (* line 291: the server is up *)
| SockOpen (s : nat) (now : Z)
| SockMessage (s : nat) (data : option value) (t_recv t_id : Z) (iso_now : string)
| SockError (s : nat)
| SockClose (s : nat)
| TimerFires (i : nat)                        (* the i-th pending timer *)
| KeepAliveTick
| SinkAnswers (i : nat) (r : http_result)     (* the i-th suspended delivery *)
| PostSymbolsAdd (symbol : value)
| DeleteSymbol (param : string)
| PostRestart.

(** The [ws] package sets [readyState] before it emits an event: OPEN
    before ['open'], CLOSING before ['error'], CLOSED before ['close']. *)
Definition set_readyState (s : nat) (r : ReadyState) (w : World) : World :=
  set_heap (<[s := r]> (heap w)) w.

(** A callback the event loop runs with nothing around it: an exception it
    throws ends the process. *)
Definition top_level (m : M unit) (w : World) : World :=
  match m w with
  | (Ok _, w') => w'
  | (Throw e, w') => set_out (out w' ++ [ProcessExit e]) w'
  end.

Definition fire_timer (i : nat) (w : World) : World :=
  match timers w !! i with
  | Some (_, cb) => top_level (run_callback cb) (set_timers (delete i (timers w)) w)
  | None => w
  end.

Definition sink_answers (i : nat) (r : http_result) (w : World) : World :=
  match inflight w !! i with
  | Some newsData =>
      exec (sendToN8n_resume newsData r) (set_inflight (delete i (inflight w)) w)
  | None => w
  end.

Definition step (ev : event) (w : World) : World :=
  match ev with
  | Listening => top_level connectToFinnhub w
  | SockOpen s now => exec (on_open now) (set_readyState s OPEN w)
  | SockMessage _ data t_recv t_id iso_now => exec (on_message data t_recv t_id iso_now) w
  | SockError s => exec on_error (set_readyState s CLOSING w)
  | SockClose s => exec on_close (set_readyState s CLOSED w)
  | TimerFires i => fire_timer i w
  | KeepAliveTick => exec keep_alive w
  | SinkAnswers i r => sink_answers i r w
  | PostSymbolsAdd symbol => exec (symbols_add symbol) w
  | DeleteSymbol param => exec (symbols_delete param) w
  | PostRestart => exec restart w
  end.

Definition run (evs : list event) (w : World) : World :=
  fold_left (fun w ev => step ev w) evs w.

End Bridge.

(** ** Vocabulary of the properties *)

(** The socket [ws] names, when it is open: the bridge is Connected. *)
Definition current_open (w : World) : option nat :=
  match ws w with
  | Some s => if bool_decide (readyState w s = OPEN) then Some s else None
  | None => None
  end.

(** *** Reconnects *)

(** The socket the program currently holds is closed by the other side. *)
Definition close_current (w : World) : World :=
  match ws w with
  | Some s => exec on_close (set_readyState s CLOSED w)
  | None => w
  end.

(** One failed connection: the current socket closes, and the reconnect
    timer that the close handler set (the last one pending) runs
    [connectToFinnhub]. *)
Definition failure_round (url_ok : string -> bool) (cfg : Config) (w : World) : World :=
  fire_timer url_ok cfg (length (timers w)) (close_current w).

(** The delay the specification gives for the k-th reconnect. *)
Definition backoff_delay (k : Z) : Z := Z.min (2000 * 2 ^ k) 30000.

(** *** The registry *)

(** Requests to the two endpoints that change the registry. *)
Inductive registry_op :=
| Add (symbol : value)
| Remove (param : string).

Definition apply_op (op : registry_op) (w : World) : World :=
  match op with
  | Add symbol => exec (symbols_add symbol) w
  | Remove param => exec (symbols_delete param) w
  end.

Definition apply_ops (ops : list registry_op) (w : World) : World :=
  fold_left (fun w op => apply_op op w) ops w.

(** Topics are stored in upper case. *)
Definition normalized (r : list string) : Prop :=
  Forall (fun t => toUpperCase t = t) r.

(** No two topics equal after upper-casing, at most 50 topics. *)
Definition within_bounds (r : list string) : Prop :=
  NoDup (map toUpperCase r) /\ (length r <= 50)%nat.

(** The invariant the endpoints keep. *)
Definition registry_inv (r : list string) : Prop :=
  normalized r /\ NoDup r /\ (length r <= 50)%nat.

(** The body of the only error answer of the add endpoint. *)
Definition limit_message : value :=
  VObj [ ("error", VStr "Invalid symbol or limit reached (50 max)") ].

(** *** Frames *)

(** An inbound frame that carries a type, a symbol and a headline only. *)
Definition bare_news (symbol headline : string) : value :=
  VObj [ ("type", VStr "news"); ("symbol", VStr symbol); ("headline", VStr headline) ].

(** A frame of the news kind. *)
Definition news_kind (message : value) : bool := is_str (get message "type") "news".

(** Line 218 runs through: [substring] can be called on the headline (it is
    a string, or there is none) and the symbol has a text. *)
Definition line_218_ok (message : value) : bool :=
  match get message "headline" with
  | VUndefined | VNull | VStr _ => true
  | _ => false
  end &&
  match to_string (get message "symbol") with
  | Ok _ => true
  | Throw _ => false
  end.

(** A news frame the handler takes to the transformer. *)
Definition is_news (message : value) : bool :=
  news_kind message && line_218_ok message.

(** The event the transformer makes of a frame; no field when it throws. *)
Definition event_of (message : value) (now : Z) : list (string * value) :=
  match transform message now with
  | Ok event => event
  | Throw _ => []
  end.

Definition is_ping (message : value) : bool := is_str (get message "type") "ping".

Definition ping_message : value := VObj [ ("type", VStr "ping") ].

(** The request body [sendToN8n] posts for an event. *)
Definition sink_payload (newsData : list (string * value)) (iso_now : string) : value :=
  VObj (spread [ ("source", VStr "finnhub");
                 ("bridge", VStr "finnhub-n8n-bridge");
                 ("timestamp", VStr iso_now) ] newsData).

(** The stats after a frame that parsed (lines 213-214). *)
Definition received (t_recv : Z) (s : Stats) : Stats :=
  set_lastMessage t_recv (incr_messagesReceived s).

(** The subscribe frames that replay a registry on socket [s]. *)
Definition replay_frames (s : nat) (r : list string) : list effect :=
  map (fun topic => WsSend s (subscribe_frame topic)) r.

(** *** Concrete runs *)

(** A [ws] package that accepts every URL. *)
Definition any_url (url : string) : bool := true.

(** A configuration with a credential and a sink, one without a sink, one
    without the credential. *)
Definition cfg_demo : Config :=
  {| FINNHUB_API_KEY := Some "token"; FINNHUB_WS_URL_env := None;
     N8N_WEBHOOK_URL := Some "http://n8n.local/webhook"; SYMBOLS_env := None |}.

Definition cfg_no_sink : Config :=
  {| FINNHUB_API_KEY := Some "token"; FINNHUB_WS_URL_env := None;
     N8N_WEBHOOK_URL := None; SYMBOLS_env := None |}.

Definition cfg_no_key : Config :=
  {| FINNHUB_API_KEY := None; FINNHUB_WS_URL_env := None;
     N8N_WEBHOOK_URL := Some "http://n8n.local/webhook"; SYMBOLS_env := None |}.

(** The bridge just started: the first socket is connecting. *)
Definition started (url_ok : string -> bool) (cfg : Config) : World :=
  step url_ok cfg Listening (world0 cfg).

(** The bridge connected: socket 0 is open; the replay timer is pending. *)
Definition connected_world (url_ok : string -> bool) (cfg : Config) : World :=
  step url_ok cfg (SockOpen 0 1700000000000) (started url_ok cfg).

Definition demo_iso : string := "2023-11-14T22:13:20.501Z".

(** The frame of the end-to-end scenario, and a ping, on socket 0. *)
Definition demo_news : event :=
  SockMessage 0 (Some (bare_news "AAPL" "X")) 1700000000500 1700000000501 demo_iso.

Definition demo_ping : event :=
  SockMessage 0 (Some ping_message) 1700000000500 1700000000500 demo_iso.

(** The event of [demo_news]. *)
Definition demo_event : list (string * value) :=
  [ ("type", VStr "news"); ("symbol", VStr "AAPL"); ("headline", VStr "X");
    ("summary", VStr ""); ("source", VStr "FinHub");
    ("url", VUndefined); ("image", VUndefined); ("datetime", VUndefined);
    ("category", VStr "general"); ("id", VStr "AAPL-1700000000501");
    ("related", VStr "AAPL") ].

(** The connected bridge after [demo_news]: one delivery is suspended at
    its [await]. *)
Definition demo_posted : World := step any_url cfg_demo demo_news (connected_world any_url cfg_demo).

(** Configurations whose SYMBOLS variable names a topic twice, and 51
    topics. *)
Definition cfg_twice : Config :=
  {| FINNHUB_API_KEY := Some "token"; FINNHUB_WS_URL_env := None;
     N8N_WEBHOOK_URL := None; SYMBOLS_env := Some "aapl,aapl" |}.

Definition cfg_many : Config :=
  {| FINNHUB_API_KEY := Some "token"; FINNHUB_WS_URL_env := None;
     N8N_WEBHOOK_URL := None;
     SYMBOLS_env :=
       Some (String.concat "," (map (fun n => "s" +:+ string_of_Z (Z.of_nat n)) (seq 0 51))) |}.

(** A registry filled to the cap through the endpoints: AAPL removed, then
    S0 .. S49 added. *)
Definition fill_ops : list registry_op :=
  Remove "AAPL" :: map (fun n => Add (VStr ("S" +:+ string_of_Z (Z.of_nat n)))) (seq 0 50).

Definition full_world : World := apply_ops fill_ops (world0 cfg_demo).

(** A reconnect timer outlives its connection: socket 0 closes and sets the
    timer, a manual restart opens socket 1, socket 1 connects and its replay
    runs; the timer of socket 0 is still pending. *)
Definition restart_trace : list event :=
  [ Listening; SockClose 0; PostRestart; SockOpen 1 1700000001000; TimerFires 1 ].

Definition restarted_world : World := run any_url cfg_demo restart_trace (world0 cfg_demo).

(** A connection that fails before it opens: socket 0 errors and closes,
    the reconnect timer makes socket 1, and socket 1 opens. *)
Definition error_trace : list event :=
  [ Listening; SockError 0; SockClose 0; TimerFires 0; SockOpen 1 1700000001000 ].

(** A [ws] package that accepts no URL. *)
Definition no_url (url : string) : bool := false.

(** ** Lines 41-65: the read-only endpoints *)

(** The numeric [readyState] of the [ws] package. *)
Definition readyState_number (r : ReadyState) : Z :=
  match r with
  | CONNECTING => 0
  | OPEN => 1
  | CLOSING => 2
  | CLOSED => 3
  end.

Definition time_value (t : option Z) : value :=
  match t with
  | Some z => VNum z
  | None => VNull
  end.

(** The [stats] object as [res.json] sees it. *)
Definition stats_fields (s : Stats) : list (string * value) :=
  [ ("connected", VBool (connected s));
    ("lastMessage", time_value (lastMessage s));
    ("messagesReceived", VNum (messagesReceived s));
    ("messagesSent", VNum (messagesSent s));
    ("connectionTime", time_value (connectionTime s));
    ("errors", VNum (errors s)) ].

(** [app.get('/health', ...)] *)
Definition get_health (iso_now : string) : M response :=
  let* is_open := gets ws_is_open in
  let* cur := gets ws in
  let* state :=
    match cur with
    | Some s => let* st := gets (fun w => readyState w s) in
                ret (VNum (readyState_number st))
    | None => ret VNull
    end in
  let* symbols := gets symbols_json in
  let* st := gets stats in
  ret (Json 200 (VObj [ ("service", VStr "finnhub-bridge");
                        ("status", VStr (if is_open then "connected" else "disconnected"));
                        ("websocket_state", state);
                        ("symbols", symbols);
                        ("stats", VObj (stats_fields st));
                        ("timestamp", VStr iso_now) ])).

(** [stats.connectionTime ? Date.now() - stats.connectionTime : 0] *)
Definition uptime (now : Z) (s : Stats) : Z :=
  match connectionTime s with
  | Some t => if t =? 0 then 0 else now - t
  | None => 0
  end.

(** [app.get('/stats', ...)] *)
Definition get_stats (now : Z) : M response :=
  let* st := gets stats in
  let* symbols := gets symbols_json in
  ret (Json 200 (VObj (spread (stats_fields st)
                         [ ("symbols", symbols); ("uptime", VNum (uptime now st)) ]))).

(** [app.get('/symbols', ...)] *)
Definition get_symbols : M response :=
  let* symbols := gets symbols_json in
  ret (Json 200 (VObj [ ("symbols", symbols) ])).

(** ** Vocabulary of the further properties *)

(** The socket [ws] names, unless it is closed: the one [connectToFinnhub]
    terminates. *)
Definition live_socket (w : World) : option nat :=
  match ws w with
  | Some s => if bool_decide (readyState w s = CLOSED) then None else Some s
  | None => None
  end.

(** [connectToFinnhub] in two halves: the current socket is terminated
    unless it is closed, then the next socket is made. *)
Definition terminate_live (w : World) : World :=
  match live_socket w with
  | Some c =>
      set_ws None (set_out (out w ++ [WsTerminate c])
                     (set_heap (<[c := CLOSING]> (heap w)) w))
  | None => w
  end.

Definition open_next (cfg : Config) (w : World) : World :=
  set_stats (set_connected false (stats w))
    (set_ws (Some (next_sock w))
       (set_out (out w ++ [WsNew (next_sock w) (connect_url cfg)])
          (set_next_sock (S (next_sock w))
             (set_heap (<[next_sock w := CONNECTING]> (heap w)) w)))).

(** The subscribe frame of lines 150-153, spelled out. *)
Definition literal_subscribe (s : nat) (topic : string) : effect :=
  WsSend s (VObj [ ("type", VStr "subscribe"); ("symbol", VStr topic) ]).

(** A frame that parsed to something other than [null], whose type is
    neither "news" nor "ping". *)
Definition is_other (message : value) : bool :=
  match message with
  | VUndefined | VNull => false
  | _ => negb (is_str (get message "type") "news")
         && negb (is_str (get message "type") "ping")
  end.

(** What an effect writes to a socket, if anything. *)
Definition wire_socket (e : effect) : option nat :=
  match e with
  | WsSend s _ | WsPing s => Some s
  | WsNew _ _ | WsTerminate _ | HttpPost _ _ | ProcessExit _ => None
  end.

(** An effect written to the wire goes to the open current socket of [w]. *)
Definition on_current (w : World) (e : effect) : Prop :=
  match wire_socket e with
  | Some s => current_open w = Some s
  | None => True
  end.

Definition is_post (e : effect) : bool :=
  match e with
  | HttpPost _ _ => true
  | _ => false
  end.

(** A pending timer as the source sets them: the replay after 1000 ms, a
    reconnect after 2000 to 30000 ms. *)
Definition timer_ok (t : Z * callback) : Prop :=
  match snd t with
  | CbSubscribeAll => fst t = 1000
  | CbReconnect => 2000 <= fst t <= 30000
  end.

Definition backoff_inv (w : World) : Prop :=
  0 <= reconnectAttempts w <= MAX_RECONNECT_ATTEMPTS /\ Forall timer_ok (timers w).

(** A headline [substring] can be called on, or none. *)
Definition printable (v : value) : bool :=
  match v with
  | VUndefined | VNull | VStr _ => true
  | _ => false
  end.

(** Every suspended delivery carries an event the handler let through. *)
Definition inflight_ok (w : World) : Prop :=
  Forall (fun newsData => printable (get newsData "headline") = true) (inflight w).

(** Sockets are numbered in the order they are made; the heap holds those
    made so far, and every socket but the current one is closing or closed. *)
Definition sockets_inv (w : World) : Prop :=
  (forall s, is_Some (heap w !! s) -> (s < next_sock w)%nat) /\
  (forall s, ws w = Some s -> is_Some (heap w !! s)) /\
  (forall s r, heap w !! s = Some r -> ws w <> Some s -> r = CLOSING \/ r = CLOSED).

(** Events the [ws] package can emit: ['open'] on a connecting socket,
    ['error'] and ['close'] on a socket that exists. *)
Definition emittable (ev : event) (w : World) : Prop :=
  match ev with
  | SockOpen s _ => heap w !! s = Some CONNECTING
  | SockError s | SockClose s => is_Some (heap w !! s)
  | _ => True
  end.

Fixpoint emittable_run (url_ok : string -> bool) (cfg : Config)
         (evs : list event) (w : World) : Prop :=
  match evs with
  | [] => True
  | ev :: rest => emittable ev w /\ emittable_run url_ok cfg rest (step url_ok cfg ev w)
  end.

Definition is_sock_open (ev : event) : bool :=
  match ev with
  | SockOpen _ _ => true
  | _ => false
  end.

(** What the client of an endpoint gets: the answer of the handler, or the
    error page of Express, with status 500, when the handler throws. *)
Definition answered (r : result response) : response :=
  match r with
  | Ok a => a
  | Throw e => Uncaught e
  end.

Definition status_of (a : response) : Z :=
  match a with
  | Json status _ => status
  | Uncaught _ => 500
  end.

(** The body a handler answered with. *)
Definition body_of (r : result response) : value :=
  match r with
  | Ok (Json _ body) => body
  | _ => VUndefined
  end.

(** The number of commas in a string. *)
Fixpoint count_commas (s : string) : nat :=
  match s with
  | EmptyString => 0%nat
  | String c r => ((if Ascii.eqb c "," then 1 else 0) + count_commas r)%nat
  end.

(** A string that does not begin with white space. *)
Definition no_lead (s : string) : Prop :=
  match s with
  | EmptyString => True
  | String c _ => is_space c = false
  end.

(** ** The earlier bridge: Newsfilter.io to n8n (second part of the file)

    The file carries a second, self-contained program with its own module
    variables: a reconnect after a fixed interval, no counters, and a
    forwarder that stamps the event. Its handlers have no state to read
    after an [await], so they are functions on the world; where the source
    has a [try] block the cases that throw are named. *)

Module Newsfilter.

Record Config := {
  NEWSFILTER_WS_URL : option string;
  NEWSFILTER_API_KEY : option string;
  N8N_WEBHOOK_URL : option string;
  BRIDGE_SECRET_env : option string
}.

Definition BRIDGE_SECRET (cfg : Config) : string :=
  env_or (BRIDGE_SECRET_env cfg) "your-secret-token".

Definition reconnectInterval : Z := 5000.

(** An environment variable inside a template literal. *)
Definition env_text (o : option string) : string :=
  match o with
  | Some s => s
  | None => "undefined"
  end.

Definition wsUrl (cfg : Config) : string :=
  env_text (NEWSFILTER_WS_URL cfg) +:+ "?apikey=" +:+ env_text (NEWSFILTER_API_KEY cfg).

(** The call of [axios.post] with its URL, its Authorization header and its
    body, and the sockets made. *)
Inductive effect :=
| WsNew (s : nat) (url : string)
| AxiosPost (url : option string) (authorization : string) (payload : value).

Record World := {
  ws : option nat;
  isConnected : bool;
  next_sock : nat;
  timers : list Z;                (* pending setTimeout(connectToNewsfilter, _) *)
  out : list effect
}.

Definition world0 : World :=
  {| ws := None; isConnected := false; next_sock := 0%nat; timers := []; out := [] |}.

Definition set_isConnected (b : bool) (w : World) : World :=
  {| ws := ws w; isConnected := b; next_sock := next_sock w;
     timers := timers w; out := out w |}.

Definition setTimeout_connect (delay : Z) (w : World) : World :=
  {| ws := ws w; isConnected := isConnected w; next_sock := next_sock w;
     timers := timers w ++ [delay]; out := out w |}.

Definition emit (e : effect) (w : World) : World :=
  {| ws := ws w; isConnected := isConnected w; next_sock := next_sock w;
     timers := timers w; out := out w ++ [e] |}.

(** The own enumerable properties [{...v}] copies: those of an object, the
    indices of an array or of a string, none of any other value. *)
Fixpoint indexed (i : nat) (l : list value) : list (string * value) :=
  match l with
  | [] => []
  | x :: r => (string_of_Z (Z.of_nat i), x) :: indexed (S i) r
  end.

Fixpoint chars (s : string) : list value :=
  match s with
  | EmptyString => []
  | String c r => VStr (String c EmptyString) :: chars r
  end.

Definition own_enumerable (v : value) : list (string * value) :=
  match v with
  | VObj fs => fs
  | VArr l => indexed 0 l
  | VStr s => indexed 0 (chars s)
  | VUndefined | VNull | VBool _ | VNum _ => []
  end.

Section Bridge.

(** Whether [new WebSocket(url)] accepts the URL; it throws otherwise. *)
Variable url_ok : string -> bool.
Variable cfg : Config.

(** [connectToNewsfilter]: the previous socket is left as it is. *)
Definition connectToNewsfilter (w : World) : World :=
  if url_ok (wsUrl cfg) then
    {| ws := Some (next_sock w); isConnected := isConnected w;
       next_sock := S (next_sock w); timers := timers w;
       out := out w ++ [WsNew (next_sock w) (wsUrl cfg)] |}
  else
    (* catch *)
    setTimeout_connect reconnectInterval w.

(** The body [forwardToN8n] posts. *)
Definition forward_payload (newsData : value) (iso_now : string) : value :=
  VObj (set_field "source" (VStr "newsfilter-bridge")
          (set_field "bridge_timestamp" (VStr iso_now)
             (spread [] (own_enumerable newsData)))).

(** [forwardToN8n] up to its [await]; what follows only logs. *)
Definition forwardToN8n (newsData : value) (iso_now : string) (w : World) : World :=
  emit (AxiosPost (N8N_WEBHOOK_URL cfg) ("Bearer " +:+ BRIDGE_SECRET cfg)
          (forward_payload newsData iso_now)) w.

(** [ws.on('message', ...)]: [JSON.parse] throws on a frame that does not
    parse, [newsData.headline] throws on [null]; both are caught and logged. *)
Definition on_message (data : option value) (iso_now : string) (w : World) : World :=
  match data with
  | None => w
  | Some VNull | Some VUndefined => w
  | Some newsData => forwardToN8n newsData iso_now w
  end.

Definition on_open (w : World) : World := set_isConnected true w.
Definition on_error (w : World) : World := set_isConnected false w.
Definition on_close (w : World) : World :=
  setTimeout_connect reconnectInterval (set_isConnected false w).

Inductive event :=
| Listening
| SockOpen (s : nat)
| SockMessage (s : nat) (data : option value) (iso_now : string)
| SockError (s : nat)
| SockClose (s : nat)
| TimerFires (i : nat).

Definition fire_timer (i : nat) (w : World) : World :=
  match timers w !! i with
  | Some _ =>
      connectToNewsfilter
        {| ws := ws w; isConnected := isConnected w; next_sock := next_sock w;
           timers := delete i (timers w); out := out w |}
  | None => w
  end.

Definition step (ev : event) (w : World) : World :=
  match ev with
  | Listening => connectToNewsfilter w
  | SockOpen _ => on_open w
  | SockMessage _ data iso_now => on_message data iso_now w
  | SockError _ => on_error w
  | SockClose _ => on_close w
  | TimerFires i => fire_timer i w
  end.

Definition run (evs : list event) (w : World) : World :=
  fold_left (fun w ev => step ev w) evs w.

(** One failed connection: a close, then the timer it set. *)
Definition failure_round (w : World) : World :=
  fire_timer (length (timers w)) (on_close w).

End Bridge.

End Newsfilter.

(** * Properties *)

Ltac js_run :=
  unfold exec, bind, try_catch, when, update_stats, setTimeout, emit, modify, gets,
    ret, throw in *;
  cbn [fst snd] in *.

(** ** The embedding on small inputs *)

Example toUpperCase_mixed : toUpperCase "brk.b-1" = "BRK.B-1".
Proof. reflexivity. Qed.

Example SYMBOLS_from_env :
  SYMBOLS_init {| FINNHUB_API_KEY := None; FINNHUB_WS_URL_env := None;
                  N8N_WEBHOOK_URL := None; SYMBOLS_env := Some "aapl, msft ,,Tsla" |}
  = ["AAPL"; "MSFT"; ""; "TSLA"].
Proof. reflexivity. Qed.

Example id_from_upstream_kept :
  field "id" (event_of (VObj [ ("type", VStr "news"); ("symbol", VStr "AAPL");
                               ("id", VNum 42); ("related", VStr "AAPL,MSFT") ]) 5)
  = VNum 42.
Proof. reflexivity. Qed.

Example to_string_array :
  to_string (VArr [VNum 1; VNull; VArr [VStr "a"; VBool true]]) = Ok "1,,a,true".
Proof. reflexivity. Qed.

Example to_string_numbers :
  map Number_toString
    [ 0; -15; 9007199254740993; 999999999999999999999; 1000000000000000000000;
      123456789012345678901234; 2 ^ 70; -(10 ^ 25); 2 ^ 1024 ]
  = [ "0"; "-15"; "9007199254740992"; "1e+21"; "1e+21";
      "1.2345678901234569e+23"; "1.1805916207174113e+21"; "-1e+25"; "Infinity" ].
Proof. vm_compute. reflexivity. Qed.

(** An object with an own [toString] has no text. *)
Example to_string_throws :
  to_string (VObj [ ("toString", VNum 1) ]) = Throw TypeError /\
  to_string (VArr [ VStr "a"; VObj [ ("toString", VNull) ] ]) = Throw TypeError /\
  to_string (VObj [ ("valueOf", VNum 1) ]) = Ok "[object Object]".
Proof. repeat split. Qed.

(** A frame that parses to [null] counts as received and as an error. *)
Example null_frame :
  stats (step any_url cfg_demo (SockMessage 0 (Some VNull) 7 7 demo_iso) (connected_world any_url cfg_demo))
  = {| connected := true; lastMessage := Some 7; messagesReceived := 1;
       messagesSent := 0; connectionTime := Some 1700000000000; errors := 1 |}.
Proof. reflexivity. Qed.

(** A news frame whose headline is a number throws at line 218. *)
Example numeric_headline :
  (errors (stats (step any_url cfg_demo
     (SockMessage 0 (Some (VObj [("type", VStr "news"); ("headline", VNum 5)])) 7 7 demo_iso)
     (connected_world any_url cfg_demo))),
   out (step any_url cfg_demo
     (SockMessage 0 (Some (VObj [("type", VStr "news"); ("headline", VNum 5)])) 7 7 demo_iso)
     (connected_world any_url cfg_demo)))
  = (1, out (connected_world any_url cfg_demo)).
Proof. reflexivity. Qed.

Example delays_of_ten_failures :
  map (fun k => backoff_delay (Z.of_nat k)) (seq 0 10)
  = [2000; 4000; 8000; 16000; 30000; 30000; 30000; 30000; 30000; 30000].
Proof. reflexivity. Qed.

(** ** Reconnect back-off *)

Lemma on_close_below w :
  (reconnectAttempts w <? MAX_RECONNECT_ATTEMPTS) = true ->
  exec on_close w =
    set_timers
      (timers w ++ [(Z.min (BASE_RECONNECT_DELAY * 2 ^ reconnectAttempts w) 30000,
                     CbReconnect)])
      (set_reconnectAttempts (reconnectAttempts w + 1)
         (set_stats (set_connected false (stats w)) w)).
Proof.
  intros H. unfold on_close. js_run.
  cbn [set_stats reconnectAttempts]. rewrite H. reflexivity.
Qed.

Lemma on_close_ceiling w :
  (reconnectAttempts w <? MAX_RECONNECT_ATTEMPTS) = false ->
  exec on_close w = set_stats (set_connected false (stats w)) w.
Proof.
  intros H. unfold on_close. js_run.
  cbn [set_stats reconnectAttempts]. rewrite H. reflexivity.
Qed.

Lemma readyState_set s r w : readyState (set_readyState s r w) s = r.
Proof. unfold readyState, set_readyState. cbn. by rewrite lookup_insert_eq. Qed.

(** An exception-free callback at top level is the callback. *)
Lemma top_level_ok (m : M unit) w w' : m w = (Ok tt, w') -> top_level m w = w'.
Proof. unfold top_level. intros ->. reflexivity. Qed.

(** [connectToFinnhub], by cases on the credential and on the URL. *)
Lemma connect_spec url_ok cfg w :
  connectToFinnhub url_ok cfg w =
    if negb (env_set (FINNHUB_API_KEY cfg)) then (Ok tt, terminate_live w)
    else if url_ok (connect_url cfg) then (Ok tt, open_next cfg (terminate_live w))
    else (Throw SyntaxError, terminate_live w).
Proof.
  unfold connectToFinnhub, new_WebSocket, ws_terminate, terminate_live, live_socket.
  js_run.
  destruct (ws w) as [s|]; cbn;
    [destruct (bool_decide (readyState w s = CLOSED)); cbn|];
    destruct (env_set (FINNHUB_API_KEY cfg)); cbn;
    try destruct (url_ok (connect_url cfg)); reflexivity.
Qed.

Lemma terminate_live_closed w s :
  ws w = Some s -> readyState w s = CLOSED -> terminate_live w = w.
Proof.
  intros Hws Hst. unfold terminate_live, live_socket.
  rewrite Hws, Hst. reflexivity.
Qed.

Lemma terminate_live_frame w :
  reconnectAttempts (terminate_live w) = reconnectAttempts w /\
  timers (terminate_live w) = timers w /\
  SYMBOLS (terminate_live w) = SYMBOLS w /\
  inflight (terminate_live w) = inflight w /\
  stats (terminate_live w) = stats w /\
  next_sock (terminate_live w) = next_sock w.
Proof. unfold terminate_live. destruct (live_socket w); cbn; auto 10. Qed.

(** [connectToFinnhub] never touches the attempt counter, the timers or the
    registry. *)
Lemma connect_frame url_ok cfg w :
  let w' := snd (connectToFinnhub url_ok cfg w) in
  reconnectAttempts w' = reconnectAttempts w /\ timers w' = timers w /\
  SYMBOLS w' = SYMBOLS w /\ inflight w' = inflight w /\
  errors (stats w') = errors (stats w).
Proof.
  cbn zeta. rewrite connect_spec.
  destruct (terminate_live_frame w) as (H1 & H2 & H3 & H4 & H5 & _).
  destruct (env_set (FINNHUB_API_KEY cfg)); cbn;
    [destruct (url_ok (connect_url cfg)); cbn|];
    rewrite ?H1, ?H2, ?H3, ?H4, ?H5; auto.
Qed.

(** [connectToFinnhub] run by the event loop with nothing around it, and
    run inside a request handler. *)
Lemma top_level_connect url_ok cfg w :
  top_level (connectToFinnhub url_ok cfg) w =
    if negb (env_set (FINNHUB_API_KEY cfg)) then terminate_live w
    else if url_ok (connect_url cfg) then open_next cfg (terminate_live w)
    else set_out (out (terminate_live w) ++ [ProcessExit SyntaxError]) (terminate_live w).
Proof.
  unfold top_level. rewrite connect_spec.
  destruct (env_set (FINNHUB_API_KEY cfg)); cbn;
    [destruct (url_ok (connect_url cfg))|]; reflexivity.
Qed.

Lemma exec_connect url_ok cfg w :
  exec (connectToFinnhub url_ok cfg) w =
    if negb (env_set (FINNHUB_API_KEY cfg)) then terminate_live w
    else if url_ok (connect_url cfg) then open_next cfg (terminate_live w)
    else terminate_live w.
Proof.
  unfold exec. rewrite connect_spec.
  destruct (env_set (FINNHUB_API_KEY cfg)); cbn;
    [destruct (url_ok (connect_url cfg))|]; reflexivity.
Qed.

Lemma current_open_terminate_live w : current_open (terminate_live w) = None.
Proof.
  unfold terminate_live, live_socket, current_open.
  destruct (ws w) as [s|] eqn:Hws; [|by rewrite Hws].
  case_bool_decide as Hst; [|reflexivity].
  rewrite Hws, Hst. reflexivity.
Qed.

Lemma lookup_snoc {A} (l : list A) (x : A) : (l ++ [x])%list !! length l = Some x.
Proof. induction l; cbn; auto. Qed.

Lemma delete_snoc {A} (l : list A) (x : A) : delete (length l) (l ++ [x])%list = l.
Proof. induction l as [|a l IH]; cbn; [reflexivity|]. f_equal. exact IH. Qed.

(** A reconnect timer set by the close of the current socket, when it fires:
    the timer is gone and the next socket is made. *)
Lemma reconnect_fires url_ok cfg w s :
  env_set (FINNHUB_API_KEY cfg) = true ->
  url_ok (connect_url cfg) = true ->
  ws w = Some s ->
  (reconnectAttempts w <? MAX_RECONNECT_ATTEMPTS) = true ->
  fire_timer url_ok cfg (length (timers w)) (close_current w)
  = open_next cfg (set_timers (timers w) (close_current w)).
Proof.
  intros Hkey Hurl Hws Hlt. unfold close_current.
  rewrite Hws, on_close_below by exact Hlt.
  unfold fire_timer.
  cbn [timers set_timers set_reconnectAttempts set_stats set_readyState set_heap].
  rewrite lookup_snoc, delete_snoc. cbn [run_callback].
  apply top_level_ok. rewrite connect_spec, Hkey, Hurl. cbn [negb].
  erewrite terminate_live_closed; [reflexivity | exact Hws |].
  unfold readyState. cbn. by rewrite lookup_insert_eq.
Qed.

Lemma failure_round_spec url_ok cfg w :
  env_set (FINNHUB_API_KEY cfg) = true ->
  url_ok (connect_url cfg) = true ->
  is_Some (ws w) ->
  (reconnectAttempts w <? MAX_RECONNECT_ATTEMPTS) = true ->
  let w' := failure_round url_ok cfg w in
  is_Some (ws w') /\ timers w' = timers w /\
  reconnectAttempts w' = reconnectAttempts w + 1 /\
  next_sock w' = S (next_sock w).
Proof.
  intros Hkey Hurl [s Hws] Hlt. cbn zeta. unfold failure_round.
  rewrite (reconnect_fires url_ok cfg w s) by assumption.
  unfold close_current. rewrite Hws, on_close_below by exact Hlt.
  cbn. eauto.
Qed.

Lemma failure_rounds url_ok cfg w (k : nat) :
  env_set (FINNHUB_API_KEY cfg) = true ->
  url_ok (connect_url cfg) = true ->
  is_Some (ws w) -> reconnectAttempts w = 0 ->
  (k <= 10)%nat ->
  let wk := Nat.iter k (failure_round url_ok cfg) w in
  is_Some (ws wk) /\ timers wk = timers w /\ reconnectAttempts wk = Z.of_nat k /\
  next_sock wk = (next_sock w + k)%nat.
Proof.
  intros Hkey Hurl Hws H0. induction k as [|k IH]; intros Hk; cbn zeta.
  - cbn. auto.
  - destruct IH as (I1 & I2 & I3 & I4); [lia|].
    rewrite Nat.iter_succ.
    destruct (failure_round_spec url_ok cfg (Nat.iter k (failure_round url_ok cfg) w))
      as (J1 & J2 & J3 & J4); auto.
    { rewrite I3. unfold MAX_RECONNECT_ATTEMPTS. apply Z.ltb_lt. lia. }
    cbn zeta in *. rewrite J2, J3, J4, I2, I3, I4. repeat split; auto; lia.
Qed.

(** C1. In a run of consecutive connection failures that starts with the
    attempt counter at 0 (the credential is set and the [ws] package accepts
    the URL, or there would be no connection to fail), the close that
    follows k earlier failures (k = 0..9) sets the counter to k + 1 and
    schedules one timer of exactly min(2000 * 2^k, 30000) ms; when that
    timer fires it is gone and [connectToFinnhub] has made the next socket,
    the k+1-th after those of the start, on the configured URL, and made it
    current. The close that follows 10 failures schedules nothing and
    leaves the counter at 10, as does every close at or past the ceiling;
    the manual restart puts the counter back to 0. *)
Theorem reconnect_backoff url_ok cfg w (k : nat) :
  env_set (FINNHUB_API_KEY cfg) = true ->
  url_ok (connect_url cfg) = true ->
  is_Some (ws w) -> reconnectAttempts w = 0 ->
  ((k < 10)%nat ->
   timers (close_current (Nat.iter k (failure_round url_ok cfg) w))
     = (timers w ++ [(backoff_delay (Z.of_nat k), CbReconnect)])%list /\
   reconnectAttempts (close_current (Nat.iter k (failure_round url_ok cfg) w))
     = Z.of_nat k + 1 /\
   fire_timer url_ok cfg (length (timers w))
     (close_current (Nat.iter k (failure_round url_ok cfg) w))
     = open_next cfg
         (set_timers (timers w) (close_current (Nat.iter k (failure_round url_ok cfg) w))) /\
   next_sock (close_current (Nat.iter k (failure_round url_ok cfg) w))
     = (next_sock w + k)%nat) /\
  (k = 10%nat ->
   timers (close_current (Nat.iter k (failure_round url_ok cfg) w)) = timers w /\
   reconnectAttempts (close_current (Nat.iter k (failure_round url_ok cfg) w)) = 10 /\
   reconnectAttempts
     (exec (restart url_ok cfg) (close_current (Nat.iter k (failure_round url_ok cfg) w))) = 0) /\
  (forall w', 10 <= reconnectAttempts w' ->
   timers (exec on_close w') = timers w' /\
   reconnectAttempts (exec on_close w') = reconnectAttempts w').
Proof.
  intros Hkey Hurl Hws H0. split; [|split].
  - intros Hk.
    destruct (failure_rounds url_ok cfg w k) as ([s Hs] & I2 & I3 & I4); auto; [lia|].
    cbn zeta in *.
    assert (Hlt : (reconnectAttempts (Nat.iter k (failure_round url_ok cfg) w)
                   <? MAX_RECONNECT_ATTEMPTS) = true).
    { rewrite I3. apply Z.ltb_lt. unfold MAX_RECONNECT_ATTEMPTS. lia. }
    split; [|split; [|split]].
    + unfold close_current. rewrite Hs, on_close_below by exact Hlt.
      cbn. rewrite I2, I3. reflexivity.
    + unfold close_current. rewrite Hs, on_close_below by exact Hlt.
      cbn. rewrite I3. reflexivity.
    + rewrite <- I2. apply (reconnect_fires url_ok cfg _ s); assumption.
    + unfold close_current. rewrite Hs, on_close_below by exact Hlt.
      cbn. exact I4.
  - intros Hk.
    destruct (failure_rounds url_ok cfg w k) as ([s Hs] & I2 & I3 & _); auto; [lia|].
    cbn zeta in *. split; [|split].
    + unfold close_current. rewrite Hs, on_close_ceiling; [exact I2|].
      cbn. rewrite I3. apply Z.ltb_ge. unfold MAX_RECONNECT_ATTEMPTS. lia.
    + unfold close_current. rewrite Hs, on_close_ceiling.
      * cbn. rewrite I3. lia.
      * cbn. rewrite I3. apply Z.ltb_ge. unfold MAX_RECONNECT_ATTEMPTS. lia.
    + unfold restart. js_run.
      match goal with |- context [connectToFinnhub url_ok cfg ?x] =>
        destruct (connect_frame url_ok cfg x) as [Hc _];
        destruct (connectToFinnhub url_ok cfg x) as [[] ?]; cbn in *; exact Hc
      end.
  - intros w' Hw'. rewrite on_close_ceiling; [split; reflexivity|].
    apply Z.ltb_ge. unfold MAX_RECONNECT_ATTEMPTS. lia.
Qed.

Lemma reconnect_backoff_witness :
  timers (close_current (Nat.iter 3 (failure_round any_url cfg_demo)
                           (connected_world any_url cfg_demo)))
  = [(1000, CbSubscribeAll); (16000, CbReconnect)] /\
  out (fire_timer any_url cfg_demo 1
         (close_current (Nat.iter 3 (failure_round any_url cfg_demo)
                           (connected_world any_url cfg_demo))))
  = [ WsNew 0 "wss://ws.finnhub.io?token=token"; WsNew 1 "wss://ws.finnhub.io?token=token";
      WsNew 2 "wss://ws.finnhub.io?token=token"; WsNew 3 "wss://ws.finnhub.io?token=token";
      WsNew 4 "wss://ws.finnhub.io?token=token" ].
Proof.
  destruct (reconnect_backoff any_url cfg_demo (connected_world any_url cfg_demo) 3)
    as [H _].
  - reflexivity.
  - reflexivity.
  - eexists. reflexivity.
  - reflexivity.
  - destruct H as (H1 & _ & H3 & _); [lia|]. split.
    + exact H1.
    + change (length (timers (connected_world any_url cfg_demo))) with 1%nat in H3.
      rewrite H3. reflexivity.
Defined.

(** ** The subscription registry *)

Lemma upper_ascii_idem c : upper_ascii (upper_ascii c) = upper_ascii c.
Proof. destruct c as [[] [] [] [] [] [] [] []]; reflexivity. Qed.

Lemma toUpperCase_idem s : toUpperCase (toUpperCase s) = toUpperCase s.
Proof. induction s as [|c s IH]; cbn; [|rewrite upper_ascii_idem, IH]; reflexivity. Qed.

Lemma normalized_map r : normalized r -> map toUpperCase r = r.
Proof. induction 1 as [|t r Ht _ IH]; cbn; [|rewrite Ht, IH]; reflexivity. Qed.

(** Line 18 stores upper-case topics whatever the environment holds. *)
Lemma SYMBOLS_init_normalized cfg : normalized (SYMBOLS_init cfg).
Proof.
  unfold SYMBOLS_init, normalized. destruct (env_set (SYMBOLS_env cfg)).
  - induction (split_comma _) as [|p ps IH]; cbn; constructor; auto using toUpperCase_idem.
  - repeat constructor.
Qed.

Lemma ws_is_open_current w : ws_is_open w = bool_decide (is_Some (current_open w)).
Proof.
  unfold ws_is_open, current_open. destruct (ws w) as [s|]; [|reflexivity].
  destruct (bool_decide (readyState w s = OPEN)); reflexivity.
Qed.

(** A frame sent through [ws] goes to the open current socket, and nowhere
    when there is none. *)
Lemma send_if_open (frame : value) w :
  (let* is_open := gets ws_is_open in when is_open (ws_send frame)) w =
  (Ok tt, match current_open w with
          | Some s => set_out (out w ++ [WsSend s frame]) w
          | None => w
          end).
Proof.
  unfold ws_send, ws_is_open, current_open. js_run.
  destruct (ws w) as [s|] eqn:Hws; [|reflexivity].
  destruct (readyState w s) eqn:E; case_bool_decide; try done;
    cbn; rewrite Hws, E; reflexivity.
Qed.

Lemma subscribeToSymbol_spec symbol w :
  subscribeToSymbol symbol w =
  (Ok tt, match current_open w with
          | Some s => set_out (out w ++ [WsSend s (subscribe_frame symbol)]) w
          | None => w
          end).
Proof. apply send_if_open. Qed.

Lemma unsubscribeFromSymbol_spec symbol w :
  unsubscribeFromSymbol symbol w =
  (Ok tt, match current_open w with
          | Some s => set_out (out w ++ [WsSend s (unsubscribe_frame symbol)]) w
          | None => w
          end).
Proof. apply send_if_open. Qed.

Lemma current_open_set_SYMBOLS r w : current_open (set_SYMBOLS r w) = current_open w.
Proof. reflexivity. Qed.

(** What [POST /symbols/add] does with a string. *)
Lemma symbols_add_str s w :
  let upper := toUpperCase s in
  symbols_add (VStr s) w =
  if negb (String.eqb s "") && negb (bool_decide (upper ∈ SYMBOLS w))
     && (Z.of_nat (length (SYMBOLS w)) <? 50)
  then
    let w1 := set_SYMBOLS (SYMBOLS w ++ [upper]) w in
    (Ok (Json 200 (VObj [ ("message", VStr ("Added " +:+ upper));
                          ("symbols", symbols_json w1) ])),
     match current_open w with
     | Some c => set_out (out w ++ [WsSend c (subscribe_frame upper)]) w1
     | None => w1
     end)
  else (Ok (Json 400 limit_message), w).
Proof.
  cbn zeta. unfold symbols_add. js_run. cbn [truthy method_toUpperCase].
  destruct (String.eqb s "") eqn:Es; cbn; [reflexivity|].
  destruct (bool_decide (toUpperCase s ∈ SYMBOLS w)) eqn:Ei; cbn; [reflexivity|].
  destruct (Z.of_nat (length (SYMBOLS w)) <? 50) eqn:El; cbn; [|reflexivity].
  rewrite ws_is_open_current, current_open_set_SYMBOLS.
  destruct (current_open w) as [c|] eqn:Ec.
  - rewrite bool_decide_eq_true_2 by eauto.
    rewrite subscribeToSymbol_spec, current_open_set_SYMBOLS, Ec. reflexivity.
  - rewrite bool_decide_eq_false_2 by (intros [? ?]; discriminate). reflexivity.
Qed.

(** A body without a usable [symbol] changes nothing: a falsy one is
    answered 400, a truthy one that is not a string makes the handler throw. *)
Lemma symbols_add_other v w :
  (forall s, v <> VStr s) -> exec (symbols_add v) w = w.
Proof.
  intros Hv. unfold symbols_add. js_run.
  destruct v as [| |[]|z|s|l|fs]; cbn; try reflexivity.
  - destruct (z =? 0); reflexivity.
  - destruct (Hv s eq_refl).
Qed.

Lemma indexOf_Some symbol l i :
  indexOf symbol l = Some i -> l !! i = Some symbol.
Proof.
  revert i. induction l as [|x r IH]; intros i; cbn; [discriminate|].
  destruct (String.eqb x symbol) eqn:E.
  - intros [= <-]. apply String.eqb_eq in E. by subst.
  - destruct (indexOf symbol r) as [j|]; cbn; [|discriminate].
    intros [= <-]. cbn. by apply IH.
Qed.

Lemma indexOf_None symbol l : indexOf symbol l = None -> symbol ∉ l.
Proof.
  induction l as [|x r IH]; cbn; [intros _; apply not_elem_of_nil|].
  destruct (String.eqb x symbol) eqn:E; [discriminate|].
  destruct (indexOf symbol r); cbn; [discriminate|]. intros _.
  apply String.eqb_neq in E. rewrite elem_of_cons. intros [->|H]; [done|].
  by apply IH.
Qed.

(** What [DELETE /symbols/:symbol] does to the registry. *)
Lemma symbols_delete_registry param w :
  SYMBOLS (exec (symbols_delete param) w) =
  match indexOf (toUpperCase param) (SYMBOLS w) with
  | Some i => delete i (SYMBOLS w)
  | None => SYMBOLS w
  end.
Proof.
  unfold symbols_delete. js_run.
  destruct (indexOf (toUpperCase param) (SYMBOLS w)) as [i|]; cbn; [|reflexivity].
  rewrite ws_is_open_current, current_open_set_SYMBOLS.
  destruct (current_open w) as [c|] eqn:Ec.
  - rewrite bool_decide_eq_true_2 by eauto.
    rewrite unsubscribeFromSymbol_spec, current_open_set_SYMBOLS, Ec. reflexivity.
  - rewrite bool_decide_eq_false_2 by (intros [? ?]; discriminate). reflexivity.
Qed.

Lemma registry_inv_within r : registry_inv r -> within_bounds r.
Proof. intros (Hn & Hd & Hl). split; [rewrite normalized_map|]; assumption. Qed.

Lemma symbols_add_inv v w :
  registry_inv (SYMBOLS w) -> registry_inv (SYMBOLS (exec (symbols_add v) w)).
Proof.
  intros (Hn & Hd & Hl).
  destruct v as [| |b|z|s|l|fs];
    try (rewrite symbols_add_other by discriminate; repeat split; assumption).
  unfold exec. rewrite symbols_add_str. cbn zeta.
  destruct (String.eqb s ""); cbn [negb andb]; [repeat split; assumption|].
  case_bool_decide as Hin; cbn [negb andb]; [repeat split; assumption|].
  destruct (Z.of_nat (length (SYMBOLS w)) <? 50) eqn:El; [|repeat split; assumption].
  apply Z.ltb_lt in El.
  assert (registry_inv (SYMBOLS w ++ [toUpperCase s])%list) as Hgoal.
  { repeat split.
    - apply Forall_app. split; [assumption|]. repeat constructor. apply toUpperCase_idem.
    - apply NoDup_app. repeat split; [assumption| |apply NoDup_singleton].
      intros x Hx Hx'. apply list_elem_of_singleton in Hx'. by subst.
    - rewrite length_app. cbn. lia. }
  cbn [snd]. destruct (current_open w); exact Hgoal.
Qed.

Lemma symbols_delete_inv param w :
  registry_inv (SYMBOLS w) -> registry_inv (SYMBOLS (exec (symbols_delete param) w)).
Proof.
  intros (Hn & Hd & Hl). rewrite symbols_delete_registry.
  destruct (indexOf _ _) as [i|]; [|repeat split; assumption].
  repeat split.
  - by apply Forall_delete.
  - eapply sublist_NoDup; [exact Hd|]. apply sublist_delete.
  - pose proof (sublist_length _ _ (sublist_delete (SYMBOLS w) i)). lia.
Qed.

Lemma apply_ops_inv ops w :
  registry_inv (SYMBOLS w) -> registry_inv (SYMBOLS (apply_ops ops w)).
Proof.
  revert w. induction ops as [|op ops IH]; intros w Hw; [exact Hw|].
  cbn. apply IH. destruct op; cbn; auto using symbols_add_inv, symbols_delete_inv.
Qed.

(** The registry the program starts with is not checked: line 18 upper-cases
    the pieces of the SYMBOLS variable and neither drops a repeated topic
    nor stops at 50. A topic held twice survives requests, and removing it
    once is answered 200 while the topic stays; a start registry of 51
    topics stays at 51. *)
Lemma start_registry_unchecked :
  SYMBOLS (world0 cfg_twice) = ["AAPL"; "AAPL"] /\
  ~ within_bounds (SYMBOLS (apply_ops [] (world0 cfg_twice))) /\
  ~ within_bounds
      (SYMBOLS (apply_ops [Add (VStr "msft"); Remove "msft"] (world0 cfg_twice))) /\
  fst (symbols_delete "aapl" (world0 cfg_twice))
    = Ok (Json 200 (VObj [ ("message", VStr "Removed AAPL");
                           ("symbols", VArr [VStr "AAPL"]) ])) /\
  length (SYMBOLS (world0 cfg_many)) = 51%nat /\
  NoDup (SYMBOLS (world0 cfg_many)) /\
  ~ within_bounds (SYMBOLS (apply_ops [Add (VStr "msft"); Remove "msft"] (world0 cfg_many))).
Proof.
  split; [reflexivity|].
  split.
  { intros [H _]. apply NoDup_cons in H as [H _]. apply H. apply list_elem_of_here. }
  split.
  { intros [H _]. apply NoDup_cons in H as [H _]. apply H. apply list_elem_of_here. }
  split; [reflexivity|].
  split; [vm_compute; reflexivity|].
  split.
  { apply (bool_decide_eq_true_1 _). vm_compute. reflexivity. }
  intros [_ H]. vm_compute in H. lia.
Qed.

(** C2, as the code has it. From a registry of upper-case topics that holds
    none twice and at most 50 (the default registry does; one read from the
    SYMBOLS variable may not), every sequence of add and remove requests
    leaves a registry with at most 50 topics and no two topics equal after
    upper-casing; an add of a topic already present, or an add to a registry
    of 50 or more, is answered 400 and changes nothing. *)
Theorem registry_bounds (ops : list registry_op) (w : World) :
  normalized (SYMBOLS w) -> within_bounds (SYMBOLS w) ->
  within_bounds (SYMBOLS (apply_ops ops w)) /\
  normalized (SYMBOLS (apply_ops ops w)) /\
  (forall s w0,
     toUpperCase s ∈ SYMBOLS w0 \/ (50 <= length (SYMBOLS w0))%nat ->
     symbols_add (VStr s) w0 = (Ok (Json 400 limit_message), w0)).
Proof.
  intros Hn [Hd Hl]. rewrite normalized_map in Hd by assumption.
  destruct (apply_ops_inv ops w) as (Jn & Jd & Jl); [repeat split; assumption|].
  split; [apply registry_inv_within; repeat split; assumption|].
  split; [assumption|].
  intros s w0 H. rewrite symbols_add_str. cbn zeta.
  destruct (String.eqb s ""); cbn [negb andb]; [reflexivity|].
  case_bool_decide as Hin; cbn [negb andb]; [reflexivity|].
  destruct H as [H|H]; [contradiction|].
  destruct (Z.of_nat (length (SYMBOLS w0)) <? 50) eqn:El; [|reflexivity].
  apply Z.ltb_lt in El. lia.
Qed.

Lemma registry_bounds_witness :
  within_bounds
    (SYMBOLS (apply_ops [Add (VStr "msft"); Add (VStr "MSFT"); Remove "aapl"; Add (VNum 7)]
                (world0 cfg_demo))).
Proof.
  apply (registry_bounds _ (world0 cfg_demo)).
  - repeat constructor.
  - split; [cbn; apply NoDup_singleton | cbn; lia].
Defined.

(** The add endpoint answers a duplicate topic and a full registry with the
    same response: the two cases cannot be told apart. *)
Lemma add_duplicate_and_limit_merged :
  "AAPL" ∈ SYMBOLS (world0 cfg_demo) /\
  length (SYMBOLS full_world) = 50%nat /\ ("NEW" ∉ SYMBOLS full_world) /\
  fst (symbols_add (VStr "AAPL") (world0 cfg_demo)) =
  fst (symbols_add (VStr "NEW") full_world) /\
  ~ (exists dup lim : response,
       dup <> lim /\
       fst (symbols_add (VStr "AAPL") (world0 cfg_demo)) = Ok dup /\
       fst (symbols_add (VStr "NEW") full_world) = Ok lim).
Proof.
  assert (fst (symbols_add (VStr "AAPL") (world0 cfg_demo)) = Ok (Json 400 limit_message))
    as Hd by (vm_compute; reflexivity).
  assert (fst (symbols_add (VStr "NEW") full_world) = Ok (Json 400 limit_message))
    as Hl by (vm_compute; reflexivity).
  split; [vm_compute; apply list_elem_of_here|].
  split; [vm_compute; reflexivity|].
  split.
  { apply (bool_decide_eq_false_1 _). vm_compute. reflexivity. }
  split; [congruence|].
  intros (dup & lim & Hne & H1 & H2). congruence.
Qed.

(** C9, as the code has it. The add endpoint has two outcomes for a string:
    200 with the topic appended in upper case, exactly when the string is
    not empty, its upper-case form is absent and the registry holds fewer
    than 50 topics; and one and the same 400 response, with the world left
    as it was, for an empty string, a duplicate and a full registry alike. *)
Theorem add_outcomes (s : string) (w : World) :
  let upper := toUpperCase s in
  (s <> "" /\ (upper ∉ SYMBOLS w) /\ (length (SYMBOLS w) < 50)%nat ->
   fst (symbols_add (VStr s) w) =
     Ok (Json 200 (VObj [ ("message", VStr ("Added " +:+ upper));
                          ("symbols", VArr (map VStr (SYMBOLS w ++ [upper]))) ])) /\
   SYMBOLS (exec (symbols_add (VStr s)) w) = (SYMBOLS w ++ [upper])%list) /\
  (s = "" \/ upper ∈ SYMBOLS w \/ (50 <= length (SYMBOLS w))%nat ->
   symbols_add (VStr s) w = (Ok (Json 400 limit_message), w)).
Proof.
  cbn zeta. unfold exec. rewrite symbols_add_str. cbn zeta. split.
  - intros (Hs & Hin & Hl).
    apply String.eqb_neq in Hs. rewrite Hs.
    rewrite bool_decide_eq_false_2 by assumption.
    assert ((Z.of_nat (length (SYMBOLS w)) <? 50) = true) as -> by (apply Z.ltb_lt; lia).
    cbn [negb andb fst snd]. split; [reflexivity|].
    destruct (current_open w); reflexivity.
  - intros [Hs|[Hin|Hl]].
    + subst s. reflexivity.
    + rewrite (bool_decide_eq_true_2 _ Hin). by rewrite andb_false_r.
    + assert ((Z.of_nat (length (SYMBOLS w)) <? 50) = false) as -> by (apply Z.ltb_ge; lia).
      by rewrite andb_false_r.
Qed.

Lemma add_outcomes_witness :
  fst (symbols_add (VStr "msft") (world0 cfg_demo)) =
    Ok (Json 200 (VObj [ ("message", VStr "Added MSFT");
                         ("symbols", VArr [VStr "AAPL"; VStr "MSFT"]) ])) /\
  symbols_add (VStr "aapl") (world0 cfg_demo) =
    (Ok (Json 400 limit_message), world0 cfg_demo).
Proof.
  destruct (add_outcomes "msft" (world0 cfg_demo)) as [H1 _].
  destruct (add_outcomes "aapl" (world0 cfg_demo)) as [_ H2].
  split.
  - apply H1. split; [discriminate|]. split.
    + apply (bool_decide_eq_false_1 _). reflexivity.
    + cbn. lia.
  - apply H2. right. left. apply (bool_decide_eq_true_1 _). reflexivity.
Defined.

(** ** Inbound frames and delivery *)

Lemma sendToN8n_unconfigured cfg newsData iso_now w :
  env_set (N8N_WEBHOOK_URL cfg) = false ->
  sendToN8n cfg newsData iso_now w = (Ok tt, w).
Proof. intros H. unfold sendToN8n. rewrite H. reflexivity. Qed.

Lemma sendToN8n_configured cfg newsData iso_now w :
  env_set (N8N_WEBHOOK_URL cfg) = true ->
  sendToN8n cfg newsData iso_now w =
  (Ok tt,
   set_inflight (inflight w ++ [VObj newsData])
     (set_out (out w ++ [HttpPost (env_or (N8N_WEBHOOK_URL cfg) "")
                                  (sink_payload newsData iso_now)]) w)).
Proof. intros H. unfold sendToN8n. rewrite H. reflexivity. Qed.

(** The transformer throws only where line 218 has thrown before it. *)
Lemma transform_ok message now :
  line_218_ok message = true -> transform message now = Ok (event_of message now).
Proof.
  unfold line_218_ok, event_of, transform. intros [_ H]%andb_true_iff.
  destruct (truthy (get message "id")); [reflexivity|].
  destruct (to_string (get message "symbol")); [reflexivity | discriminate].
Qed.

(** A frame of the news kind: the received counter and the last-message
    time are updated; then either line 218 throws and the frame is counted
    as an error, or the frame goes through the transformer into
    [sendToN8n]. *)
Lemma on_message_news_kind cfg message t_recv t_id iso_now w :
  news_kind message = true ->
  on_message cfg (Some message) t_recv t_id iso_now w =
  if line_218_ok message
  then sendToN8n cfg (event_of message t_id) iso_now
         (set_stats (received t_recv (stats w)) w)
  else (Ok tt, set_stats (incr_errors (received t_recv (stats w))) w).
Proof.
  intros Hty.
  destruct (line_218_ok message) eqn:Hok.
  - pose proof (transform_ok message t_id Hok) as Ht.
    unfold news_kind, line_218_ok in *. apply andb_true_iff in Hok as [Hh Hs].
    destruct message as [| |b|z|s|l|fs]; try discriminate.
    unfold on_message, template, lift, JSON_parse, prop. js_run. cbn [get] in *.
    rewrite Hty, Ht.
    destruct (field "headline" fs); try discriminate; cbn;
      destruct (to_string (field "symbol" fs)); try discriminate; cbn;
      destruct (sendToN8n cfg _ iso_now _) as [[] ?] eqn:E; try reflexivity;
      unfold sendToN8n in E; js_run;
      destruct (env_set (N8N_WEBHOOK_URL cfg)); discriminate.
  - unfold news_kind, line_218_ok in *.
    destruct message as [| |b|z|s|l|fs]; try discriminate.
    unfold on_message, template, lift, JSON_parse, prop. js_run. cbn [get] in *.
    rewrite Hty.
    destruct (field "headline" fs); cbn in *; try reflexivity;
      destruct (to_string (field "symbol" fs)); cbn in *; try discriminate; reflexivity.
Qed.

Lemma on_message_news cfg message t_recv t_id iso_now w :
  is_news message = true ->
  on_message cfg (Some message) t_recv t_id iso_now w =
  sendToN8n cfg (event_of message t_id) iso_now
    (set_stats (received t_recv (stats w)) w).
Proof.
  unfold is_news. intros [Hty Hok]%andb_true_iff.
  rewrite on_message_news_kind, Hok by exact Hty. reflexivity.
Qed.

Lemma sink_answers_at i r newsData w :
  inflight w !! i = Some newsData ->
  sink_answers i r w =
  exec (sendToN8n_resume newsData r) (set_inflight (delete i (inflight w)) w).
Proof. intros H. unfold sink_answers. rewrite H. reflexivity. Qed.

Lemma resume_rejected newsData r w :
  axios_resolves r = false ->
  exec (sendToN8n_resume newsData r) w = set_stats (incr_errors (stats w)) w.
Proof. intros H. unfold sendToN8n_resume. js_run. rewrite H. reflexivity. Qed.

Lemma resume_resolved newsData r w :
  axios_resolves r = true ->
  match get newsData "headline" with
  | VUndefined | VNull | VStr _ => True
  | _ => False
  end ->
  exec (sendToN8n_resume newsData r) w = set_stats (incr_messagesSent (stats w)) w.
Proof.
  intros H Hh. unfold sendToN8n_resume. js_run. rewrite H.
  destruct (get newsData "headline"); try contradiction; reflexivity.
Qed.

(** For the frame of the end-to-end scenario the transformer sets [related]
    to the symbol itself, a string, and not to a list that holds it. *)
Lemma bare_news_related_is_string :
  transform (bare_news "AAPL" "X") 1700000000000
    = Ok [ ("type", VStr "news"); ("symbol", VStr "AAPL"); ("headline", VStr "X");
           ("summary", VStr ""); ("source", VStr "FinHub");
           ("url", VUndefined); ("image", VUndefined); ("datetime", VUndefined);
           ("category", VStr "general"); ("id", VStr "AAPL-1700000000000");
           ("related", VStr "AAPL") ] /\
  field "related" (event_of (bare_news "AAPL" "X") 1700000000000) = VStr "AAPL" /\
  field "related" (event_of (bare_news "AAPL" "X") 1700000000000) <> VArr [VStr "AAPL"].
Proof. split; [reflexivity | split; [reflexivity | discriminate]]. Qed.

(** C3, as the code has it. A frame with a type, a symbol and a headline
    only becomes an event with summary "", source "FinHub", category
    "general", id = symbol, "-", the clock reading in ms, and related = the
    symbol itself (a string); url, image and datetime are undefined. With a
    sink configured the handler posts it once, wrapped in the bridge
    metadata; when the sink answers 200 the suspended call ends,
    [messagesSent] is one more than before and [errors] is as before, and
    nothing further is posted. *)
Theorem bare_news_delivered url_ok cfg w s symbol headline t_recv t_id iso_now :
  env_set (N8N_WEBHOOK_URL cfg) = true ->
  let event := event_of (bare_news symbol headline) t_id in
  let w1 := step url_ok cfg (SockMessage s (Some (bare_news symbol headline)) t_recv t_id iso_now) w in
  let w2 := step url_ok cfg (SinkAnswers (length (inflight w)) (HttpStatus 200)) w1 in
  transform (bare_news symbol headline) t_id = Ok event /\
  event = [ ("type", VStr "news"); ("symbol", VStr symbol); ("headline", VStr headline);
            ("summary", VStr ""); ("source", VStr "FinHub");
            ("url", VUndefined); ("image", VUndefined); ("datetime", VUndefined);
            ("category", VStr "general");
            ("id", VStr (symbol +:+ "-" +:+ Number_toString t_id));
            ("related", VStr symbol) ] /\
  out w1 = (out w ++ [HttpPost (env_or (N8N_WEBHOOK_URL cfg) "")
                               (sink_payload event iso_now)])%list /\
  inflight w1 = (inflight w ++ [VObj event])%list /\
  out w2 = out w1 /\ inflight w2 = inflight w /\
  messagesSent (stats w2) = messagesSent (stats w) + 1 /\
  errors (stats w2) = errors (stats w).
Proof.
  intros Hurl event w1 w2.
  assert (w1 = set_inflight (inflight w ++ [VObj event])
                 (set_out (out w ++ [HttpPost (env_or (N8N_WEBHOOK_URL cfg) "")
                                              (sink_payload event iso_now)])
                    (set_stats (received t_recv (stats w)) w))) as Hw1.
  { unfold w1, step, exec. rewrite on_message_news by reflexivity.
    rewrite sendToN8n_configured by assumption. reflexivity. }
  assert (w2 = set_stats (incr_messagesSent (stats (set_inflight (inflight w) w1)))
                 (set_inflight (inflight w) w1)) as Hw2.
  { unfold w2, step. rewrite (sink_answers_at _ _ (VObj event)).
    - rewrite Hw1. cbn [inflight set_inflight]. rewrite delete_snoc.
      rewrite resume_resolved; [reflexivity | reflexivity | exact I].
    - rewrite Hw1. cbn [inflight set_inflight]. apply lookup_snoc. }
  split; [reflexivity|]. split; [reflexivity|].
  rewrite Hw2, Hw1. cbn. repeat split; reflexivity.
Qed.

Lemma bare_news_delivered_witness :
  out (step any_url cfg_demo (SinkAnswers 0 (HttpStatus 200)) demo_posted) =
    (out (connected_world any_url cfg_demo) ++ [HttpPost "http://n8n.local/webhook"
      (VObj [ ("source", VStr "FinHub"); ("bridge", VStr "finnhub-n8n-bridge");
              ("timestamp", VStr demo_iso);
              ("type", VStr "news"); ("symbol", VStr "AAPL"); ("headline", VStr "X");
              ("summary", VStr ""); ("url", VUndefined); ("image", VUndefined);
              ("datetime", VUndefined); ("category", VStr "general");
              ("id", VStr "AAPL-1700000000501"); ("related", VStr "AAPL") ])])%list /\
  messagesSent (stats (step any_url cfg_demo (SinkAnswers 0 (HttpStatus 200)) demo_posted)) = 1 /\
  errors (stats (step any_url cfg_demo (SinkAnswers 0 (HttpStatus 200)) demo_posted)) = 0.
Proof.
  destruct (bare_news_delivered any_url cfg_demo (connected_world any_url cfg_demo) 0%nat "AAPL" "X"
              1700000000500 1700000000501 demo_iso)
    as (_ & _ & H1 & _ & H2 & _ & H3 & H4).
  - reflexivity.
  - cbn zeta in *. change (length (inflight (connected_world any_url cfg_demo))) with 0%nat in *.
    unfold demo_posted, demo_news. rewrite H2, H1, H3, H4. repeat split; reflexivity.
Defined.

(** C5. When the sink answers a suspended delivery with a status outside
    2xx, or does not answer, the call ends in its catch block: [errors] is
    one more than before, [messagesSent] is as before, the event leaves the
    in-flight list, nothing is posted or sent again and no timer is set, and
    the socket, its state and the connected flag are as before. *)
Theorem failed_delivery_dropped url_ok cfg (w : World) (i : nat) (newsData : value) r :
  inflight w !! i = Some newsData ->
  axios_resolves r = false ->
  errors (stats (step url_ok cfg (SinkAnswers i r) w)) = errors (stats w) + 1 /\
  messagesSent (stats (step url_ok cfg (SinkAnswers i r) w)) = messagesSent (stats w) /\
  inflight (step url_ok cfg (SinkAnswers i r) w) = delete i (inflight w) /\
  out (step url_ok cfg (SinkAnswers i r) w) = out w /\
  timers (step url_ok cfg (SinkAnswers i r) w) = timers w /\
  ws (step url_ok cfg (SinkAnswers i r) w) = ws w /\
  heap (step url_ok cfg (SinkAnswers i r) w) = heap w /\
  current_open (step url_ok cfg (SinkAnswers i r) w) = current_open w /\
  connected (stats (step url_ok cfg (SinkAnswers i r) w)) = connected (stats w).
Proof.
  intros Hi Hr. unfold step.
  rewrite (sink_answers_at _ _ _ _ Hi), resume_rejected by assumption.
  repeat split; reflexivity.
Qed.

Lemma failed_delivery_dropped_witness :
  errors (stats (step any_url cfg_demo (SinkAnswers 0 (HttpStatus 500)) demo_posted)) = 1 /\
  messagesSent (stats (step any_url cfg_demo (SinkAnswers 0 (HttpStatus 500)) demo_posted)) = 0 /\
  out (step any_url cfg_demo (SinkAnswers 0 (HttpStatus 500)) demo_posted) = out demo_posted /\
  current_open (step any_url cfg_demo (SinkAnswers 0 (HttpStatus 500)) demo_posted) = Some 0%nat.
Proof.
  destruct (failed_delivery_dropped any_url cfg_demo demo_posted 0
              (VObj demo_event) (HttpStatus 500))
    as (H1 & H2 & _ & H3 & _ & _ & _ & H4 & _).
  - reflexivity.
  - reflexivity.
  - rewrite H1, H2, H3, H4. repeat split; reflexivity.
Defined.

(** Without a webhook URL a news frame whose headline is a number is still
    counted as an error: line 218 throws before [sendToN8n] is reached. So
    is one whose symbol is an object with an own [toString]. *)
Lemma unconfigured_sink_error_counted :
  env_set (N8N_WEBHOOK_URL cfg_no_sink) = false /\
  news_kind (VObj [ ("type", VStr "news"); ("headline", VNum 5) ]) = true /\
  errors (stats (connected_world any_url cfg_no_sink)) = 0 /\
  errors (stats (step any_url cfg_no_sink
                   (SockMessage 0 (Some (VObj [ ("type", VStr "news"); ("headline", VNum 5) ]))
                      1700000000500 1700000000501 demo_iso)
                   (connected_world any_url cfg_no_sink))) = 1 /\
  errors (stats (step any_url cfg_no_sink
                   (SockMessage 0
                      (Some (VObj [ ("type", VStr "news"); ("headline", VStr "X");
                                    ("symbol", VObj [ ("toString", VNum 1) ]) ]))
                      1700000000500 1700000000501 demo_iso)
                   (connected_world any_url cfg_no_sink))) = 1.
Proof. repeat split. Qed.

(** C10, as the code has it. Without a webhook URL [sendToN8n] returns at
    its guard, whatever the event. For a frame of the news kind the handler
    posts nothing, suspends nothing and leaves [messagesSent] as it was; the
    frame counts as received, and [errors] is as it was exactly when line
    218 runs through (the headline is a string or absent and the symbol has
    a text), and one more when it throws. *)
Theorem unconfigured_sink_drops url_ok cfg w s message t_recv t_id iso_now :
  env_set (N8N_WEBHOOK_URL cfg) = false ->
  news_kind message = true ->
  step url_ok cfg (SockMessage s (Some message) t_recv t_id iso_now) w =
    set_stats (if line_218_ok message then received t_recv (stats w)
               else incr_errors (received t_recv (stats w))) w /\
  out (step url_ok cfg (SockMessage s (Some message) t_recv t_id iso_now) w) = out w /\
  inflight (step url_ok cfg (SockMessage s (Some message) t_recv t_id iso_now) w) = inflight w /\
  messagesSent (stats (step url_ok cfg (SockMessage s (Some message) t_recv t_id iso_now) w))
    = messagesSent (stats w) /\
  errors (stats (step url_ok cfg (SockMessage s (Some message) t_recv t_id iso_now) w))
    = errors (stats w) + (if line_218_ok message then 0 else 1) /\
  (forall newsData iso w0, sendToN8n cfg newsData iso w0 = (Ok tt, w0)).
Proof.
  intros Hurl Hnews. unfold step, exec.
  rewrite on_message_news_kind by assumption.
  rewrite sendToN8n_unconfigured by assumption.
  destruct (line_218_ok message); cbn.
  all: repeat split; try reflexivity; try lia.
  all: intros; by apply sendToN8n_unconfigured.
Qed.

Lemma unconfigured_sink_drops_witness :
  out (step any_url cfg_no_sink demo_news (connected_world any_url cfg_no_sink)) =
    out (connected_world any_url cfg_no_sink) /\
  messagesSent (stats (step any_url cfg_no_sink demo_news (connected_world any_url cfg_no_sink))) = 0 /\
  errors (stats (step any_url cfg_no_sink demo_news (connected_world any_url cfg_no_sink))) = 0.
Proof.
  destruct (unconfigured_sink_drops any_url cfg_no_sink (connected_world any_url cfg_no_sink) 0%nat
              (bare_news "AAPL" "X") 1700000000500 1700000000501 demo_iso)
    as (_ & H1 & _ & H2 & H3 & _).
  - reflexivity.
  - reflexivity.
  - unfold demo_news. rewrite H1, H2, H3. repeat split; reflexivity.
Defined.

Lemma current_open_inv w s :
  current_open w = Some s -> ws w = Some s /\ readyState w s = OPEN.
Proof.
  unfold current_open. destruct (ws w) as [c|]; [|discriminate].
  case_bool_decide; [|discriminate]. intros [= <-]. auto.
Qed.

(** A ping frame is answered on the open current socket, after the received
    counter and the last-message time are updated. *)
Lemma on_message_ping cfg message t_recv t_id iso_now w s :
  is_ping message = true ->
  current_open w = Some s ->
  on_message cfg (Some message) t_recv t_id iso_now w =
  (Ok tt, set_out (out w ++ [WsSend s pong_frame])
            (set_stats (received t_recv (stats w)) w)).
Proof.
  unfold is_ping. intros Hty [Hws Hst]%current_open_inv.
  destruct message as [| |b|z|m|l|fs]; try discriminate. cbn in Hty.
  destruct (field "type" fs) as [| |b|z|ty|l|fs'] eqn:Ety; try discriminate.
  cbn in Hty. apply String.eqb_eq in Hty. subst ty.
  unfold on_message, ws_send. js_run. cbn. rewrite Ety. cbn.
  rewrite Hws. cbn beta iota.
  change (readyState (set_stats _ (set_stats _ w)) s) with (readyState w s).
  rewrite Hst. reflexivity.
Qed.

(** On the connected bridge a ping frame changes the last-message time. *)
Lemma ping_updates_lastMessage :
  current_open (connected_world any_url cfg_demo) = Some 0%nat /\
  lastMessage (stats (connected_world any_url cfg_demo)) = None /\
  lastMessage (stats (step any_url cfg_demo demo_ping (connected_world any_url cfg_demo)))
    = Some 1700000000500 /\
  lastMessage (stats (step any_url cfg_demo demo_ping (connected_world any_url cfg_demo)))
    <> lastMessage (stats (connected_world any_url cfg_demo)).
Proof. repeat split; try reflexivity. discriminate. Qed.

(** C6, as the code has it. A ping frame that arrives on the open current
    socket is answered with exactly one pong frame on that socket; in
    [stats] the received counter goes up by one and the last-message time
    becomes the clock reading, and nothing else changes: [messagesSent],
    [errors], the connected flag and the connection time are as before,
    and nothing is handed to the sink. *)
Theorem ping_answered url_ok cfg w s message t_recv t_id iso_now :
  is_ping message = true ->
  current_open w = Some s ->
  out (step url_ok cfg (SockMessage s (Some message) t_recv t_id iso_now) w)
    = (out w ++ [WsSend s pong_frame])%list /\
  stats (step url_ok cfg (SockMessage s (Some message) t_recv t_id iso_now) w)
    = {| connected := connected (stats w);
         lastMessage := Some t_recv;
         messagesReceived := messagesReceived (stats w) + 1;
         messagesSent := messagesSent (stats w);
         connectionTime := connectionTime (stats w);
         errors := errors (stats w) |} /\
  inflight (step url_ok cfg (SockMessage s (Some message) t_recv t_id iso_now) w) = inflight w.
Proof.
  intros Hp Hc. unfold step, exec. rewrite (on_message_ping _ _ _ _ _ _ s) by assumption.
  repeat split; reflexivity.
Qed.

Lemma ping_answered_witness :
  out (step any_url cfg_demo demo_ping (connected_world any_url cfg_demo))
    = (out (connected_world any_url cfg_demo) ++ [WsSend 0 pong_frame])%list /\
  messagesSent (stats (step any_url cfg_demo demo_ping (connected_world any_url cfg_demo))) = 0 /\
  errors (stats (step any_url cfg_demo demo_ping (connected_world any_url cfg_demo))) = 0.
Proof.
  destruct (ping_answered any_url cfg_demo (connected_world any_url cfg_demo) 0%nat ping_message
              1700000000500 1700000000500 demo_iso) as (H1 & H2 & _).
  - reflexivity.
  - reflexivity.
  - unfold demo_ping. rewrite H1, H2. repeat split; reflexivity.
Defined.

(** ** The error counter *)

(** A socket close and a start without credential leave [errors] at 0. *)
Lemma close_and_missing_key_not_counted :
  errors (stats (connected_world any_url cfg_demo)) = 0 /\
  errors (stats (step any_url cfg_demo (SockClose 0) (connected_world any_url cfg_demo))) = 0 /\
  env_set (FINNHUB_API_KEY cfg_no_key) = false /\
  errors (stats (step any_url cfg_no_key Listening (world0 cfg_no_key))) = 0 /\
  ~ (errors (stats (connected_world any_url cfg_demo)) + 1
     <= errors (stats (step any_url cfg_demo (SockClose 0) (connected_world any_url cfg_demo)))).
Proof. repeat split; try reflexivity. vm_compute. intros H. apply H. reflexivity. Qed.

(** C8, as the code has it. A socket error, a frame that does not parse and
    a failed delivery each add exactly one to [errors]; a socket close does
    not change it, and neither does a connection attempt without credential,
    which opens no socket. *)
Theorem fault_counting url_ok cfg w :
  (forall s, errors (stats (step url_ok cfg (SockError s) w)) = errors (stats w) + 1) /\
  (forall s t_recv t_id iso_now,
     errors (stats (step url_ok cfg (SockMessage s None t_recv t_id iso_now) w))
       = errors (stats w) + 1) /\
  (forall i (newsData : value) r,
     inflight w !! i = Some newsData -> axios_resolves r = false ->
     errors (stats (step url_ok cfg (SinkAnswers i r) w)) = errors (stats w) + 1) /\
  (forall s, errors (stats (step url_ok cfg (SockClose s) w)) = errors (stats w)) /\
  (env_set (FINNHUB_API_KEY cfg) = false ->
   errors (stats (step url_ok cfg Listening w)) = errors (stats w) /\
   errors (stats (step url_ok cfg PostRestart w)) = errors (stats w) /\
   next_sock (step url_ok cfg Listening w) = next_sock w /\
   current_open (step url_ok cfg Listening w) = None).
Proof.
  split; [reflexivity|]. split; [reflexivity|]. split; [|split].
  - intros i newsData r Hi Hr. unfold step.
    by rewrite (sink_answers_at _ _ _ _ Hi), resume_rejected.
  - intros s. unfold step, on_close. js_run. cbn.
    destruct (reconnectAttempts w <? MAX_RECONNECT_ATTEMPTS); reflexivity.
  - intros Hkey.
    assert (step url_ok cfg Listening w = terminate_live w) as ->.
    { unfold step. by rewrite top_level_connect, Hkey. }
    destruct (terminate_live_frame w) as (_ & _ & _ & _ & Hst & Hn).
    split; [by rewrite Hst|]. split.
    + unfold step, restart. js_run.
      match goal with |- context [connectToFinnhub url_ok cfg ?x] =>
        destruct (connect_frame url_ok cfg x) as (_ & _ & _ & _ & Hc);
        destruct (connectToFinnhub url_ok cfg x) as [[] ?]; cbn in *; exact Hc
      end.
    + split; [exact Hn | apply current_open_terminate_live].
Qed.

Lemma fault_counting_witness :
  errors (stats (step any_url cfg_demo (SinkAnswers 0 NoResponse) demo_posted)) = 1 /\
  errors (stats (step any_url cfg_no_key Listening (world0 cfg_no_key))) = 0 /\
  current_open (step any_url cfg_no_key Listening (world0 cfg_no_key)) = None.
Proof.
  destruct (fault_counting any_url cfg_demo demo_posted) as (_ & _ & H3 & _).
  destruct (fault_counting any_url cfg_no_key (world0 cfg_no_key)) as (_ & _ & _ & _ & H5).
  split.
  - rewrite (H3 0%nat (VObj demo_event) NoResponse); reflexivity.
  - destruct H5 as (H & _ & _ & H'); [reflexivity|].
    rewrite H, H'. split; reflexivity.
Defined.

(** ** Replay of the registry, and timers *)

Lemma set_out_app_nil w : set_out (out w ++ []) w = w.
Proof. destruct w. cbn. by rewrite app_nil_r. Qed.

Lemma forEach_subscribe (r : list string) w s :
  current_open w = Some s ->
  forEach r subscribeToSymbol w = (Ok tt, set_out (out w ++ replay_frames s r) w).
Proof.
  revert w. induction r as [|topic r IH]; intros w Hc; cbn.
  - unfold ret. by rewrite set_out_app_nil.
  - unfold bind. rewrite subscribeToSymbol_spec, Hc.
    rewrite IH by exact Hc. cbn. by rewrite <- app_assoc.
Qed.

(** The replay never throws: it sends on the open current socket, or not
    at all. *)
Lemma replay_spec w :
  subscribeToAllSymbols w =
  (Ok tt, match current_open w with
          | Some c => set_out (out w ++ replay_frames c (SYMBOLS w)) w
          | None => w
          end).
Proof.
  unfold subscribeToAllSymbols. js_run. rewrite ws_is_open_current.
  destruct (current_open w) as [c|] eqn:Hc.
  - rewrite bool_decide_eq_true_2 by eauto. cbn [negb].
    by rewrite (forEach_subscribe _ _ c).
  - rewrite bool_decide_eq_false_2 by (intros [? ?]; discriminate). reflexivity.
Qed.

Lemma on_open_spec now w :
  exec (on_open now) w =
  set_timers (timers w ++ [(1000, CbSubscribeAll)])
    (set_reconnectAttempts 0
       (set_stats (set_connectionTime now (set_connected true (stats w))) w)).
Proof. reflexivity. Qed.

Lemma current_open_after_open w s :
  ws w = Some s -> current_open (set_readyState s OPEN w) = Some s.
Proof.
  intros Hws. unfold current_open. cbn [ws set_readyState set_heap].
  rewrite Hws, readyState_set. reflexivity.
Qed.

(** The replay reads the registry and the socket when it fires, not when
    the socket opened. On the connected bridge the registry holds one topic;
    a topic added before the replay fires is subscribed twice, three
    subscribe frames in all; and when the socket closes before the replay
    fires, no frame is sent. *)
Lemma replay_reads_registry_late :
  SYMBOLS (connected_world any_url cfg_demo) = ["AAPL"] /\
  timers (connected_world any_url cfg_demo) = [(1000, CbSubscribeAll)] /\
  out (run any_url cfg_demo [PostSymbolsAdd (VStr "msft"); TimerFires 0]
         (connected_world any_url cfg_demo))
    = (out (connected_world any_url cfg_demo)
       ++ [ literal_subscribe 0 "MSFT";
            literal_subscribe 0 "AAPL"; literal_subscribe 0 "MSFT" ])%list /\
  out (run any_url cfg_demo [SockClose 0; TimerFires 0] (connected_world any_url cfg_demo))
    = out (connected_world any_url cfg_demo).
Proof. repeat split. Qed.

(** C4, as the code has it. When a socket opens, the handler sets the
    attempt counter to 0, records the connection time, sets the connected
    flag and schedules one replay 1000 ms later, and sends nothing itself.
    Whenever a replay timer fires, it is gone, and the replay reads the
    registry and the socket as they are then: on an open current socket it
    sends exactly one frame [{type: 'subscribe', symbol: topic}] per topic,
    in registry order, on that socket, and otherwise nothing. A single
    subscription sends nothing while no socket is open. Fired right after
    the open of the current socket, the replay sends the N frames of the N
    topics the registry held at the open. *)
Theorem replay_after_open url_ok cfg w s now :
  reconnectAttempts (step url_ok cfg (SockOpen s now) w) = 0 /\
  connectionTime (stats (step url_ok cfg (SockOpen s now) w)) = Some now /\
  connected (stats (step url_ok cfg (SockOpen s now) w)) = true /\
  timers (step url_ok cfg (SockOpen s now) w) = (timers w ++ [(1000, CbSubscribeAll)])%list /\
  out (step url_ok cfg (SockOpen s now) w) = out w /\
  (forall w' i delay,
     timers w' !! i = Some (delay, CbSubscribeAll) ->
     step url_ok cfg (TimerFires i) w'
       = match current_open w' with
         | Some c => set_out (out w' ++ map (literal_subscribe c) (SYMBOLS w'))
                       (set_timers (delete i (timers w')) w')
         | None => set_timers (delete i (timers w')) w'
         end) /\
  (forall c r, length (map (literal_subscribe c) r) = length r) /\
  (forall w' topic, current_open w' = None -> exec (subscribeToSymbol topic) w' = w') /\
  (ws w = Some s ->
   out (step url_ok cfg (TimerFires (length (timers w))) (step url_ok cfg (SockOpen s now) w))
     = (out w ++ map (literal_subscribe s) (SYMBOLS w))%list).
Proof.
  repeat split.
  - intros w' i delay Hi. unfold step, fire_timer. rewrite Hi. cbn [run_callback].
    apply top_level_ok. rewrite replay_spec.
    change (current_open (set_timers (delete i (timers w')) w')) with (current_open w').
    destruct (current_open w'); reflexivity.
  - intros c r. apply length_map.
  - intros w' topic Hc. unfold exec. by rewrite subscribeToSymbol_spec, Hc.
  - intros Hws. unfold step. rewrite on_open_spec. unfold fire_timer.
    cbn [timers set_timers]. rewrite lookup_snoc, delete_snoc. cbn [run_callback].
    erewrite top_level_ok by apply replay_spec.
    match goal with |- context [current_open ?x] =>
      change (current_open x) with (current_open (set_readyState s OPEN w))
    end.
    by rewrite (current_open_after_open w s Hws).
Qed.

Lemma replay_after_open_witness :
  out (step any_url cfg_demo (TimerFires 0) (connected_world any_url cfg_demo))
    = [ WsNew 0 "wss://ws.finnhub.io?token=token";
        WsSend 0 (VObj [ ("type", VStr "subscribe"); ("symbol", VStr "AAPL") ]) ] /\
  out (step any_url cfg_demo (TimerFires 0)
         (step any_url cfg_demo (SockClose 0) (connected_world any_url cfg_demo)))
    = [ WsNew 0 "wss://ws.finnhub.io?token=token" ].
Proof.
  destruct (replay_after_open any_url cfg_demo (started any_url cfg_demo) 0 1700000000000)
    as (_ & _ & _ & _ & _ & Hfire & _ & _ & H).
  split.
  - unfold connected_world.
    change 0%nat with (length (timers (started any_url cfg_demo))) at 1.
    rewrite H; reflexivity.
  - rewrite (Hfire _ 0%nat 1000); reflexivity.
Defined.

Lemma keep_alive_spec w :
  exec keep_alive w =
  match current_open w with
  | Some c => set_out (out w ++ [WsPing c]) w
  | None => w
  end.
Proof.
  unfold keep_alive, current_open. js_run.
  destruct (ws w) as [c|]; [|reflexivity]. cbn.
  case_bool_decide; reflexivity.
Qed.

(** An open current socket is the one [connectToFinnhub] terminates. *)
Lemma terminate_live_open w c :
  current_open w = Some c ->
  terminate_live w
  = set_ws None (set_out (out w ++ [WsTerminate c])
                   (set_heap (<[c := CLOSING]> (heap w)) w)).
Proof.
  intros [Hws Hst]%current_open_inv. unfold terminate_live, live_socket.
  rewrite Hws, Hst. reflexivity.
Qed.

(** With a credential, [connectToFinnhub] from a timer on an open current
    socket terminates it; then it opens the next one, which is connecting,
    or the constructor throws and nothing catches it. *)
Lemma connect_replaces_open url_ok cfg w c :
  env_set (FINNHUB_API_KEY cfg) = true ->
  current_open w = Some c ->
  out (top_level (connectToFinnhub url_ok cfg) w)
    = (out w ++ [ WsTerminate c;
                  if url_ok (connect_url cfg)
                  then WsNew (next_sock w) (connect_url cfg)
                  else ProcessExit SyntaxError ])%list /\
  ws (top_level (connectToFinnhub url_ok cfg) w)
    = (if url_ok (connect_url cfg) then Some (next_sock w) else None) /\
  current_open (top_level (connectToFinnhub url_ok cfg) w) = None /\
  (url_ok (connect_url cfg) = true ->
   connected (stats (top_level (connectToFinnhub url_ok cfg) w)) = false).
Proof.
  intros Hkey Hc. rewrite top_level_connect, Hkey. cbn [negb].
  rewrite (terminate_live_open w c Hc).
  destruct (url_ok (connect_url cfg)); cbn.
  - rewrite <- app_assoc. repeat split.
    unfold current_open, readyState. cbn. by rewrite lookup_insert_eq.
  - rewrite <- app_assoc. repeat split. discriminate.
Qed.

(** On the restarted bridge socket 1 is open and the only pending timer is
    the reconnect that the close of socket 0 set; when it fires, socket 1 is
    terminated and socket 2 is opened. *)
Lemma stale_reconnect_terminates_newer :
  timers restarted_world = [(2000, CbReconnect)] /\
  current_open restarted_world = Some 1%nat /\
  connected (stats restarted_world) = true /\
  out (step any_url cfg_demo (TimerFires 0) restarted_world)
    = (out restarted_world
       ++ [WsTerminate 1; WsNew 2 "wss://ws.finnhub.io?token=token"])%list /\
  current_open (step any_url cfg_demo (TimerFires 0) restarted_world) = None /\
  connected (stats (step any_url cfg_demo (TimerFires 0) restarted_world)) = false /\
  step any_url cfg_demo (TimerFires 0) restarted_world
    <> set_timers (delete 0%nat (timers restarted_world)) restarted_world.
Proof.
  repeat split; try reflexivity.
  intros H. apply (f_equal (fun w => connected (stats w))) in H.
  vm_compute in H. discriminate.
Qed.

(** C7, as the code has it. Timers carry no mark of the connection that set
    them; they act on the socket [ws] names when they fire. A reconnect
    timer that fires while a socket is open terminates that socket and opens
    the next one; a replay timer sends one subscribe frame per topic on the
    open current socket and does nothing when there is none; the keep-alive
    tick pings the open current socket and changes nothing else. (Should
    the [ws] package refuse the URL, the reconnect timer still terminates
    the open socket, and the exception of the constructor ends the
    process.) *)
Theorem timers_act_on_current_socket url_ok cfg w (i : nat) (delay : Z) :
  (timers w !! i = Some (delay, CbReconnect) ->
   env_set (FINNHUB_API_KEY cfg) = true ->
   forall c, current_open w = Some c ->
   out (step url_ok cfg (TimerFires i) w)
     = (out w ++ [ WsTerminate c;
                   if url_ok (connect_url cfg)
                   then WsNew (next_sock w) (connect_url cfg)
                   else ProcessExit SyntaxError ])%list /\
   ws (step url_ok cfg (TimerFires i) w)
     = (if url_ok (connect_url cfg) then Some (next_sock w) else None) /\
   current_open (step url_ok cfg (TimerFires i) w) = None /\
   (url_ok (connect_url cfg) = true ->
    connected (stats (step url_ok cfg (TimerFires i) w)) = false)) /\
  (timers w !! i = Some (delay, CbSubscribeAll) ->
   (forall c, current_open w = Some c ->
    step url_ok cfg (TimerFires i) w
      = set_out (out w ++ replay_frames c (SYMBOLS w))
          (set_timers (delete i (timers w)) w)) /\
   (current_open w = None ->
    step url_ok cfg (TimerFires i) w = set_timers (delete i (timers w)) w)) /\
  step url_ok cfg KeepAliveTick w
    = match current_open w with
      | Some c => set_out (out w ++ [WsPing c]) w
      | None => w
      end.
Proof.
  split; [|split].
  - intros Hi Hkey c Hc. unfold step, fire_timer. rewrite Hi. cbn [run_callback].
    by apply (connect_replaces_open url_ok cfg (set_timers (delete i (timers w)) w) c).
  - intros Hi. unfold step, fire_timer. rewrite Hi. cbn [run_callback]. split.
    + intros c Hc. apply top_level_ok. rewrite replay_spec.
      change (current_open (set_timers (delete i (timers w)) w)) with (current_open w).
      by rewrite Hc.
    + intros Hc. apply top_level_ok. rewrite replay_spec.
      change (current_open (set_timers (delete i (timers w)) w)) with (current_open w).
      by rewrite Hc.
  - apply keep_alive_spec.
Qed.

Lemma timers_act_on_current_socket_witness :
  out (step any_url cfg_demo (TimerFires 0) restarted_world)
    = (out restarted_world
       ++ [WsTerminate 1; WsNew 2 "wss://ws.finnhub.io?token=token"])%list /\
  step any_url cfg_demo (TimerFires 0) (connected_world any_url cfg_demo)
    = set_out (out (connected_world any_url cfg_demo) ++ replay_frames 0 ["AAPL"])
        (set_timers [] (connected_world any_url cfg_demo)).
Proof.
  destruct (timers_act_on_current_socket any_url cfg_demo restarted_world 0 2000) as (H1 & _ & _).
  destruct (timers_act_on_current_socket any_url cfg_demo (connected_world any_url cfg_demo) 0 1000)
    as (_ & H2 & _).
  split.
  - destruct (H1 eq_refl eq_refl 1%nat eq_refl) as (-> & _). reflexivity.
  - destruct (H2 eq_refl) as (H & _). rewrite (H 0%nat eq_refl). reflexivity.
Defined.

(** * Further properties *)

Ltac use_eqs :=
  repeat match goal with
         | H : ?x = _ |- context [?x] => rewrite H
         end.

(** A scrutinee that has no case analysis inside it. *)
Ltac plain_scrutinee x :=
  lazymatch x with
  | context [if _ then _ else _] => fail
  | context [match _ with _ => _ end] => fail
  | _ => idtac
  end.

Ltac break_step :=
  match goal with
  | |- context [match ?x with _ => _ end] => plain_scrutinee x; destruct x eqn:?
  | |- context [if ?x then _ else _] => plain_scrutinee x; destruct x eqn:?
  end.

Ltac break_decide :=
  match goal with
  | |- context [bool_decide ?P] =>
      destruct (decide P);
      [ rewrite (bool_decide_eq_true_2 P) by assumption
      | rewrite (bool_decide_eq_false_2 P) by assumption ]
  end.

(** Run a handler on a symbolic world, one case per branch it can take. *)
Ltac js_cases :=
  repeat (cbn in *; use_eqs; try first [break_decide | break_step]; try discriminate).

Ltac unfold_handlers :=
  unfold on_open, on_error, on_close, keep_alive, sendToN8n_resume,
    terminate_live, open_next, live_socket, optional_substring, readyState in *.

(** The message handler, case by case: a frame that does not parse, one
    that parses to [null], a news frame at line 218 and at the guard of
    [sendToN8n], a ping by the state of the current socket, and the rest. *)
Lemma on_message_spec cfg data t_recv t_id iso_now w :
  exec (on_message cfg data t_recv t_id iso_now) w =
  match data with
  | None => set_stats (incr_errors (stats w)) w
  | Some VUndefined | Some VNull => set_stats (incr_errors (received t_recv (stats w))) w
  | Some message =>
      if news_kind message then
        if line_218_ok message then
          if env_set (N8N_WEBHOOK_URL cfg) then
            set_inflight (inflight w ++ [VObj (event_of message t_id)])
              (set_out (out w ++ [HttpPost (env_or (N8N_WEBHOOK_URL cfg) "")
                                           (sink_payload (event_of message t_id) iso_now)])
                 (set_stats (received t_recv (stats w)) w))
          else set_stats (received t_recv (stats w)) w
        else set_stats (incr_errors (received t_recv (stats w))) w
      else if is_ping message then
        match ws w with
        | None => set_stats (incr_errors (received t_recv (stats w))) w
        | Some c =>
            match readyState w c with
            | CONNECTING => set_stats (incr_errors (received t_recv (stats w))) w
            | OPEN => set_out (out w ++ [WsSend c pong_frame])
                        (set_stats (received t_recv (stats w)) w)
            | CLOSING | CLOSED => set_stats (received t_recv (stats w)) w
            end
        end
      else set_stats (received t_recv (stats w)) w
  end.
Proof.
  destruct data as [message|]; [|reflexivity].
  destruct (news_kind message) eqn:Hnews.
  - unfold exec. rewrite on_message_news_kind by exact Hnews.
    destruct message; try discriminate. cbv beta iota.
    destruct (line_218_ok _); [|reflexivity].
    unfold sendToN8n. destruct (env_set (N8N_WEBHOOK_URL cfg)); reflexivity.
  - destruct message as [| |b|z|m|l|fs]; try reflexivity.
    cbv beta iota. unfold news_kind, is_ping in *. cbn [get] in *.
    unfold on_message, ws_send, prop, JSON_parse. js_run. cbn [get]. rewrite Hnews.
    destruct (is_str (field "type" fs) "ping"); [|reflexivity].
    destruct (ws w) as [c|] eqn:Hws; cbn [ws set_stats]; rewrite Hws; [|reflexivity].
    change (readyState (set_stats _ (set_stats _ w)) c) with (readyState w c).
    destruct (readyState w c); reflexivity.
Qed.

(** The event of a frame that passed line 218 has a headline [substring]
    can be called on. *)
Lemma event_headline message now :
  line_218_ok message = true ->
  printable (get (VObj (event_of message now)) "headline") = true.
Proof.
  intros Hok. pose proof (transform_ok message now Hok) as Ht.
  unfold line_218_ok in Hok. apply andb_true_iff in Hok as [Hh _].
  unfold transform in Ht.
  destruct (if truthy (get message "id") then _ else _) as [id|e]; [|discriminate].
  injection Ht as <-. cbn. destruct (get message "headline"); done.
Qed.

Lemma top_level_replay w :
  top_level subscribeToAllSymbols w =
  match current_open w with
  | Some c => set_out (out w ++ replay_frames c (SYMBOLS w)) w
  | None => w
  end.
Proof. apply top_level_ok, replay_spec. Qed.

Lemma exec_restart url_ok cfg w :
  exec (restart url_ok cfg) w
  = exec (connectToFinnhub url_ok cfg) (set_reconnectAttempts 0 w).
Proof.
  unfold exec, restart. js_run.
  destruct (connectToFinnhub url_ok cfg _) as [[] ?]; reflexivity.
Qed.

Arguments news_kind : simpl never.
Arguments line_218_ok : simpl never.
Arguments is_ping : simpl never.
Arguments event_of : simpl never.

(** ** Inbound frames *)

(** X1. Whatever arrives on the socket, the message handler leaves the
    connection, the registry, the timers, the attempt counter and
    [messagesSent] alone and adds at most one error. A frame that does not
    parse adds exactly one error and nothing else; a frame that parses is
    counted as received and stamps the last-message time, even when the
    handler then throws. *)
Theorem frame_accounting url_ok cfg w s (data : option value) t_recv t_id iso_now :
  (data = None ->
   step url_ok cfg (SockMessage s data t_recv t_id iso_now) w
     = set_stats (incr_errors (stats w)) w) /\
  (data <> None ->
   messagesReceived (stats (step url_ok cfg (SockMessage s data t_recv t_id iso_now) w))
     = messagesReceived (stats w) + 1 /\
   lastMessage (stats (step url_ok cfg (SockMessage s data t_recv t_id iso_now) w))
     = Some t_recv) /\
  errors (stats w)
    <= errors (stats (step url_ok cfg (SockMessage s data t_recv t_id iso_now) w))
    <= errors (stats w) + 1 /\
  messagesSent (stats (step url_ok cfg (SockMessage s data t_recv t_id iso_now) w))
    = messagesSent (stats w) /\
  connected (stats (step url_ok cfg (SockMessage s data t_recv t_id iso_now) w))
    = connected (stats w) /\
  connectionTime (stats (step url_ok cfg (SockMessage s data t_recv t_id iso_now) w))
    = connectionTime (stats w) /\
  SYMBOLS (step url_ok cfg (SockMessage s data t_recv t_id iso_now) w) = SYMBOLS w /\
  ws (step url_ok cfg (SockMessage s data t_recv t_id iso_now) w) = ws w /\
  heap (step url_ok cfg (SockMessage s data t_recv t_id iso_now) w) = heap w /\
  timers (step url_ok cfg (SockMessage s data t_recv t_id iso_now) w) = timers w /\
  reconnectAttempts (step url_ok cfg (SockMessage s data t_recv t_id iso_now) w)
    = reconnectAttempts w.
Proof.
  unfold step. rewrite on_message_spec.
  split; [intros ->; reflexivity|].
  split; [intros Hd; destruct data as [m|]; [clear Hd|congruence]|];
    js_cases; repeat split; try reflexivity; lia.
Qed.

Lemma frame_accounting_witness :
  step any_url cfg_demo (SockMessage 0 None 7 7 demo_iso) (connected_world any_url cfg_demo)
    = set_stats (incr_errors (stats (connected_world any_url cfg_demo))) (connected_world any_url cfg_demo) /\
  messagesReceived (stats (step any_url cfg_demo demo_news (connected_world any_url cfg_demo))) = 1.
Proof.
  destruct (frame_accounting any_url cfg_demo (connected_world any_url cfg_demo) 0%nat None 7 7 demo_iso)
    as (H1 & _).
  destruct (frame_accounting any_url cfg_demo (connected_world any_url cfg_demo) 0%nat
              (Some (bare_news "AAPL" "X")) 1700000000500 1700000000501 demo_iso)
    as (_ & H2 & _).
  split; [apply H1; reflexivity|].
  destruct H2 as [H2 _]; [discriminate|]. unfold demo_news. rewrite H2. reflexivity.
Defined.

(** X2. A frame that parsed to anything but [null] and whose type is
    neither "news" nor "ping" (an object of another type, a number, a
    string, an array) is counted as received and dropped: nothing is sent,
    posted or counted as an error. *)
Theorem other_frame_dropped url_ok cfg w s message t_recv t_id iso_now :
  is_other message = true ->
  step url_ok cfg (SockMessage s (Some message) t_recv t_id iso_now) w
    = set_stats (received t_recv (stats w)) w.
Proof.
  intros H. unfold step, is_other in *. rewrite on_message_spec.
  destruct message as [| |b|z|m|l|fs]; try discriminate; try reflexivity.
  apply andb_true_iff in H as [H1 H2].
  apply negb_true_iff in H1, H2. unfold news_kind, is_ping. by rewrite H1, H2.
Qed.

Lemma other_frame_dropped_witness :
  step any_url cfg_demo (SockMessage 0 (Some (VObj [("type", VStr "trade")])) 9 9 demo_iso)
       (connected_world any_url cfg_demo)
    = set_stats (received 9 (stats (connected_world any_url cfg_demo))) (connected_world any_url cfg_demo).
Proof. apply (other_frame_dropped any_url cfg_demo). reflexivity. Defined.

(** X3. A ping frame is never answered unless the current socket is open.
    Without a socket, or with one still connecting, [ws.send] throws and the
    frame counts as an error; with a closing or closed one the pong is
    dropped without a trace. *)
Theorem ping_without_open_socket url_ok cfg w s message t_recv t_id iso_now :
  is_ping message = true ->
  current_open w = None ->
  step url_ok cfg (SockMessage s (Some message) t_recv t_id iso_now) w
    = set_stats
        (if match ws w with
            | Some c => bool_decide (readyState w c = CONNECTING)
            | None => true
            end
         then incr_errors (received t_recv (stats w))
         else received t_recv (stats w)) w.
Proof.
  unfold is_ping, current_open. intros Hty Hc.
  destruct message as [| |b|z|m|l|fs]; try discriminate. cbn in Hty.
  destruct (field "type" fs) as [| |b|z|ty|l|fs'] eqn:Ety; try discriminate.
  cbn in Hty. apply String.eqb_eq in Hty. subst ty.
  unfold step, on_message, ws_send, prop, JSON_parse. js_run. cbn. rewrite Ety. cbn.
  destruct (ws w) as [c|] eqn:Hws; [|reflexivity]. cbn.
  change (readyState (set_stats _ (set_stats _ w)) c) with (readyState w c).
  destruct (readyState w c) eqn:Hst; try reflexivity.
  rewrite bool_decide_eq_true_2 in Hc by reflexivity. discriminate.
Qed.

Lemma ping_without_open_socket_witness :
  out (step any_url cfg_demo demo_ping (started any_url cfg_demo)) = out (started any_url cfg_demo) /\
  errors (stats (step any_url cfg_demo demo_ping (started any_url cfg_demo))) = 1.
Proof.
  unfold demo_ping.
  rewrite (ping_without_open_socket any_url cfg_demo (started any_url cfg_demo)) by reflexivity.
  split; reflexivity.
Defined.

(** ** The registry endpoints *)

Lemma indexOf_elem (symbol : string) (l : list string) :
  symbol ∈ l -> is_Some (indexOf symbol l).
Proof.
  intros H. destruct (indexOf symbol l) eqn:E; [eauto|].
  apply indexOf_None in E. contradiction.
Qed.

Lemma indexOf_snoc (symbol : string) (l : list string) :
  symbol ∉ l -> indexOf symbol (l ++ [symbol]) = Some (length l).
Proof.
  induction l as [|x r IH]; intros Hn; cbn.
  - by rewrite String.eqb_refl.
  - apply not_elem_of_cons in Hn as [Hx Hr].
    destruct (String.eqb x symbol) eqn:E.
    + apply String.eqb_eq in E. congruence.
    + rewrite IH by assumption. reflexivity.
Qed.

Lemma delete_lookup_NoDup (l : list string) (i : nat) (x : string) :
  NoDup l -> l !! i = Some x -> x ∉ delete i l.
Proof.
  intros Hd. revert i. induction Hd as [|y r Hy Hd IH]; intros i Hi; [discriminate|].
  destruct i as [|i]; cbn in *.
  - by injection Hi as ->.
  - apply not_elem_of_cons. split; [|by apply IH].
    intros ->. apply Hy. eapply list_elem_of_lookup_2. exact Hi.
Qed.

Lemma delete_lookup_other (l : list string) (i : nat) (x t : string) :
  l !! i = Some x -> t <> x -> t ∈ delete i l <-> t ∈ l.
Proof.
  revert i. induction l as [|y r IH]; intros i Hi Ht; [discriminate|].
  destruct i as [|i]; cbn in *.
  - injection Hi as ->. rewrite elem_of_cons. split; [auto|]. intros [H|H]; [contradiction|exact H].
  - rewrite !elem_of_cons, (IH i) by assumption. reflexivity.
Qed.

Lemma delete_lookup_length {A} (l : list A) (i : nat) (x : A) :
  l !! i = Some x -> length l = S (length (delete i l)).
Proof.
  revert i. induction l as [|y r IH]; intros i Hi; [discriminate|].
  destruct i as [|i]; cbn in *; [reflexivity|]. f_equal. by apply IH.
Qed.

(** [DELETE /symbols/:symbol] in full. *)
Lemma symbols_delete_spec param w :
  symbols_delete param w =
  match indexOf (toUpperCase param) (SYMBOLS w) with
  | Some i =>
      let w1 := set_SYMBOLS (delete i (SYMBOLS w)) w in
      (Ok (Json 200 (VObj [ ("message", VStr ("Removed " +:+ toUpperCase param));
                            ("symbols", symbols_json w1) ])),
       match current_open w with
       | Some c => set_out (out w ++ [WsSend c (unsubscribe_frame (toUpperCase param))]) w1
       | None => w1
       end)
  | None => (Ok (Json 404 (VObj [ ("error", VStr "Symbol not found") ])), w)
  end.
Proof.
  unfold symbols_delete. js_run.
  destruct (indexOf (toUpperCase param) (SYMBOLS w)) as [i|]; cbn; [|reflexivity].
  rewrite ws_is_open_current, current_open_set_SYMBOLS.
  destruct (current_open w) as [c|] eqn:Ec.
  - rewrite bool_decide_eq_true_2 by eauto.
    rewrite unsubscribeFromSymbol_spec, current_open_set_SYMBOLS, Ec. reflexivity.
  - rewrite bool_decide_eq_false_2 by (intros [? ?]; discriminate). reflexivity.
Qed.

(** X4. Removing a topic compares in upper case. A topic that is not in the
    registry is answered 404 and nothing changes. A topic of a duplicate-free
    registry is gone afterwards, the other topics stay in their order, the
    answer is 200 with the new list, and one unsubscribe frame goes to the
    current socket if it is open, none otherwise. *)
Theorem remove_topic (param : string) (w : World) :
  (toUpperCase param ∉ SYMBOLS w ->
   symbols_delete param w
     = (Ok (Json 404 (VObj [ ("error", VStr "Symbol not found") ])), w)) /\
  (toUpperCase param ∈ SYMBOLS w -> NoDup (SYMBOLS w) ->
   (toUpperCase param ∉ SYMBOLS (exec (symbols_delete param) w)) /\
   (forall t, t <> toUpperCase param ->
      t ∈ SYMBOLS (exec (symbols_delete param) w) <-> t ∈ SYMBOLS w) /\
   SYMBOLS (exec (symbols_delete param) w) `sublist_of` SYMBOLS w /\
   length (SYMBOLS w) = S (length (SYMBOLS (exec (symbols_delete param) w))) /\
   out (exec (symbols_delete param) w)
     = (out w ++ match current_open w with
                 | Some c => [WsSend c (unsubscribe_frame (toUpperCase param))]
                 | None => []
                 end)%list /\
   fst (symbols_delete param w)
     = Ok (Json 200 (VObj [ ("message", VStr ("Removed " +:+ toUpperCase param));
                            ("symbols",
                             symbols_json (exec (symbols_delete param) w)) ]))).
Proof.
  unfold exec. rewrite symbols_delete_spec. split.
  - intros Hn. destruct (indexOf _ _) as [i|] eqn:E; [|reflexivity].
    apply indexOf_Some in E. apply list_elem_of_lookup_2 in E. contradiction.
  - intros Hin Hd. destruct (indexOf_elem _ _ Hin) as [i E]. rewrite E.
    apply indexOf_Some in E. cbn zeta. cbn [fst snd].
    assert (SYMBOLS (match current_open w with
                     | Some c => set_out (out w ++ [WsSend c (unsubscribe_frame (toUpperCase param))])
                                   (set_SYMBOLS (delete i (SYMBOLS w)) w)
                     | None => set_SYMBOLS (delete i (SYMBOLS w)) w
                     end) = delete i (SYMBOLS w)) as Hs
      by (destruct (current_open w); reflexivity).
    rewrite Hs. repeat split.
    + by apply delete_lookup_NoDup.
    + by apply (delete_lookup_other _ i (toUpperCase param)).
    + by apply (delete_lookup_other _ i (toUpperCase param)).
    + apply sublist_delete.
    + by apply (delete_lookup_length _ i (toUpperCase param)).
    + destruct (current_open w); cbn; [reflexivity|by rewrite app_nil_r].
    + unfold symbols_json. rewrite Hs. reflexivity.
Qed.

Lemma remove_topic_witness :
  symbols_delete "msft" (connected_world any_url cfg_demo)
    = (Ok (Json 404 (VObj [ ("error", VStr "Symbol not found") ])), connected_world any_url cfg_demo) /\
  SYMBOLS (exec (symbols_delete "aapl") (connected_world any_url cfg_demo)) = [] /\
  out (exec (symbols_delete "aapl") (connected_world any_url cfg_demo))
    = (out (connected_world any_url cfg_demo) ++ [WsSend 0 (unsubscribe_frame "AAPL")])%list.
Proof.
  destruct (remove_topic "msft" (connected_world any_url cfg_demo)) as [H1 _].
  destruct (remove_topic "aapl" (connected_world any_url cfg_demo)) as [_ H2].
  split.
  - apply H1. apply (bool_decide_eq_false_1 _). reflexivity.
  - destruct H2 as (_ & _ & _ & _ & H & _).
    + apply (bool_decide_eq_true_1 _). reflexivity.
    + apply NoDup_singleton.
    + split; [reflexivity | exact H].
Defined.

(** X5. Adding a new topic and then removing it, in whatever letter case,
    gives the registry back as it was; on an open socket the wire sees the
    subscribe frame followed by the unsubscribe frame, and nothing when no
    socket is open. *)
Theorem add_then_remove (s param : string) (w : World) :
  s <> "" -> toUpperCase s ∉ SYMBOLS w -> (length (SYMBOLS w) < 50)%nat ->
  toUpperCase param = toUpperCase s ->
  SYMBOLS (exec (symbols_delete param) (exec (symbols_add (VStr s)) w)) = SYMBOLS w /\
  out (exec (symbols_delete param) (exec (symbols_add (VStr s)) w))
    = (out w ++ match current_open w with
                | Some c => [ WsSend c (subscribe_frame (toUpperCase s));
                              WsSend c (unsubscribe_frame (toUpperCase s)) ]
                | None => []
                end)%list.
Proof.
  intros Hs Hn Hl Hp. unfold exec.
  rewrite symbols_add_str. cbn zeta.
  apply String.eqb_neq in Hs. rewrite Hs, (bool_decide_eq_false_2 _ Hn).
  assert ((Z.of_nat (length (SYMBOLS w)) <? 50) = true) as -> by (apply Z.ltb_lt; lia).
  cbn [negb andb snd].
  rewrite symbols_delete_spec, Hp.
  destruct (current_open w) as [c|] eqn:Ec.
  - cbn [SYMBOLS set_out set_SYMBOLS]. rewrite indexOf_snoc by assumption.
    cbn zeta. change (current_open (set_out ?o (set_SYMBOLS ?r w))) with (current_open w).
    rewrite Ec. cbn. rewrite delete_snoc, <- app_assoc. split; reflexivity.
  - cbn [SYMBOLS set_out set_SYMBOLS]. rewrite indexOf_snoc by assumption.
    cbn zeta. change (current_open (set_SYMBOLS ?r w)) with (current_open w).
    rewrite Ec. cbn. rewrite delete_snoc, app_nil_r. split; reflexivity.
Qed.

Lemma add_then_remove_witness :
  SYMBOLS (exec (symbols_delete "Msft") (exec (symbols_add (VStr "msft")) (connected_world any_url cfg_demo)))
    = ["AAPL"] /\
  out (exec (symbols_delete "Msft") (exec (symbols_add (VStr "msft")) (connected_world any_url cfg_demo)))
    = (out (connected_world any_url cfg_demo)
       ++ [ WsSend 0 (subscribe_frame "MSFT"); WsSend 0 (unsubscribe_frame "MSFT") ])%list.
Proof.
  apply (add_then_remove "msft" "Msft" (connected_world any_url cfg_demo)).
  - discriminate.
  - apply (bool_decide_eq_false_1 _). reflexivity.
  - cbn. lia.
  - reflexivity.
Defined.

(** X6. A topic added while no socket is open is stored and not sent; when
    the connecting socket then opens and its replay runs, the topic is
    subscribed with the rest of the registry, last in order. *)
Theorem offline_add_replayed url_ok cfg (s : string) (c : nat) (now : Z) (w : World) :
  s <> "" -> toUpperCase s ∉ SYMBOLS w -> (length (SYMBOLS w) < 50)%nat ->
  ws w = Some c -> current_open w = None ->
  out (step url_ok cfg (PostSymbolsAdd (VStr s)) w) = out w /\
  SYMBOLS (step url_ok cfg (PostSymbolsAdd (VStr s)) w) = (SYMBOLS w ++ [toUpperCase s])%list /\
  out (step url_ok cfg (TimerFires (length (timers w)))
         (step url_ok cfg (SockOpen c now) (step url_ok cfg (PostSymbolsAdd (VStr s)) w)))
    = (out w ++ replay_frames c (SYMBOLS w ++ [toUpperCase s]))%list.
Proof.
  intros Hs Hn Hl Hws Hc.
  assert (step url_ok cfg (PostSymbolsAdd (VStr s)) w
          = set_SYMBOLS (SYMBOLS w ++ [toUpperCase s]) w) as ->.
  { unfold step, exec. rewrite symbols_add_str. cbn zeta.
    apply String.eqb_neq in Hs. rewrite Hs, (bool_decide_eq_false_2 _ Hn).
    assert ((Z.of_nat (length (SYMBOLS w)) <? 50) = true) as -> by (apply Z.ltb_lt; lia).
    rewrite Hc. reflexivity. }
  split; [reflexivity|]. split; [reflexivity|].
  unfold step. rewrite on_open_spec. unfold fire_timer.
  cbn [timers set_timers set_reconnectAttempts set_stats set_readyState set_heap set_SYMBOLS].
  rewrite lookup_snoc, delete_snoc. cbn [run_callback].
  rewrite top_level_replay.
  match goal with
  | |- context [current_open ?x] => assert (current_open x = Some c) as ->
  end.
  { unfold current_open. cbn. rewrite Hws. unfold readyState. cbn.
    by rewrite lookup_insert_eq. }
  reflexivity.
Qed.

Lemma offline_add_replayed_witness :
  out (step any_url cfg_demo (TimerFires 0)
         (step any_url cfg_demo (SockOpen 0 1700000000000)
            (step any_url cfg_demo (PostSymbolsAdd (VStr "msft")) (started any_url cfg_demo))))
    = [ WsNew 0 "wss://ws.finnhub.io?token=token";
        WsSend 0 (subscribe_frame "AAPL"); WsSend 0 (subscribe_frame "MSFT") ].
Proof.
  destruct (offline_add_replayed any_url cfg_demo "msft" 0 1700000000000 (started any_url cfg_demo))
    as (_ & _ & H).
  - discriminate.
  - apply (bool_decide_eq_false_1 _). reflexivity.
  - cbn. lia.
  - reflexivity.
  - reflexivity.
  - change 0%nat with (length (timers (started any_url cfg_demo))) at 1. rewrite H. reflexivity.
Defined.

(** ** What every event keeps *)

Lemma symbols_add_cases v w :
  exec (symbols_add v) w = w \/
  exists s, v = VStr s /\
    exec (symbols_add v) w =
    match current_open w with
    | Some c => set_out (out w ++ [WsSend c (subscribe_frame (toUpperCase s))])
                  (set_SYMBOLS (SYMBOLS w ++ [toUpperCase s]) w)
    | None => set_SYMBOLS (SYMBOLS w ++ [toUpperCase s]) w
    end.
Proof.
  destruct v as [| |b|z|s|l|fs];
    try (left; apply symbols_add_other; discriminate).
  unfold exec. rewrite symbols_add_str. cbn zeta.
  destruct (_ && _); [right; eauto | left; reflexivity].
Qed.

Lemma symbols_delete_cases param w :
  exec (symbols_delete param) w = w \/
  exists i,
    exec (symbols_delete param) w =
    match current_open w with
    | Some c => set_out (out w ++ [WsSend c (unsubscribe_frame (toUpperCase param))])
                  (set_SYMBOLS (delete i (SYMBOLS w)) w)
    | None => set_SYMBOLS (delete i (SYMBOLS w)) w
    end.
Proof.
  unfold exec. rewrite symbols_delete_spec.
  destruct (indexOf _ _) as [i|]; [right; eauto | left; reflexivity].
Qed.

(** Split a step into the branches its handler can take. *)
Ltac step_cases ev w :=
  destruct ev as [|s now|s data t_recv t_id iso_now|s|s|i| |i r|symbol|param|];
  unfold step, fire_timer, sink_answers;
  [ rewrite top_level_connect
    | | rewrite on_message_spec | |
    | destruct (timers w !! i) as [[d [|]]|] eqn:Htimer; cbn [run_callback];
        [ rewrite top_level_replay; destruct (current_open _) eqn:Hopen
        | rewrite top_level_connect | ]
    | | destruct (inflight w !! i) as [newsData|] eqn:Hflight
    | destruct (symbols_add_cases symbol w) as [->|(str & -> & ->)];
        [|destruct (current_open w) eqn:Hopen]
    | destruct (symbols_delete_cases param w) as [->|(idx & ->)];
        [|destruct (current_open w) eqn:Hopen]
    | rewrite exec_restart, exec_connect ];
  unfold_handlers; js_run; js_cases.

Lemma counters_step url_ok cfg (ev : event) (w : World) :
  messagesReceived (stats w) <= messagesReceived (stats (step url_ok cfg ev w))
    <= messagesReceived (stats w) + 1 /\
  messagesSent (stats w) <= messagesSent (stats (step url_ok cfg ev w))
    <= messagesSent (stats w) + 1 /\
  errors (stats w) <= errors (stats (step url_ok cfg ev w)) <= errors (stats w) + 1.
Proof. step_cases ev w; lia. Qed.

Lemma run_cons url_ok cfg ev evs w : run url_ok cfg (ev :: evs) w = run url_ok cfg evs (step url_ok cfg ev w).
Proof. reflexivity. Qed.

(** X7. Over any run of events no counter of [stats] ever goes down, and
    none grows by more than one per event. *)
Theorem counters_monotone url_ok cfg (evs : list event) (w : World) :
  messagesReceived (stats w) <= messagesReceived (stats (run url_ok cfg evs w))
    <= messagesReceived (stats w) + Z.of_nat (length evs) /\
  messagesSent (stats w) <= messagesSent (stats (run url_ok cfg evs w))
    <= messagesSent (stats w) + Z.of_nat (length evs) /\
  errors (stats w) <= errors (stats (run url_ok cfg evs w))
    <= errors (stats w) + Z.of_nat (length evs).
Proof.
  revert w. induction evs as [|ev evs IH]; intros w.
  - cbn. lia.
  - rewrite run_cons. specialize (IH (step url_ok cfg ev w)).
    pose proof (counters_step url_ok cfg ev w). cbn [length]. lia.
Qed.

Arguments current_open : simpl never.

Lemma current_open_heap w s :
  current_open w = Some s -> ws w = Some s /\ heap w !! s = Some OPEN.
Proof.
  intros [Hws Hst]%current_open_inv. split; [exact Hws|].
  unfold readyState in Hst. destruct (heap w !! s) as [r|]; cbn in Hst; congruence.
Qed.

Lemma current_open_intro w s :
  ws w = Some s -> default CLOSED (heap w !! s) = OPEN -> current_open w = Some s.
Proof.
  intros Hws Hst. unfold current_open, readyState. rewrite Hws, Hst. reflexivity.
Qed.

Lemma replay_on_current w c (r : list string) :
  current_open w = Some c -> Forall (on_current w) (replay_frames c r).
Proof. intros Hc. induction r; constructor; auto. Qed.

Ltac solve_wire :=
  first
    [ exists []; split; [by rewrite app_nil_r | constructor]
    | eexists; split;
      [ rewrite <- ?app_assoc; reflexivity
      | repeat first [ apply replay_on_current; assumption
                     | constructor ];
        try exact I; try assumption;
        try (cbn; apply current_open_intro; assumption) ] ].

(** X8. Whatever the event, the program only appends to its output, and
    every frame or ping it writes in that step goes to the socket that was
    current and open when the step began; while no socket is open nothing is
    written to the wire. A socket that reported an error is closing, not
    open: after an error on the current socket no socket is open. *)
Theorem frames_go_to_open_socket url_ok cfg (ev : event) (w : World) :
  (exists new,
     out (step url_ok cfg ev w) = (out w ++ new)%list /\ Forall (on_current w) new) /\
  (forall s, ws w = Some s -> current_open (step url_ok cfg (SockError s) w) = None).
Proof.
  split.
  - step_cases ev w; unfold on_current; solve_wire.
  - intros s Hws. unfold current_open, step, on_error, set_readyState, readyState.
    js_run. cbn. rewrite Hws, lookup_insert_eq. reflexivity.
Qed.

Lemma frames_go_to_open_socket_witness :
  current_open (step any_url cfg_demo (SockError 0) (connected_world any_url cfg_demo)) = None /\
  out (run any_url cfg_demo [SockError 0; demo_ping; KeepAliveTick; TimerFires 0]
         (connected_world any_url cfg_demo))
    = out (connected_world any_url cfg_demo).
Proof.
  split.
  - apply (frames_go_to_open_socket any_url cfg_demo Listening
             (connected_world any_url cfg_demo)).
    reflexivity.
  - reflexivity.
Defined.

(** X9. Each program variable has its events. The registry changes only on
    the add and delete requests; the attempt counter only on open, close and
    restart; the connection time only on open; [messagesSent] only when the
    sink answers; [messagesReceived] and the last-message time only on a
    frame; [errors] only on a frame, a socket error or a sink answer; the
    socket variable and the socket numbering only where [connectToFinnhub]
    runs (start, restart, a timer); the timers only on open, close and when
    one fires; the suspended deliveries only on a frame or a sink answer. *)
Theorem variable_owners url_ok cfg (ev : event) (w : World) :
  match ev with
  | PostSymbolsAdd _ | DeleteSymbol _ => True
  | _ => SYMBOLS (step url_ok cfg ev w) = SYMBOLS w
  end /\
  match ev with
  | SockOpen _ _ | SockClose _ | PostRestart => True
  | _ => reconnectAttempts (step url_ok cfg ev w) = reconnectAttempts w
  end /\
  match ev with
  | SockOpen _ _ => True
  | _ => connectionTime (stats (step url_ok cfg ev w)) = connectionTime (stats w)
  end /\
  match ev with
  | SinkAnswers _ _ => True
  | _ => messagesSent (stats (step url_ok cfg ev w)) = messagesSent (stats w)
  end /\
  match ev with
  | SockMessage _ _ _ _ _ => True
  | _ => messagesReceived (stats (step url_ok cfg ev w)) = messagesReceived (stats w) /\
         lastMessage (stats (step url_ok cfg ev w)) = lastMessage (stats w)
  end /\
  match ev with
  | SockMessage _ _ _ _ _ | SockError _ | SinkAnswers _ _ => True
  | _ => errors (stats (step url_ok cfg ev w)) = errors (stats w)
  end /\
  match ev with
  | Listening | PostRestart | TimerFires _ => True
  | _ => ws (step url_ok cfg ev w) = ws w /\ next_sock (step url_ok cfg ev w) = next_sock w
  end /\
  match ev with
  | SockOpen _ _ | SockClose _ | TimerFires _ => True
  | _ => timers (step url_ok cfg ev w) = timers w
  end /\
  match ev with
  | SockMessage _ _ _ _ _ | SinkAnswers _ _ => True
  | _ => inflight (step url_ok cfg ev w) = inflight w
  end.
Proof. step_cases ev w; repeat split. Qed.

(** ** The back-off state over whole runs *)

Lemma backoff_delay_range (k : Z) :
  0 <= k -> 2000 <= Z.min (BASE_RECONNECT_DELAY * 2 ^ k) 30000 <= 30000.
Proof.
  intros Hk. unfold BASE_RECONNECT_DELAY.
  assert (0 < 2 ^ k) by (apply Z.pow_pos_nonneg; lia). lia.
Qed.

Lemma backoff_step url_ok cfg (ev : event) (w : World) :
  backoff_inv w -> backoff_inv (step url_ok cfg ev w).
Proof.
  unfold backoff_inv, MAX_RECONNECT_ATTEMPTS. intros [Ha Ht].
  step_cases ev w;
    repeat match goal with
           | H : (_ <? _) = true |- _ => apply Z.ltb_lt in H
           | H : (_ <? _) = false |- _ => apply Z.ltb_ge in H
           end;
    unfold MAX_RECONNECT_ATTEMPTS in *;
    (split; [lia|]);
    try assumption;
    try (apply Forall_delete; assumption);
    apply Forall_app; (split; [assumption|]); repeat constructor;
    unfold timer_ok; cbn; try lia.
  apply backoff_delay_range. lia.
Qed.

(** X10. In every world the bridge can reach, the attempt counter is
    between 0 and 10, every pending replay timer has a delay of 1000 ms and
    every pending reconnect timer a delay between 2000 and 30000 ms. *)
Theorem backoff_state_bounded url_ok cfg (evs : list event) :
  0 <= reconnectAttempts (run url_ok cfg evs (world0 cfg)) <= 10 /\
  Forall timer_ok (timers (run url_ok cfg evs (world0 cfg))).
Proof.
  assert (forall w, backoff_inv w -> backoff_inv (run url_ok cfg evs w)) as Hrun.
  { induction evs as [|ev evs IH]; intros w Hw; [exact Hw|].
    rewrite run_cons. apply IH. by apply backoff_step. }
  apply (Hrun (world0 cfg)). split; [cbn; unfold MAX_RECONNECT_ATTEMPTS; lia|constructor].
Qed.

(** ** Without the upstream credential *)

Lemma no_key_step url_ok cfg (ev : event) (w : World) :
  env_set (FINNHUB_API_KEY cfg) = false ->
  ws w = None /\ next_sock w = 0%nat /\ Forall (fun e => is_post e = true) (out w) ->
  ws (step url_ok cfg ev w) = None /\ next_sock (step url_ok cfg ev w) = 0%nat /\
  Forall (fun e => is_post e = true) (out (step url_ok cfg ev w)).
Proof.
  intros Hkey (Hws & Hn & Ho).
  step_cases ev w.
  all: try (apply current_open_heap in Hopen as [Hcur _]; cbn in Hcur; congruence).
  all: repeat split; try assumption; try congruence.
  all: apply Forall_app; split; [assumption|]; repeat constructor.
Qed.

(** X11. Without [FINNHUB_API_KEY] the bridge never opens a socket: whatever
    events follow the start, [ws] stays null, no WebSocket is ever
    constructed, and the only thing the program ever emits are HTTP posts to
    the sink. *)
Theorem no_credential_no_socket url_ok cfg (evs : list event) :
  env_set (FINNHUB_API_KEY cfg) = false ->
  ws (run url_ok cfg evs (world0 cfg)) = None /\
  next_sock (run url_ok cfg evs (world0 cfg)) = 0%nat /\
  Forall (fun e => is_post e = true) (out (run url_ok cfg evs (world0 cfg))).
Proof.
  intros Hkey.
  assert (forall w,
    ws w = None /\ next_sock w = 0%nat /\ Forall (fun e => is_post e = true) (out w) ->
    ws (run url_ok cfg evs w) = None /\ next_sock (run url_ok cfg evs w) = 0%nat /\
    Forall (fun e => is_post e = true) (out (run url_ok cfg evs w))) as Hrun.
  { induction evs as [|ev evs IH]; intros w Hw; [exact Hw|].
    rewrite run_cons. apply IH. by apply no_key_step. }
  apply Hrun. repeat split. constructor.
Qed.

Lemma no_credential_no_socket_witness :
  ws (run any_url cfg_no_key [Listening; PostRestart; KeepAliveTick; PostSymbolsAdd (VStr "msft")]
        (world0 cfg_no_key)) = None /\
  next_sock (run any_url cfg_no_key [Listening; PostRestart; KeepAliveTick; PostSymbolsAdd (VStr "msft")]
        (world0 cfg_no_key)) = 0%nat.
Proof.
  destruct (no_credential_no_socket any_url cfg_no_key
              [Listening; PostRestart; KeepAliveTick; PostSymbolsAdd (VStr "msft")])
    as (H1 & H2 & _).
  - reflexivity.
  - split; assumption.
Defined.

(** ** Deliveries *)

Lemma inflight_step url_ok cfg (ev : event) (w : World) :
  inflight_ok w -> inflight_ok (step url_ok cfg ev w).
Proof.
  unfold inflight_ok. intros Hi.
  step_cases ev w.
  all: try assumption.
  all: try (apply Forall_delete; assumption).
  all: apply Forall_app; split; [assumption|].
  all: constructor; [by apply event_headline | constructor].
Qed.

Lemma inflight_run url_ok cfg (evs : list event) (w : World) :
  inflight_ok w -> inflight_ok (run url_ok cfg evs w).
Proof.
  revert w. induction evs as [|ev evs IH]; intros w Hw; [exact Hw|].
  rewrite run_cons. apply IH. by apply inflight_step.
Qed.

(** X12. In every world the bridge can reach, an answer of the sink settles
    exactly the delivery it is for: a 2xx answer adds one to [messagesSent]
    and leaves [errors], any other answer adds one to [errors] and leaves
    [messagesSent]; either way the delivery leaves the suspended list and
    nothing is posted again. An answer that matches no suspended delivery
    changes nothing. *)
Theorem delivery_settled_once url_ok cfg (evs : list event) (i : nat) (r : http_result) :
  (forall newsData : value,
     inflight (run url_ok cfg evs (world0 cfg)) !! i = Some newsData ->
     messagesSent (stats (step url_ok cfg (SinkAnswers i r) (run url_ok cfg evs (world0 cfg))))
       = messagesSent (stats (run url_ok cfg evs (world0 cfg)))
         + (if axios_resolves r then 1 else 0) /\
     errors (stats (step url_ok cfg (SinkAnswers i r) (run url_ok cfg evs (world0 cfg))))
       = errors (stats (run url_ok cfg evs (world0 cfg)))
         + (if axios_resolves r then 0 else 1) /\
     inflight (step url_ok cfg (SinkAnswers i r) (run url_ok cfg evs (world0 cfg)))
       = delete i (inflight (run url_ok cfg evs (world0 cfg))) /\
     out (step url_ok cfg (SinkAnswers i r) (run url_ok cfg evs (world0 cfg)))
       = out (run url_ok cfg evs (world0 cfg))) /\
  (inflight (run url_ok cfg evs (world0 cfg)) !! i = None ->
   step url_ok cfg (SinkAnswers i r) (run url_ok cfg evs (world0 cfg)) = run url_ok cfg evs (world0 cfg)).
Proof.
  assert (inflight_ok (run url_ok cfg evs (world0 cfg))) as Hok
    by (apply inflight_run; constructor).
  unfold inflight_ok in Hok.
  set (w := run url_ok cfg evs (world0 cfg)) in *. clearbody w. split.
  - intros newsData Hi. unfold step. rewrite (sink_answers_at _ _ _ _ Hi).
    destruct (axios_resolves r) eqn:Hr.
    + rewrite resume_resolved; [cbn; repeat split; lia | exact Hr |].
      rewrite Forall_forall in Hok.
      specialize (Hok newsData (list_elem_of_lookup_2 _ _ _ Hi)). cbn beta in Hok.
      destruct (get newsData "headline"); try discriminate; exact I.
    + rewrite resume_rejected by exact Hr. cbn. repeat split; lia.
  - intros Hi. unfold step, sink_answers. rewrite Hi. reflexivity.
Qed.

Lemma delivery_settled_once_witness :
  messagesSent (stats (step any_url cfg_demo (SinkAnswers 0 (HttpStatus 204))
     (run any_url cfg_demo [Listening; SockOpen 0 1700000000000; demo_news] (world0 cfg_demo)))) = 1 /\
  step any_url cfg_demo (SinkAnswers 3 (HttpStatus 204))
     (run any_url cfg_demo [Listening; SockOpen 0 1700000000000; demo_news] (world0 cfg_demo))
  = run any_url cfg_demo [Listening; SockOpen 0 1700000000000; demo_news] (world0 cfg_demo).
Proof.
  destruct (delivery_settled_once any_url cfg_demo [Listening; SockOpen 0 1700000000000; demo_news]
              0 (HttpStatus 204)) as [H1 _].
  destruct (delivery_settled_once any_url cfg_demo [Listening; SockOpen 0 1700000000000; demo_news]
              3 (HttpStatus 204)) as [_ H2].
  split.
  - destruct (H1 (VObj demo_event) eq_refl) as [-> _].
    reflexivity.
  - apply H2. reflexivity.
Defined.

(** ** Sockets *)

Ltac heap_cases :=
  repeat match goal with
         | H : context [<[?i:=_]> _ !! ?j] |- _ =>
             rewrite (lookup_insert _ i j) in H; destruct (decide (i = j)); subst
         | |- context [<[?i:=_]> _ !! ?j] =>
             rewrite (lookup_insert _ i j); destruct (decide (i = j)); subst
         end.

Lemma sockets_step url_ok cfg (ev : event) (w : World) :
  emittable ev w -> sockets_inv w -> sockets_inv (step url_ok cfg ev w).
Proof.
  unfold sockets_inv. intros Hem (I1 & I2 & I3).
  step_cases ev w.
  all: try (repeat split; assumption).
  all: (split; [|split]); intros; cbn in *; heap_cases; simplify_eq.
  all: eauto.
  all: try match goal with
           | H : is_Some (heap _ !! ?x) |- (?x < _)%nat => apply I1 in H; lia
           end.
  all: try lia.
  all: try match goal with
           | H : heap ?w0 !! ?s = Some _ |- (?s < _)%nat =>
               assert (s < next_sock w0)%nat by (apply I1; eauto); lia
           end.
  all: try match goal with
           | H : heap _ !! ?s = Some ?r |- ?r = CLOSING \/ ?r = CLOSED =>
               first [ eapply I3; [exact H | congruence]
                     | match goal with
                       | E : default CLOSED (heap _ !! ?n) = _ |- _ =>
                           destruct (decide (s = n));
                           [ subst; rewrite H in E; cbn in E; subst; auto
                           | eapply I3; [exact H | congruence] ]
                       end ]
           end.
  all: try (match goal with
            | I2 : forall s0, Some ?s = Some s0 -> is_Some _ |- (?s < _)%nat =>
                pose proof (I1 s (I2 s eq_refl)); lia
            end).
  all: try (match goal with
            | Hem : heap _ !! ?s = Some CONNECTING |- _ =>
                destruct (I3 _ _ Hem) as [?|?]; [congruence | discriminate | discriminate]
            end).
Qed.

Lemma sockets_run url_ok cfg (evs : list event) (w : World) :
  emittable_run url_ok cfg evs w -> sockets_inv w -> sockets_inv (run url_ok cfg evs w).
Proof.
  revert w. induction evs as [|ev evs IH]; intros w Hem Hw; [exact Hw|].
  destruct Hem as [He Hrest]. rewrite run_cons. apply IH; [exact Hrest|].
  by apply sockets_step.
Qed.

Lemma sockets_world0 cfg : sockets_inv (world0 cfg).
Proof.
  split; [|split]; cbn.
  - intros s [r Hr]. rewrite lookup_empty in Hr. discriminate.
  - intros s Hs. discriminate.
  - intros s r Hr. rewrite lookup_empty in Hr. discriminate.
Qed.

(** X13. The bridge holds at most one live socket. Over any run in which
    the [ws] package emits 'open' only on connecting sockets and 'error'
    and 'close' only on sockets that exist, every socket that is open or
    connecting is the one [ws] names, every other socket ever made is
    closing or closed, and sockets are numbered below [next_sock]. *)
Theorem one_live_socket url_ok cfg (evs : list event) (s : nat) (r : ReadyState) :
  emittable_run url_ok cfg evs (world0 cfg) ->
  heap (run url_ok cfg evs (world0 cfg)) !! s = Some r ->
  (s < next_sock (run url_ok cfg evs (world0 cfg)))%nat /\
  (r = OPEN \/ r = CONNECTING -> ws (run url_ok cfg evs (world0 cfg)) = Some s) /\
  (ws (run url_ok cfg evs (world0 cfg)) <> Some s -> r = CLOSING \/ r = CLOSED).
Proof.
  intros Hem Hs.
  destruct (sockets_run url_ok cfg evs (world0 cfg) Hem (sockets_world0 cfg)) as (I1 & I2 & I3).
  split; [apply I1; eauto|]. split; [|by apply I3].
  intros Hr. destruct (decide (ws (run url_ok cfg evs (world0 cfg)) = Some s)) as [|Hne]; [assumption|].
  destruct (I3 s r Hs Hne); destruct Hr; congruence.
Qed.

Lemma one_live_socket_witness :
  (1 < next_sock (run any_url cfg_demo error_trace (world0 cfg_demo)))%nat /\
  (OPEN = OPEN \/ OPEN = CONNECTING ->
   ws (run any_url cfg_demo error_trace (world0 cfg_demo)) = Some 1%nat) /\
  (ws (run any_url cfg_demo error_trace (world0 cfg_demo)) <> Some 1%nat ->
   OPEN = CLOSING \/ OPEN = CLOSED).
Proof.
  apply (one_live_socket any_url cfg_demo error_trace 1 OPEN).
  - vm_compute. repeat split; eauto.
  - reflexivity.
Defined.

Lemma restart_spec url_ok cfg w :
  restart url_ok cfg w =
    if negb (env_set (FINNHUB_API_KEY cfg))
    then (Ok (Json 200 (VObj [ ("message", VStr "Reconnection initiated") ])),
          terminate_live (set_reconnectAttempts 0 w))
    else if url_ok (connect_url cfg)
    then (Ok (Json 200 (VObj [ ("message", VStr "Reconnection initiated") ])),
          open_next cfg (terminate_live (set_reconnectAttempts 0 w)))
    else (Throw SyntaxError, terminate_live (set_reconnectAttempts 0 w)).
Proof.
  unfold restart. js_run. rewrite connect_spec.
  destruct (env_set (FINNHUB_API_KEY cfg)); cbn;
    [destruct (url_ok (connect_url cfg))|]; reflexivity.
Qed.

(** X14. The manual restart always puts the attempt counter to 0,
    terminates the current socket unless it is already closed, and keeps the
    registry, the suspended deliveries and every pending timer: no timer is
    cancelled. With a credential and a URL the [ws] package accepts, it
    answers 'Reconnection initiated', holds a fresh connecting socket, and
    the connected flag is false. With a credential and a URL the package
    refuses, the constructor throws inside the handler and the request is
    answered 500: no socket is made, [ws] is null unless it named a closed
    socket, and [stats] is as before. Without a credential it answers
    'Reconnection initiated' and holds no open socket. *)
Theorem restart_reconnects url_ok cfg (w : World) :
  reconnectAttempts (step url_ok cfg PostRestart w) = 0 /\
  timers (step url_ok cfg PostRestart w) = timers w /\
  SYMBOLS (step url_ok cfg PostRestart w) = SYMBOLS w /\
  inflight (step url_ok cfg PostRestart w) = inflight w /\
  (env_set (FINNHUB_API_KEY cfg) = true -> url_ok (connect_url cfg) = true ->
   fst (restart url_ok cfg w)
     = Ok (Json 200 (VObj [ ("message", VStr "Reconnection initiated") ])) /\
   out (step url_ok cfg PostRestart w)
     = (out w ++ match live_socket w with
                 | Some c => [WsTerminate c]
                 | None => []
                 end ++ [WsNew (next_sock w) (connect_url cfg)])%list /\
   ws (step url_ok cfg PostRestart w) = Some (next_sock w) /\
   readyState (step url_ok cfg PostRestart w) (next_sock w) = CONNECTING /\
   next_sock (step url_ok cfg PostRestart w) = S (next_sock w) /\
   connected (stats (step url_ok cfg PostRestart w)) = false) /\
  (env_set (FINNHUB_API_KEY cfg) = true -> url_ok (connect_url cfg) = false ->
   fst (restart url_ok cfg w) = Throw SyntaxError /\
   status_of (answered (fst (restart url_ok cfg w))) = 500 /\
   out (step url_ok cfg PostRestart w)
     = (out w ++ match live_socket w with
                 | Some c => [WsTerminate c]
                 | None => []
                 end)%list /\
   ws (step url_ok cfg PostRestart w)
     = match live_socket w with
       | Some _ => None
       | None => ws w
       end /\
   current_open (step url_ok cfg PostRestart w) = None /\
   next_sock (step url_ok cfg PostRestart w) = next_sock w /\
   stats (step url_ok cfg PostRestart w) = stats w) /\
  (env_set (FINNHUB_API_KEY cfg) = false ->
   fst (restart url_ok cfg w)
     = Ok (Json 200 (VObj [ ("message", VStr "Reconnection initiated") ])) /\
   out (step url_ok cfg PostRestart w)
     = (out w ++ match live_socket w with
                 | Some c => [WsTerminate c]
                 | None => []
                 end)%list /\
   current_open (step url_ok cfg PostRestart w) = None /\
   next_sock (step url_ok cfg PostRestart w) = next_sock w).
Proof.
  unfold step, exec. rewrite restart_spec.
  pose proof (current_open_terminate_live (set_reconnectAttempts 0 w)) as Hnone.
  unfold terminate_live in *.
  change (live_socket (set_reconnectAttempts 0 w)) with (live_socket w) in *.
  destruct (env_set (FINNHUB_API_KEY cfg)); cbn [negb];
    [destruct (url_ok (connect_url cfg))|];
    destruct (live_socket w) as [c|]; cbn.
  all: repeat split; intros; try discriminate; try assumption.
  all: rewrite ?app_nil_r, <- ?app_assoc; try reflexivity.
  all: unfold readyState; cbn; by rewrite lookup_insert_eq.
Qed.

Lemma restart_reconnects_witness :
  out (step any_url cfg_demo PostRestart (connected_world any_url cfg_demo))
    = (out (connected_world any_url cfg_demo)
       ++ [WsTerminate 0; WsNew 1 "wss://ws.finnhub.io?token=token"])%list /\
  fst (restart no_url cfg_demo (world0 cfg_demo)) = Throw SyntaxError /\
  out (step no_url cfg_demo PostRestart (world0 cfg_demo)) = [] /\
  current_open (step any_url cfg_no_key PostRestart (world0 cfg_no_key)) = None.
Proof.
  destruct (restart_reconnects any_url cfg_demo (connected_world any_url cfg_demo))
    as (_ & _ & _ & _ & H1 & _).
  destruct (restart_reconnects no_url cfg_demo (world0 cfg_demo))
    as (_ & _ & _ & _ & _ & H2 & _).
  destruct (restart_reconnects any_url cfg_no_key (world0 cfg_no_key))
    as (_ & _ & _ & _ & _ & _ & H3).
  split; [|split; [|split]].
  - destruct (H1 eq_refl eq_refl) as (_ & -> & _). reflexivity.
  - destruct (H2 eq_refl eq_refl) as (H & _). exact H.
  - destruct (H2 eq_refl eq_refl) as (_ & _ & -> & _). reflexivity.
  - destruct (H3 eq_refl) as (_ & _ & H & _). exact H.
Defined.

(** X24. With a credential and a URL that the [ws] package cannot parse
    the bridge does not survive its start: the constructor throws in the
    callback of [app.listen], where nothing catches it. No socket was made
    and nothing else has changed. *)
Theorem bad_url_ends_process url_ok cfg :
  env_set (FINNHUB_API_KEY cfg) = true ->
  url_ok (connect_url cfg) = false ->
  started url_ok cfg = set_out [ProcessExit SyntaxError] (world0 cfg).
Proof.
  intros Hkey Hurl. unfold started, step.
  rewrite top_level_connect, Hkey, Hurl. reflexivity.
Qed.

Lemma bad_url_ends_process_witness :
  out (started no_url cfg_demo) = [ProcessExit SyntaxError] /\
  next_sock (started no_url cfg_demo) = 0%nat.
Proof.
  rewrite (bad_url_ends_process no_url cfg_demo) by reflexivity.
  split; reflexivity.
Defined.

(** ** The event and its envelope *)

(** X15. For every news frame the handler lets through, with a sink
    configured, exactly one request goes to the webhook URL, and the object
    handed to [axios.post] has thirteen keys in a fixed order: [source]
    first, holding the upstream source or "FinHub" (the bridge's own tag
    "finnhub" is always overwritten by the event), then [bridge] =
    "finnhub-n8n-bridge" and [timestamp] = the send time, then the fields of
    the event; the default id is the text of the symbol, "-", and the clock
    reading. (Keys that hold [undefined] are part of the object; a JSON
    body does not carry them.) *)
Theorem sink_request_shape url_ok cfg w s message t_recv t_id iso_now text :
  env_set (N8N_WEBHOOK_URL cfg) = true ->
  is_news message = true ->
  to_string (get message "symbol") = Ok text ->
  out (step url_ok cfg (SockMessage s (Some message) t_recv t_id iso_now) w)
  = (out w ++ [HttpPost (env_or (N8N_WEBHOOK_URL cfg) "")
     (VObj [ ("source", js_or (get message "source") (VStr "FinHub"));
             ("bridge", VStr "finnhub-n8n-bridge");
             ("timestamp", VStr iso_now);
             ("type", VStr "news");
             ("symbol", get message "symbol");
             ("headline", get message "headline");
             ("summary", js_or (get message "summary") (VStr ""));
             ("url", get message "url");
             ("image", get message "image");
             ("datetime", get message "datetime");
             ("category", js_or (get message "category") (VStr "general"));
             ("id", js_or (get message "id") (VStr (text +:+ "-" +:+ Number_toString t_id)));
             ("related", js_or (get message "related") (get message "symbol")) ])])%list.
Proof.
  intros Hurl Hnews Htext. unfold step, exec.
  rewrite on_message_news by assumption.
  rewrite sendToN8n_configured by assumption.
  unfold event_of, transform, js_or. rewrite Htext.
  destruct (truthy (get message "id")); reflexivity.
Qed.

Lemma sink_request_shape_witness :
  out (step any_url cfg_demo
         (SockMessage 0 (Some (VObj [ ("type", VStr "news"); ("symbol", VNum (10 ^ 21));
                                      ("source", VStr "Reuters") ]))
            5 6 demo_iso) (connected_world any_url cfg_demo))
  = (out (connected_world any_url cfg_demo) ++ [HttpPost "http://n8n.local/webhook"
     (VObj [ ("source", VStr "Reuters"); ("bridge", VStr "finnhub-n8n-bridge");
             ("timestamp", VStr demo_iso); ("type", VStr "news");
             ("symbol", VNum (10 ^ 21)); ("headline", VUndefined); ("summary", VStr "");
             ("url", VUndefined); ("image", VUndefined); ("datetime", VUndefined);
             ("category", VStr "general"); ("id", VStr "1e+21-6");
             ("related", VNum (10 ^ 21)) ])])%list.
Proof.
  rewrite (sink_request_shape any_url cfg_demo (connected_world any_url cfg_demo) 0
             (VObj [ ("type", VStr "news"); ("symbol", VNum (10 ^ 21));
                     ("source", VStr "Reuters") ]) 5 6 demo_iso "1e+21")
    by (vm_compute; reflexivity).
  reflexivity.
Defined.

Lemma nonempty_truthy (a b : string) : truthy (VStr (a +:+ "-" +:+ b)) = true.
Proof. destruct a; reflexivity. Qed.

(** X16. The transformer throws only when the frame has no truthy id and
    its symbol has no text (an object with an own [toString]). Every event
    it returns has a truthy id, source and category: when the frame has no
    truthy id, the id of the event is the text of the symbol, "-", and the
    clock reading, which starts with "undefined-" when the frame has no
    symbol. *)
Theorem event_defaults (message : value) (now : Z) :
  (forall event, transform message now = Ok event ->
     truthy (field "id" event) = true /\
     truthy (field "source" event) = true /\
     truthy (field "category" event) = true /\
     (truthy (get message "id") = false ->
      exists text, to_string (get message "symbol") = Ok text /\
                   field "id" event = VStr (text +:+ "-" +:+ Number_toString now))) /\
  (forall e, transform message now = Throw e <->
     truthy (get message "id") = false /\ to_string (get message "symbol") = Throw e) /\
  (get message "symbol" = VUndefined -> truthy (get message "id") = false ->
   field "id" (event_of message now) = VStr ("undefined-" +:+ Number_toString now)).
Proof.
  unfold event_of, transform. split; [|split].
  - intros event.
    destruct (truthy (get message "id")) eqn:Hid;
      [|destruct (to_string (get message "symbol")) as [text|e] eqn:Ht];
      intros [= <-]; cbn [field String.eqb Ascii.eqb Bool.eqb]; unfold js_or.
    + split; [exact Hid|].
      split; [destruct (truthy (get message "source")) eqn:E; [exact E | reflexivity]|].
      split; [destruct (truthy (get message "category")) eqn:E; [exact E | reflexivity]|].
      discriminate.
    + split; [apply nonempty_truthy|].
      split; [destruct (truthy (get message "source")) eqn:E; [exact E | reflexivity]|].
      split; [destruct (truthy (get message "category")) eqn:E; [exact E | reflexivity]|].
      eauto.
  - intros e. destruct (truthy (get message "id"));
      [|destruct (to_string (get message "symbol")) as [text|e']]; split;
      try discriminate; try (intros [? ?]; discriminate).
    + intros [= ->]. auto.
    + intros [_ [= ->]]. reflexivity.
  - intros Hs Hi. rewrite Hi, Hs. reflexivity.
Qed.

Lemma event_defaults_witness :
  field "id" (event_of (VObj [ ("type", VStr "news"); ("id", VNum 0) ]) 1700000000501)
  = VStr "undefined-1700000000501".
Proof.
  destruct (event_defaults (VObj [ ("type", VStr "news"); ("id", VNum 0) ]) 1700000000501)
    as (_ & _ & H).
  apply H; reflexivity.
Defined.

(** ** The registry at start *)

Lemma split_comma_length (s : string) :
  length (split_comma s) = S (count_commas s).
Proof.
  induction s as [|c r IH]; [reflexivity|]. cbn.
  destruct (Ascii.eqb c ","); cbn; [by rewrite IH|].
  destruct (split_comma r); cbn in *; [discriminate | exact IH].
Qed.

Lemma is_space_upper c : is_space (upper_ascii c) = is_space c.
Proof. destruct c as [[] [] [] [] [] [] [] []]; reflexivity. Qed.

Lemma trim_start_upper s : trim_start (toUpperCase s) = toUpperCase (trim_start s).
Proof.
  induction s as [|c r IH]; [reflexivity|]. cbn. rewrite is_space_upper.
  destruct (is_space c); [exact IH | reflexivity].
Qed.

Lemma trim_end_upper s : trim_end (toUpperCase s) = toUpperCase (trim_end s).
Proof.
  induction s as [|c r IH]; [reflexivity|]. cbn. rewrite IH, is_space_upper.
  destruct (trim_end r); cbn; [destruct (is_space c)|]; reflexivity.
Qed.

Lemma trim_end_idem s : trim_end (trim_end s) = trim_end s.
Proof.
  induction s as [|c r IH]; [reflexivity|]. cbn.
  destruct (trim_end r) as [|d r'] eqn:E.
  - destruct (is_space c) eqn:Ec; cbn; [reflexivity | by rewrite Ec].
  - cbn [trim_end]. cbn [trim_end] in IH. rewrite IH. reflexivity.
Qed.

Lemma trim_start_no_lead s : no_lead (trim_start s).
Proof.
  induction s as [|c r IH]; [exact I|]. cbn.
  destruct (is_space c) eqn:E; [exact IH | exact E].
Qed.

Lemma no_lead_trim_start s : no_lead s -> trim_start s = s.
Proof. destruct s as [|c r]; [reflexivity|]. cbn. by intros ->. Qed.

Lemma no_lead_trim_end s : no_lead s -> no_lead (trim_end s).
Proof.
  destruct s as [|c r]; [exact id|]. cbn. intros Hc.
  destruct (trim_end r); [rewrite Hc|]; exact Hc.
Qed.

Lemma trim_idem s : trim (trim s) = trim s.
Proof.
  unfold trim.
  rewrite (no_lead_trim_start (trim_end (trim_start s)))
    by apply no_lead_trim_end, trim_start_no_lead.
  apply trim_end_idem.
Qed.

Lemma trim_upper s : trim (toUpperCase s) = toUpperCase (trim s).
Proof. unfold trim. by rewrite trim_start_upper, trim_end_upper. Qed.

(** X17. The registry the bridge starts with is never empty. Without a
    [SYMBOLS] variable (or with an empty one) it is AAPL alone; otherwise it
    has one entry per comma-separated piece, empty pieces included, each in
    upper case and without white space around it. Nothing removes
    duplicates or limits the number of entries. *)
Theorem initial_registry cfg :
  SYMBOLS_init cfg <> [] /\
  Forall (fun t => toUpperCase t = t /\ trim t = t) (SYMBOLS_init cfg) /\
  (env_set (SYMBOLS_env cfg) = false -> SYMBOLS_init cfg = ["AAPL"]) /\
  (env_set (SYMBOLS_env cfg) = true ->
   length (SYMBOLS_init cfg) = S (count_commas (env_or (SYMBOLS_env cfg) ""))).
Proof.
  unfold SYMBOLS_init. destruct (env_set (SYMBOLS_env cfg)) eqn:E.
  - repeat split; try discriminate.
    + intros H. apply (f_equal length) in H.
      rewrite length_map, split_comma_length in H. discriminate.
    + induction (split_comma _) as [|p ps IH]; cbn; constructor; [|exact IH].
      split; [apply toUpperCase_idem|].
      by rewrite trim_upper, trim_idem.
    + intros _. by rewrite length_map, split_comma_length.
  - repeat split; try discriminate. repeat constructor.
Qed.

Lemma initial_registry_witness :
  SYMBOLS_init cfg_demo = ["AAPL"] /\
  length (SYMBOLS_init {| FINNHUB_API_KEY := None; FINNHUB_WS_URL_env := None;
                          N8N_WEBHOOK_URL := None;
                          SYMBOLS_env := Some "aapl, aapl,," |}) = 4%nat.
Proof.
  destruct (initial_registry cfg_demo) as (_ & _ & H1 & _).
  destruct (initial_registry {| FINNHUB_API_KEY := None; FINNHUB_WS_URL_env := None;
                                N8N_WEBHOOK_URL := None;
                                SYMBOLS_env := Some "aapl, aapl,," |}) as (_ & _ & _ & H2).
  split; [apply H1; reflexivity | rewrite H2; reflexivity].
Defined.

(** ** The read-only endpoints *)

Lemma connectionTime_step url_ok cfg (ev : event) (w : World) :
  is_sock_open ev = false ->
  connectionTime (stats (step url_ok cfg ev w)) = connectionTime (stats w).
Proof. intros Hev. step_cases ev w; reflexivity. Qed.

Lemma connectionTime_run url_ok cfg (evs : list event) (w : World) :
  forallb (fun ev => negb (is_sock_open ev)) evs = true ->
  connectionTime (stats (run url_ok cfg evs w)) = connectionTime (stats w).
Proof.
  revert w. induction evs as [|ev evs IH]; intros w Hevs; [reflexivity|].
  cbn in Hevs. apply andb_true_iff in Hevs as [Hev Hrest].
  rewrite run_cons, IH by exact Hrest.
  apply connectionTime_step. by apply negb_true_iff.
Qed.

(** X18. The uptime that [GET /stats] reports is counted from the last
    'open' event and from nothing else: across any events other than an
    open (errors, closes, restarts, frames) it stays [now] minus that
    connection time, so it keeps growing while the bridge is disconnected;
    before the first open it is 0. *)
Theorem uptime_since_last_open url_ok cfg (evs : list event) (w : World) (now : Z) :
  forallb (fun ev => negb (is_sock_open ev)) evs = true ->
  field "uptime"
    match body_of (fst (get_stats now (run url_ok cfg evs w))) with
    | VObj fs => fs
    | _ => []
    end
  = VNum (match connectionTime (stats w) with
          | Some t => if t =? 0 then 0 else now - t
          | None => 0
          end).
Proof.
  intros Hevs. unfold get_stats. js_run. cbn.
  unfold uptime. by rewrite (connectionTime_run url_ok cfg evs w Hevs).
Qed.

Lemma uptime_since_last_open_witness :
  field "uptime"
    match body_of (fst (get_stats 1700000060000
                          (run any_url cfg_demo [SockError 0; SockClose 0] (connected_world any_url cfg_demo)))) with
    | VObj fs => fs
    | _ => []
    end
  = VNum 60000.
Proof.
  rewrite (uptime_since_last_open any_url cfg_demo [SockError 0; SockClose 0]
             (connected_world any_url cfg_demo) 1700000060000) by reflexivity.
  reflexivity.
Defined.

(** X19. [GET /health] reads the socket; the connected flag is only
    reported inside the stats. An error on the open current socket leaves
    that socket closing: the answer says status "disconnected" with
    websocket_state 2. An error that another socket reports (one terminated
    earlier) leaves the current socket open: the same answer says status
    "connected" with websocket_state 1 and, inside its stats, connected =
    false. Either way the error is counted. *)
Theorem health_after_socket_error url_ok cfg (w : World) (c s : nat) (iso_now : string) :
  current_open w = Some c ->
  body_of (fst (get_health iso_now (step url_ok cfg (SockError s) w)))
  = VObj [ ("service", VStr "finnhub-bridge");
           ("status", VStr (if bool_decide (s = c) then "disconnected" else "connected"));
           ("websocket_state", VNum (if bool_decide (s = c) then 2 else 1));
           ("symbols", VArr (map VStr (SYMBOLS w)));
           ("stats", VObj [ ("connected", VBool false);
                            ("lastMessage", time_value (lastMessage (stats w)));
                            ("messagesReceived", VNum (messagesReceived (stats w)));
                            ("messagesSent", VNum (messagesSent (stats w)));
                            ("connectionTime", time_value (connectionTime (stats w)));
                            ("errors", VNum (errors (stats w) + 1)) ]);
           ("timestamp", VStr iso_now) ].
Proof.
  intros [Hws Hst]%current_open_heap.
  unfold get_health, step, on_error, ws_is_open, set_readyState, readyState. js_run. cbn.
  rewrite Hws. cbn. rewrite (lookup_insert _ s c).
  destruct (decide (s = c)) as [Hs|Hs].
  - rewrite (bool_decide_eq_true_2 (s = c)) by exact Hs. reflexivity.
  - rewrite (bool_decide_eq_false_2 (s = c)) by exact Hs. rewrite Hst. reflexivity.
Qed.

Lemma health_after_socket_error_witness :
  field "status"
    match body_of (fst (get_health demo_iso (step any_url cfg_demo (SockError 0) (connected_world any_url cfg_demo)))) with
    | VObj fs => fs
    | _ => []
    end
  = VStr "disconnected" /\
  field "status"
    match body_of (fst (get_health demo_iso (step any_url cfg_demo (SockError 0) restarted_world))) with
    | VObj fs => fs
    | _ => []
    end
  = VStr "connected".
Proof.
  rewrite (health_after_socket_error any_url cfg_demo (connected_world any_url cfg_demo) 0 0 demo_iso)
    by reflexivity.
  rewrite (health_after_socket_error any_url cfg_demo restarted_world 1 0 demo_iso)
    by reflexivity.
  split; reflexivity.
Defined.

(** ** A reconnect timer on a live connection *)

(** X20. A reconnect timer that fires while a socket is open re-arms
    itself (the [ws] package accepts the URL: a socket is open). It
    terminates the open socket and opens the next one; when the terminated
    socket then reports its close and the new socket opens, the bridge is
    connected again with the attempt counter at 0 and a new reconnect timer
    pending behind the timers that were there, which will do the same to
    the new socket. *)
Theorem reconnect_timer_rearms url_ok cfg (w : World) (c i : nat) (d now : Z) :
  env_set (FINNHUB_API_KEY cfg) = true ->
  url_ok (connect_url cfg) = true ->
  current_open w = Some c ->
  timers w !! i = Some (d, CbReconnect) ->
  0 <= reconnectAttempts w < 10 ->
  current_open (run url_ok cfg [TimerFires i; SockClose c; SockOpen (next_sock w) now] w)
    = Some (next_sock w) /\
  timers (run url_ok cfg [TimerFires i; SockClose c; SockOpen (next_sock w) now] w)
    = (delete i (timers w)
       ++ [ (Z.min (2000 * 2 ^ reconnectAttempts w) 30000, CbReconnect);
            (1000, CbSubscribeAll) ])%list /\
  reconnectAttempts (run url_ok cfg [TimerFires i; SockClose c; SockOpen (next_sock w) now] w) = 0 /\
  out (run url_ok cfg [TimerFires i; SockClose c; SockOpen (next_sock w) now] w)
    = (out w ++ [WsTerminate c; WsNew (next_sock w) (connect_url cfg)])%list.
Proof.
  intros Hkey Hurl Hc Hi Ha.
  assert ((reconnectAttempts w <? MAX_RECONNECT_ATTEMPTS) = true) as Hlt
    by (apply Z.ltb_lt; unfold MAX_RECONNECT_ATTEMPTS; lia).
  assert (step url_ok cfg (TimerFires i) w
          = set_stats (set_connected false (stats w))
              (set_ws (Some (next_sock w))
                 (set_out (out w ++ [WsTerminate c; WsNew (next_sock w) (connect_url cfg)])
                    (set_next_sock (S (next_sock w))
                       (set_heap (<[next_sock w := CONNECTING]> (<[c := CLOSING]> (heap w)))
                          (set_timers (delete i (timers w)) w)))))) as H1.
  { unfold step, fire_timer. rewrite Hi. cbn [run_callback].
    rewrite top_level_connect, Hkey, Hurl. cbn [negb].
    rewrite (terminate_live_open _ c) by exact Hc.
    unfold open_next. cbn. by rewrite <- app_assoc. }
  unfold run. cbn [fold_left]. rewrite H1. clear H1.
  unfold step. rewrite on_close_below by exact Hlt. rewrite on_open_spec.
  unfold current_open, readyState, BASE_RECONNECT_DELAY. cbn.
  rewrite lookup_insert_eq. cbn. rewrite <- ?app_assoc. repeat split.
Qed.

Lemma reconnect_timer_rearms_witness :
  current_open (run any_url cfg_demo [TimerFires 0; SockClose 1; SockOpen 2 1700000003000]
                  restarted_world) = Some 2%nat /\
  timers (run any_url cfg_demo [TimerFires 0; SockClose 1; SockOpen 2 1700000003000]
            restarted_world) = [(2000, CbReconnect); (1000, CbSubscribeAll)].
Proof.
  destruct (reconnect_timer_rearms any_url cfg_demo restarted_world 1 0 2000 1700000003000)
    as (H1 & H2 & _).
  - reflexivity.
  - reflexivity.
  - reflexivity.
  - reflexivity.
  - change (reconnectAttempts restarted_world) with 0. lia.
  - split; [exact H1 | exact H2].
Defined.

(** ** The earlier bridge *)

Lemma field_set_field_eq k v fs : field k (set_field k v fs) = v.
Proof.
  induction fs as [|[k' v'] r IH]; cbn.
  - by rewrite String.eqb_refl.
  - destruct (String.eqb k k') eqn:E; cbn; rewrite ?String.eqb_refl, ?E; auto.
Qed.

Lemma field_set_field_ne k k' v fs : k <> k' -> field k (set_field k' v fs) = field k fs.
Proof.
  intros Hne. apply String.eqb_neq in Hne.
  induction fs as [|[k'' v''] r IH]; cbn.
  - by rewrite Hne.
  - destruct (String.eqb k' k'') eqn:E; cbn.
    + apply String.eqb_eq in E. subst k''. by rewrite Hne.
    + by rewrite IH.
Qed.

Lemma field_absent k (fs : list (string * value)) :
  k ∉ map fst fs -> field k fs = VUndefined.
Proof.
  induction fs as [|[k' v'] r IH]; cbn; [reflexivity|].
  intros [Hk Hr]%not_elem_of_cons.
  apply String.eqb_neq in Hk. rewrite Hk. by apply IH.
Qed.

(** On keys that do not repeat, [{...base, ...extra}] reads [extra] first. *)
Lemma field_spread k (base extra : list (string * value)) :
  NoDup (map fst extra) ->
  field k (spread base extra)
  = if bool_decide (k ∈ map fst extra) then field k extra else field k base.
Proof.
  unfold spread. revert base.
  induction extra as [|[k' v'] r IH]; intros base Hd; cbn; [reflexivity|].
  apply NoDup_cons in Hd as [Hk' Hd]. rewrite IH by exact Hd.
  cbn [fst snd]. destruct (String.eqb k k') eqn:E.
  - apply String.eqb_eq in E. subst k'.
    rewrite (bool_decide_eq_false_2 _ Hk').
    rewrite (bool_decide_eq_true_2 (k ∈ k :: map fst r)) by apply list_elem_of_here.
    apply field_set_field_eq.
  - apply String.eqb_neq in E. rewrite field_set_field_ne by exact E.
    destruct (decide (k ∈ map fst r)) as [Hin|Hin].
    + rewrite (bool_decide_eq_true_2 _ Hin).
      by rewrite (bool_decide_eq_true_2 (k ∈ k' :: map fst r)) by (by apply list_elem_of_further).
    + rewrite (bool_decide_eq_false_2 _ Hin).
      rewrite (bool_decide_eq_false_2 (k ∈ k' :: map fst r)); [reflexivity|].
      by intros [?|?]%elem_of_cons.
Qed.

Lemma newsfilter_round url_ok cfg (w : Newsfilter.World) :
  url_ok (Newsfilter.wsUrl cfg) = true ->
  Newsfilter.timers (Newsfilter.failure_round url_ok cfg w) = Newsfilter.timers w /\
  Newsfilter.next_sock (Newsfilter.failure_round url_ok cfg w)
    = S (Newsfilter.next_sock w).
Proof.
  intros Hok. unfold Newsfilter.failure_round, Newsfilter.fire_timer, Newsfilter.on_close.
  cbn. rewrite lookup_snoc, delete_snoc.
  unfold Newsfilter.connectToNewsfilter. rewrite Hok. split; reflexivity.
Qed.

(** X21. The earlier bridge has no back-off and no ceiling: however many
    connections have failed in a row, the next close sets exactly one
    reconnect 5000 ms later, and each round opens one more socket. *)
Theorem newsfilter_reconnects_forever url_ok cfg (w : Newsfilter.World) (n : nat) :
  url_ok (Newsfilter.wsUrl cfg) = true ->
  Newsfilter.timers (Newsfilter.on_close (Nat.iter n (Newsfilter.failure_round url_ok cfg) w))
    = (Newsfilter.timers w ++ [5000])%list /\
  Newsfilter.isConnected
    (Newsfilter.on_close (Nat.iter n (Newsfilter.failure_round url_ok cfg) w)) = false /\
  Newsfilter.next_sock (Nat.iter n (Newsfilter.failure_round url_ok cfg) w)
    = (Newsfilter.next_sock w + n)%nat.
Proof.
  intros Hok.
  assert (Newsfilter.timers (Nat.iter n (Newsfilter.failure_round url_ok cfg) w)
            = Newsfilter.timers w /\
          Newsfilter.next_sock (Nat.iter n (Newsfilter.failure_round url_ok cfg) w)
            = (Newsfilter.next_sock w + n)%nat) as [Ht Hn].
  { induction n as [|n [IH1 IH2]]; [cbn; split; [reflexivity|lia]|].
    rewrite Nat.iter_succ.
    destruct (newsfilter_round url_ok cfg
                (Nat.iter n (Newsfilter.failure_round url_ok cfg) w) Hok) as [-> ->].
    rewrite IH1, IH2. split; [reflexivity|lia]. }
  cbn. rewrite Ht. repeat split. exact Hn.
Qed.

Lemma newsfilter_reconnects_forever_witness :
  Newsfilter.timers
    (Newsfilter.on_close
       (Nat.iter 25 (Newsfilter.failure_round (fun _ => true)
                       {| Newsfilter.NEWSFILTER_WS_URL := Some "wss://feed";
                          Newsfilter.NEWSFILTER_API_KEY := Some "k";
                          Newsfilter.N8N_WEBHOOK_URL := None;
                          Newsfilter.BRIDGE_SECRET_env := None |})
          Newsfilter.world0))
  = [5000].
Proof.
  destruct (newsfilter_reconnects_forever (fun _ => true)
              {| Newsfilter.NEWSFILTER_WS_URL := Some "wss://feed";
                 Newsfilter.NEWSFILTER_API_KEY := Some "k";
                 Newsfilter.N8N_WEBHOOK_URL := None;
                 Newsfilter.BRIDGE_SECRET_env := None |} Newsfilter.world0 25)
    as [H _].
  - reflexivity.
  - exact H.
Defined.

(** X22. When the WebSocket constructor rejects the URL, the earlier bridge
    retries for ever: the start and every timer that fires leave exactly one
    reconnect pending, 5000 ms ahead, and no socket is ever made. *)
Theorem newsfilter_bad_url_retries url_ok cfg (n : nat) :
  url_ok (Newsfilter.wsUrl cfg) = false ->
  Nat.iter n (Newsfilter.step url_ok cfg (Newsfilter.TimerFires 0))
    (Newsfilter.step url_ok cfg Newsfilter.Listening Newsfilter.world0)
  = {| Newsfilter.ws := None; Newsfilter.isConnected := false;
       Newsfilter.next_sock := 0%nat; Newsfilter.timers := [5000];
       Newsfilter.out := [] |}.
Proof.
  intros Hbad. induction n as [|n IH].
  - cbn. unfold Newsfilter.connectToNewsfilter. rewrite Hbad. reflexivity.
  - rewrite Nat.iter_succ, IH. cbn. unfold Newsfilter.fire_timer. cbn.
    unfold Newsfilter.connectToNewsfilter. rewrite Hbad. reflexivity.
Qed.

Lemma newsfilter_bad_url_retries_witness :
  Newsfilter.timers
    (Nat.iter 7 (Newsfilter.step (fun _ => false)
                   {| Newsfilter.NEWSFILTER_WS_URL := None;
                      Newsfilter.NEWSFILTER_API_KEY := None;
                      Newsfilter.N8N_WEBHOOK_URL := None;
                      Newsfilter.BRIDGE_SECRET_env := None |} (Newsfilter.TimerFires 0))
       (Newsfilter.step (fun _ => false)
          {| Newsfilter.NEWSFILTER_WS_URL := None;
             Newsfilter.NEWSFILTER_API_KEY := None;
             Newsfilter.N8N_WEBHOOK_URL := None;
             Newsfilter.BRIDGE_SECRET_env := None |} Newsfilter.Listening Newsfilter.world0))
  = [5000].
Proof.
  rewrite (newsfilter_bad_url_retries (fun _ => false)
             {| Newsfilter.NEWSFILTER_WS_URL := None;
                Newsfilter.NEWSFILTER_API_KEY := None;
                Newsfilter.N8N_WEBHOOK_URL := None;
                Newsfilter.BRIDGE_SECRET_env := None |} 7) by reflexivity.
  reflexivity.
Defined.

(** X23. The earlier bridge forwards every frame that parses to an object
    with one post that carries the Bearer secret. In the body [source] is
    always "newsfilter-bridge" and [bridge_timestamp] the send time,
    whatever the frame held under those keys, and every other key reads as
    in the frame. A frame that does not parse, or parses to [null], is
    dropped; no frame changes the connection state or the timers. *)
Theorem newsfilter_forwarding url_ok cfg (w : Newsfilter.World) (s : nat)
        (fs : list (string * value)) (iso_now : string) :
  NoDup (map fst fs) ->
  Newsfilter.step url_ok cfg (Newsfilter.SockMessage s (Some (VObj fs)) iso_now) w
    = Newsfilter.emit
        (Newsfilter.AxiosPost (Newsfilter.N8N_WEBHOOK_URL cfg)
           ("Bearer " +:+ Newsfilter.BRIDGE_SECRET cfg)
           (Newsfilter.forward_payload (VObj fs) iso_now)) w /\
  get (Newsfilter.forward_payload (VObj fs) iso_now) "source" = VStr "newsfilter-bridge" /\
  get (Newsfilter.forward_payload (VObj fs) iso_now) "bridge_timestamp" = VStr iso_now /\
  (forall k, k <> "source" -> k <> "bridge_timestamp" ->
     get (Newsfilter.forward_payload (VObj fs) iso_now) k = field k fs) /\
  Newsfilter.step url_ok cfg (Newsfilter.SockMessage s None iso_now) w = w /\
  Newsfilter.step url_ok cfg (Newsfilter.SockMessage s (Some VNull) iso_now) w = w.
Proof.
  intros Hd. unfold Newsfilter.forward_payload. cbn [get Newsfilter.own_enumerable].
  repeat split.
  - apply field_set_field_eq.
  - rewrite field_set_field_ne by discriminate. apply field_set_field_eq.
  - intros k H1 H2. rewrite !field_set_field_ne by assumption.
    rewrite field_spread by exact Hd. cbn [field].
    case_bool_decide as Hin; [reflexivity|]. symmetry. by apply field_absent.
Qed.

Lemma newsfilter_forwarding_witness :
  get (Newsfilter.forward_payload
         (VObj [ ("headline", VStr "X"); ("source", VStr "Reuters") ]) demo_iso) "source"
    = VStr "newsfilter-bridge" /\
  get (Newsfilter.forward_payload
         (VObj [ ("headline", VStr "X"); ("source", VStr "Reuters") ]) demo_iso) "headline"
    = VStr "X".
Proof.
  destruct (newsfilter_forwarding (fun _ => true)
              {| Newsfilter.NEWSFILTER_WS_URL := None; Newsfilter.NEWSFILTER_API_KEY := None;
                 Newsfilter.N8N_WEBHOOK_URL := None; Newsfilter.BRIDGE_SECRET_env := None |}
              Newsfilter.world0 0
              [ ("headline", VStr "X"); ("source", VStr "Reuters") ] demo_iso)
    as (_ & H1 & _ & H2 & _).
  - apply (bool_decide_eq_true_1 _). reflexivity.
  - split; [exact H1 | apply H2; discriminate].
Defined.
